(** * InterVis: the time-series dialog and the main window

    A shallow embedding of [src/ui/timeseries_dialog.py] and of the
    controller methods of [src/main_window.py].

    Conventions of the embedding
    - Python [int] is [Z]; a Python [float] is idealised as an exact
      rational ([Q]); the complex spectrum returned by [np.fft.fft] is a
      pair of reals, since its entries are sums of products with roots
      of unity.
    - A widget is a record of the properties the code reads or writes;
      a method of a class is a function from the object's state to its
      new state, together with the list of modal boxes and other
      outward actions it performs, in program order.
    - Collaborators whose code is not part of these two files (the data
      manager, the formula engine, the handlers) appear as records of the
      answers they give during one handler; a method of theirs that changes
      them is a parameter of the handler that calls it, and a call into
      them that is not modelled further is an entry of the effect log.
    - A Python [str] is a [string] of UTF-8 bytes, and its characters are
      the code points these bytes encode.
    - What depends on the installed libraries and not on the code (how
      PyQt6 takes a NumPy boolean) is a parameter as well. *)

From Stdlib Require Import ZArith QArith Qabs Qreals Reals Lra Lia List Bool Ascii String.
From Stdlib Require Import Orders Mergesort Sorted Permutation.
From stdpp Require Import base gmap strings pretty list.
Import ListNotations.
Open Scope string_scope.
Open Scope list_scope.

(** ** Python values *)

Module Py.

(** The result of a call placed inside a [try] block. *)
Inductive outcome (A : Type) : Type :=
| Returned (a : A)
| Raised (msg : string).
Arguments Returned {A} a.
Arguments Raised {A} msg.

(** [d.get(key, default)] on a dict. *)
Definition dict_get {V : Type} (d : gmap string V) (key : string) (default : V) : V :=
  match d !! key with
  | Some v => v
  | None => default
  end.

(** A UTF-8 continuation byte, 10xxxxxx. *)
Definition is_continuation (c : ascii) : bool :=
  let n := nat_of_ascii c in (128 <=? n)%nat && (n <? 192)%nat.

(** The characters of a [str]: each code point of the UTF-8 string, as the
    bytes that encode it (a leading byte and the continuation bytes that
    follow it). *)
Fixpoint chars (s : string) : list string :=
  match s with
  | EmptyString => []
  | String c rest =>
      match chars rest with
      | String c' ch :: more =>
          if is_continuation c' then String c (String c' ch) :: more
          else String c EmptyString :: String c' ch :: more
      | more => String c EmptyString :: more
      end
  end.

(** [ch.isspace()] for one character, which is also the white space that
    [str.strip] removes: U+0009 to U+000D, U+001C to U+0020, U+0085,
    U+00A0, U+1680, U+2000 to U+200A, U+2028, U+2029, U+202F, U+205F and
    U+3000, here by their UTF-8 bytes. *)
Definition isspace (ch : string) : bool :=
  match map N_of_ascii (list_ascii_of_string ch) with
  | [a] => ((9 <=? a) && (a <=? 13) || (28 <=? a) && (a <=? 32))%N
  | [a; b] => ((a =? 194) && ((b =? 133) || (b =? 160)))%N
  | [a; b; c] =>
      ((a =? 225) && (b =? 154) && (c =? 128)
       || (a =? 226) && (b =? 128)
          && ((128 <=? c) && (c <=? 138) || (c =? 168) || (c =? 169) || (c =? 175))
       || (a =? 226) && (b =? 129) && (c =? 159)
       || (a =? 227) && (b =? 128) && (c =? 128))%N
  | _ => false
  end.

(** The characters left once the leading white space is dropped. *)
Fixpoint drop_space (cs : list string) : list string :=
  match cs with
  | [] => []
  | ch :: rest => if isspace ch then drop_space rest else cs
  end.

(** [s.lstrip()], [s.rstrip()] and [s.strip()]. *)
Definition lstrip (s : string) : string := String.concat "" (drop_space (chars s)).

Definition rstrip (s : string) : string :=
  String.concat "" (rev (drop_space (rev (chars s)))).

Definition strip (s : string) : string :=
  String.concat "" (rev (drop_space (rev (drop_space (chars s))))).

Definition startswith (s pre : string) : bool := String.prefix pre s.

(** [s.split(sep)] for a one-character separator: never the empty list. *)
Fixpoint split (sep : ascii) (s : string) : list string :=
  match s with
  | EmptyString => [EmptyString]
  | String c rest =>
      if Ascii.eqb c sep then EmptyString :: split sep rest
      else match split sep rest with
           | [] => [String c EmptyString]
           | field :: fields => String c field :: fields
           end
  end.

(** [sep.join(parts)]. *)
Fixpoint join (sep : string) (parts : list string) : string :=
  match parts with
  | [] => EmptyString
  | [p] => p
  | p :: rest => p +:+ sep +:+ join sep rest
  end.

(** [s[:n]]: the first [n] code points of a UTF-8 string. *)
Fixpoint slice_to (n : nat) (s : string) : string :=
  match s with
  | EmptyString => EmptyString
  | String c rest =>
      if is_continuation c then String c (slice_to n rest)
      else match n with
           | O => EmptyString
           | S n' => String c (slice_to n' rest)
           end
  end.

(** Truthiness of a string: [if s:]. *)
Definition truthy (s : string) : bool :=
  match s with EmptyString => false | _ => true end.

(** [str(z)] for an [int]. *)
Definition str_int (z : Z) : string := pretty z.

(** [n] zeros. *)
Fixpoint zeros (n : nat) : string :=
  match n with
  | O => EmptyString
  | S n' => String "0" (zeros n')
  end.

(** [digits] padded with zeros on the left to [width] characters; longer
    ones are kept as they are. *)
Definition zero_pad (width : nat) (digits : string) : string :=
  zeros (width - String.length digits) +:+ digits.

(** Rounding of a non-negative rational to the nearest integer, ties to
    even: what the correctly rounded decimal conversion of [format] does
    with the exact value of the number. *)
Definition round_half_even (q : Q) : Z :=
  let fl := (Qnum q / Z.pos (Qden q))%Z in
  let twice_rem := (2 * (Qnum q mod Z.pos (Qden q)))%Z in
  if (twice_rem <? Z.pos (Qden q))%Z then fl
  else if (Z.pos (Qden q) <? twice_rem)%Z then (fl + 1)%Z
  else if Z.even fl then fl else (fl + 1)%Z.

(** [f"{q:.{digits}f}"]: fixed-point notation with [digits] decimals. *)
Definition format_fixed (digits : nat) (q : Q) : string :=
  let scale := (10 ^ Z.of_nat digits)%Z in
  let scaled := round_half_even (Qabs q * inject_Z scale) in
  let whole := pretty (scaled / scale)%Z in
  let frac := zero_pad digits (pretty (scaled mod scale)%Z) in
  let sign := if (Qnum q <? 0)%Z then "-" else "" in
  match digits with
  | O => sign +:+ whole
  | _ => sign +:+ whole +:+ "." +:+ String.substring (String.length frac - digits) digits frac
  end.

End Py.

(** The order of Python strings is the order of their code points, which
    is the bytewise order of their UTF-8 encodings. *)
Module StringOrder <: Orders.TotalLeBool.
Definition t : Type := string.
Definition leb : string -> string -> bool := String.leb.
Lemma leb_total (a b : string) : leb a b = true \/ leb b a = true.
Proof. apply String.leb_total. Qed.
End StringOrder.

Module StringSort := Mergesort.Sort StringOrder.

(** ** NumPy on one-dimensional arrays *)

Module Np.

Definition Qlt_bool (x y : Q) : bool := negb (Qle_bool y x).

(** [np.diff(a)]: [out[i] = a[i+1] - a[i]]. *)
Fixpoint diff (a : list Q) : list Q :=
  match a with
  | x :: ((y :: _) as rest) => (y - x)%Q :: diff rest
  | _ => []
  end.

Definition sum (a : list Q) : Q := fold_right Qplus 0%Q a.

(** [np.mean(a)]: the sum over the number of elements. *)
Definition mean (a : list Q) : Q :=
  (sum a / inject_Z (Z.of_nat (length a)))%Q.

(** [np.all(a > 0)] and [np.any(a <= 0)]. *)
Definition all_positive (a : list Q) : bool := forallb (fun d => Qlt_bool 0 d) a.
Definition any_nonpositive (a : list Q) : bool := existsb (fun d => Qle_bool d 0) a.

(** Complex numbers as pairs of reals. *)
Definition C : Type := (R * R)%type.
Definition Czero : C := (0%R, 0%R).
Definition Cadd (a b : C) : C := ((fst a + fst b)%R, (snd a + snd b)%R).
Definition Cscale (x : R) (a : C) : C := ((x * fst a)%R, (x * snd a)%R).

(** [exp(-2 pi i k n / N)]. *)
Definition twiddle (N k n : nat) : C :=
  let theta := (- (2 * PI * INR k * INR n) / INR N)%R in
  (cos theta, sin theta).

(** The terms [x[n] * exp(-2 pi i k n / N)] of bin [k], for the entries of
    [x] from position [n] on. *)
Fixpoint fft_terms (N k n : nat) (x : list Q) : list C :=
  match x with
  | [] => []
  | xn :: rest => Cscale (Q2R xn) (twiddle N k n) :: fft_terms N k (S n) rest
  end.

(** [np.fft.fft(x)]: [y[k] = sum_n x[n] exp(-2 pi i k n / N)], [N = len(x)]. *)
Definition fft_bin (x : list Q) (k : nat) : C :=
  fold_right Cadd Czero (fft_terms (length x) k 0 x).

Definition fft (x : list Q) : list C :=
  map (fft_bin x) (seq 0 (length x)).

(** [np.abs] of a complex number. *)
Definition abs (a : C) : R := sqrt (fst a * fst a + snd a * snd a).

(** [np.fft.fftfreq(n, d)]: the integers [0 .. (n-1)//2] followed by
    [-(n//2) .. -1], each times [1/(n*d)]. *)
Definition fftfreq (n : nat) (d : Q) : list Q :=
  let val := (1 / (inject_Z (Z.of_nat n) * d))%Q in
  let N := ((n - 1) / 2 + 1)%nat in
  let p1 := map Z.of_nat (seq 0 N) in
  let p2 := map (fun i => (Z.of_nat i - Z.of_nat (n / 2))%Z) (seq 0 (n / 2)) in
  map (fun i => (inject_Z i * val)%Q) (firstn n (p1 ++ p2)).

End Np.

(** ** Qt and Matplotlib objects *)

Module Qt.

(** The line feed, written ["\n"] in the source. *)
Definition nl : ascii := ascii_of_nat 10.
Definition NL : string := String nl EmptyString.

(** A [QComboBox] that is not editable: its items and the current index,
    [None] standing for Qt's -1. *)
Record QComboBox : Type := mkCombo {
  items : list string;
  currentIndex : option nat
}.

Definition empty_combo : QComboBox := mkCombo [] None.

(** [addItems] appends; an empty box that receives items selects the
    first one. *)
Definition addItems (new : list string) (c : QComboBox) : QComboBox :=
  let all := items c ++ new in
  mkCombo all
    (match currentIndex c, all with
     | None, _ :: _ => Some O
     | idx, _ => idx
     end).

(** [currentText]: the empty string when there is no current item. *)
Definition currentText (c : QComboBox) : string :=
  match currentIndex c with
  | Some i => nth i (items c) EmptyString
  | None => EmptyString
  end.

(** The kinds of [QMessageBox] the code opens. *)
Inductive box_kind : Type := Warning | Information | Critical | Question.

(** A Matplotlib axes: the lines drawn with [plot], the texts placed with
    [text], the title, the axis labels, the grid switch and whether the
    tick labels were emptied. *)
Record Axes (Y : Type) : Type := mkAxes {
  lines : list (list Q * list Y);
  texts : list string;
  title : string;
  xlabel : string;
  ylabel : string;
  grid : bool;
  ticklabels_emptied : bool
}.
Arguments mkAxes {Y}.
Arguments lines {Y}.
Arguments texts {Y}.
Arguments title {Y}.
Arguments xlabel {Y}.
Arguments ylabel {Y}.
Arguments grid {Y}.
Arguments ticklabels_emptied {Y}.

(** [ax.clear()]. *)
Definition cleared {Y : Type} : Axes Y := mkAxes [] [] "" "" "" false false.

(** [ax.clear(); ax.text(..., msg, ...)]. *)
Definition only_text {Y : Type} (msg : string) : Axes Y :=
  mkAxes [] [msg] "" "" "" false false.

(** [ax.text(..., msg, ...)] on axes that are not cleared first. *)
Definition add_text {Y : Type} (msg : string) (a : Axes Y) : Axes Y :=
  mkAxes (lines a) (texts a ++ [msg]) (title a) (xlabel a) (ylabel a) (grid a)
    (ticklabels_emptied a).

(** What [widget.setEnabled(b)] does when [b] is the [numpy.bool] that
    [np.all] returns and not a Python [bool]. PyQt6 converts the argument
    to an integer: a NumPy boolean allows that up to NumPy 2.2, and the
    widget is enabled or disabled by its truth value; from NumPy 2.3 on it
    does not, and the call raises a [TypeError] with a message of PyQt6. *)
Inductive numpy_bool_argument : Type :=
| Converted
| TypeError (message : string).

End Qt.

(** ** src/ui/timeseries_dialog.py *)

Module TimeSeriesDialog.
Import Qt.

(** The dataframe returned by [get_timeseries_at_point]: one row per frame,
    holding the value of the time column ([df[time_col_name]]) and the value
    of the selected variable ([df[selected_variable]]). *)
Definition DataFrame : Type := list (Q * Q).

Definition times (df : DataFrame) : list Q := map fst df.
Definition values (df : DataFrame) : list Q := map snd df.

(** [df.empty]. *)
Definition empty (df : DataFrame) : bool :=
  match df with [] => true | _ => false end.

(** What the dialog asks of the data manager. *)
Record DataManager : Type := mkDM {
  get_variables : list string;
  time_variable : string;
  global_stats : gmap string Q;
  get_timeseries_at_point : string -> Q * Q -> Q -> Py.outcome (option DataFrame)
}.

(** The dialog: the widgets and attributes the methods read or write.
    [xf] and [yf] are [None] until [plot_fft] creates the attributes. *)
Record Dialog : Type := mkDialog {
  point_coords : Q * Q;
  output_dir : string;
  variable_combo : QComboBox;
  fft_button : bool;
  export_fft_button : bool;
  current_df : option DataFrame;
  ax_time : Axes Q;
  ax_fft : Axes R;
  xf : option (list Q);
  yf : option (list Np.C);
  canvas_draws : nat
}.

Definition set_axes (at_ : Axes Q) (af : Axes R) (d : Dialog) : Dialog :=
  mkDialog (point_coords d) (output_dir d) (variable_combo d) (fft_button d)
    (export_fft_button d) (current_df d) at_ af (xf d) (yf d) (canvas_draws d).

Definition set_ax_time (a : Axes Q) (d : Dialog) : Dialog := set_axes a (ax_fft d) d.
Definition set_ax_fft (a : Axes R) (d : Dialog) : Dialog := set_axes (ax_time d) a d.

Definition set_buttons (fft export : bool) (d : Dialog) : Dialog :=
  mkDialog (point_coords d) (output_dir d) (variable_combo d) fft export
    (current_df d) (ax_time d) (ax_fft d) (xf d) (yf d) (canvas_draws d).

Definition set_export_button (export : bool) (d : Dialog) : Dialog :=
  set_buttons (fft_button d) export d.

Definition set_current_df (df : option DataFrame) (d : Dialog) : Dialog :=
  mkDialog (point_coords d) (output_dir d) (variable_combo d) (fft_button d)
    (export_fft_button d) df (ax_time d) (ax_fft d) (xf d) (yf d) (canvas_draws d).

Definition set_spectrum (x : list Q) (y : list Np.C) (d : Dialog) : Dialog :=
  mkDialog (point_coords d) (output_dir d) (variable_combo d) (fft_button d)
    (export_fft_button d) (current_df d) (ax_time d) (ax_fft d) (Some x) (Some y)
    (canvas_draws d).

Definition set_combo (c : QComboBox) (d : Dialog) : Dialog :=
  mkDialog (point_coords d) (output_dir d) c (fft_button d)
    (export_fft_button d) (current_df d) (ax_time d) (ax_fft d) (xf d) (yf d)
    (canvas_draws d).

(** [self.canvas.draw()]. *)
Definition draw (d : Dialog) : Dialog :=
  mkDialog (point_coords d) (output_dir d) (variable_combo d) (fft_button d)
    (export_fft_button d) (current_df d) (ax_time d) (ax_fft d) (xf d) (yf d)
    (S (canvas_draws d)).

Definition Qmax (a b : Q) : Q := if Qle_bool a b then b else a.

(** The search radius of [plot_data]:
    [max(x_range * 0.01, y_range * 0.01, 1e-6)]. *)
Definition tolerance (dm : DataManager) : Q :=
  let x_range := (Py.dict_get (global_stats dm) "x_global_max" 1
                  - Py.dict_get (global_stats dm) "x_global_min" 0)%Q in
  let y_range := (Py.dict_get (global_stats dm) "y_global_max" 1
                  - Py.dict_get (global_stats dm) "y_global_min" 0)%Q in
  Qmax (Qmax (x_range * (1 # 100)) (y_range * (1 # 100))) (1 # 1000000).

(** [len(df) > 1 and np.all(np.diff(df[time_col_name]) > 0)]. *)
Definition is_valid_for_fft (df : DataFrame) : bool :=
  (1 <? length df)%nat && Np.all_positive (Np.diff (times df)).

(** The FFT axes as [plot_data] leaves them: cleared, tick labels emptied,
    title and labels set. *)
Definition fft_placeholder : Axes R :=
  mkAxes [] [] "快速傅里叶变换 (FFT)" "频率 (Hz)" "振幅" false true.

(** The time axes after a successful retrieval. *)
Definition time_plot (time_col_name selected_variable : string) (df : DataFrame) : Axes Q :=
  mkAxes [(times df, values df)] []
    ("'" +:+ selected_variable +:+ "' 的时间演化")
    ("时间 (" +:+ time_col_name +:+ ")")
    ("值 (" +:+ selected_variable +:+ ")")
    true false.

(** [plot_data]. The body of the [try] block raises when the data manager
    does, before anything is stored or drawn, and when [setEnabled] refuses
    its argument, after the dataframe is stored and plotted; the handler
    writes the message on the time axes and disables both buttons. The
    argument of [fft_button.setEnabled] is
    [len(df) > 1 and np.all(np.diff(df[time_col_name]) > 0)]: the Python
    [False] for a dataframe of one row, and the NumPy boolean of [np.all]
    for a longer one; [np_bool] says how [setEnabled] takes the latter. *)
Definition plot_data (np_bool : numpy_bool_argument) (dm : DataManager) (d : Dialog)
  : Dialog :=
  let selected_variable := currentText (variable_combo d) in
  if negb (Py.truthy selected_variable) then d
  else
    let d := set_axes cleared fft_placeholder d in
    let d :=
      match get_timeseries_at_point dm selected_variable (point_coords d) (tolerance dm) with
      | Py.Raised e =>
          set_buttons false false
            (set_ax_time (only_text ("绘图失败:" +:+ NL +:+ e)) d)
      | Py.Returned df =>
          let d := set_current_df df d in
          match df with
          | None =>
              set_buttons false false
                (set_ax_time (only_text "在此位置找不到时间序列数据") d)
          | Some rows =>
              if empty rows then
                set_buttons false false
                  (set_ax_time (only_text "在此位置找不到时间序列数据") d)
              else
                let d :=
                  set_ax_time (time_plot (time_variable dm) selected_variable rows) d in
                match (1 <? length rows)%nat, np_bool with
                | true, TypeError e =>
                    set_buttons false false
                      (set_ax_time (add_text ("绘图失败:" +:+ NL +:+ e) (ax_time d)) d)
                | _, _ => set_buttons (is_valid_for_fft rows) false d
                end
          end
      end in
    draw d.

(** [__init__]: the combo box receives every variable but ['source_file'],
    both FFT buttons start disabled, and the constructor ends with a first
    call of [plot_data]. *)
Definition init (np_bool : numpy_bool_argument) (coords : Q * Q) (dm : DataManager)
    (out_dir : string) : Dialog :=
  let plot_vars := List.filter (fun v => negb (String.eqb v "source_file")) (get_variables dm) in
  plot_data np_bool dm
    (mkDialog coords out_dir (addItems plot_vars empty_combo) false false None
       cleared cleared None None 0).

(** The amplitudes [2.0/N * np.abs(yf[0:N//2])]. *)
Definition amplitudes (N : nat) (y : list Np.C) : list R :=
  map (fun c => (2 / INR N * Np.abs c)%R) (firstn (N / 2) y).

(** The FFT axes after a successful [plot_fft]. *)
Definition fft_plot (selected_variable : string) (x : list Q) (amps : list R) : Axes R :=
  mkAxes [(x, amps)] []
    ("'" +:+ selected_variable +:+ "' 的快速傅里叶变换 (FFT)")
    "频率 (Hz)" "振幅" true false.

(** [plot_fft]. The two columns it reads, [df[selected_variable]] and
    [df[time_col_name]], are the two components of the rows. *)
Definition plot_fft (d : Dialog) : Dialog :=
  match current_df d with
  | None => d
  | Some df =>
      if empty df then d
      else
        let selected_variable := currentText (variable_combo d) in
        let signal := values df in
        let timestamps := times df in
        let N := length signal in
        if (N <? 2)%nat then d
        else
          let time_diffs := Np.diff timestamps in
          if Np.any_nonpositive time_diffs then
            set_export_button false
              (draw (set_ax_fft (only_text "时间戳不均匀或无效，无法计算FFT") d))
          else
            let T := Np.mean time_diffs in
            if Qeq_bool T 0 then
              draw (set_ax_fft (only_text "时间步长为零，无法计算FFT") d)
            else
              let y := Np.fft (map (fun s => (s - Np.mean signal)%Q) signal) in
              let x := firstn (N / 2) (Np.fftfreq N T) in
              let d := set_spectrum x y d in
              set_export_button true
                (draw (set_ax_fft (fft_plot selected_variable x (amplitudes N y)) d))
  end.

(** The table handed to [to_csv]: two named columns of equal length. *)
Record Table : Type := mkTable {
  column_names : string * string;
  table_rows : list (Q * R)
}.

(** [pd.DataFrame({name1: xs, name2: ys})] raises a [ValueError] when the
    arrays differ in length. *)
Definition pd_DataFrame (name1 : string) (xs : list Q) (name2 : string) (ys : list R)
  : Py.outcome Table :=
  if (length xs =? length ys)%nat then Py.Returned (mkTable (name1, name2) (combine xs ys))
  else Py.Raised "All arrays must be of the same length".

(** What [export_fft_results_csv] does to the outside. *)
Inductive effect : Type :=
| MessageBox (kind : box_kind) (title text : string)
| MakeDirs (path : string)
| ToCsv (path : string) (table : Table).

(** [export_fft_results_csv]. [file_path] is the joined path of the output
    directory and the generated file name (which carries the wall-clock
    time); [write] is the answer of the file system to [to_csv]. *)
Definition export_fft_results_csv (file_path : string) (write : Py.outcome unit)
    (d : Dialog) : list effect :=
  match xf d, yf d with
  | Some x, Some y =>
      let N := length y in
      let amps := amplitudes N y in
      match pd_DataFrame "Frequency (Hz)" x "Amplitude" amps with
      | Py.Returned df_fft =>
          match write with
          | Py.Returned _ =>
              [MakeDirs (output_dir d); ToCsv file_path df_fft;
               MessageBox Information "成功" ("FFT 结果已成功导出到:" +:+ NL +:+ file_path)]
          | Py.Raised e =>
              [MakeDirs (output_dir d); ToCsv file_path df_fft;
               MessageBox Critical "导出失败" ("导出 FFT 结果失败:" +:+ NL +:+ e)]
          end
      | Py.Raised e =>
          [MakeDirs (output_dir d);
           MessageBox Critical "导出失败" ("导出 FFT 结果失败:" +:+ NL +:+ e)]
      end
  | _, _ => [MessageBox Warning "无数据" "没有可导出的 FFT 结果。请先计算 FFT。"]
  end.

(** What a user can do with an open dialog. *)
Inductive event : Type :=
| SelectVariable (index : nat) (dm : DataManager)
| ClickFft
| ClickExport.

(** Choosing another item of the combo box emits [currentIndexChanged], which
    is connected to [plot_data]; the data manager is the one of that moment. *)
Definition step (np_bool : numpy_bool_argument) (d : Dialog) (e : event) : Dialog :=
  match e with
  | SelectVariable i dm =>
      if (i <? length (items (variable_combo d)))%nat
         && negb (bool_decide (currentIndex (variable_combo d) = Some i))
      then plot_data np_bool dm (set_combo (mkCombo (items (variable_combo d)) (Some i)) d)
      else d
  | ClickFft => plot_fft d
  | ClickExport => d
  end.

Definition run (np_bool : numpy_bool_argument) (d : Dialog) (events : list event)
  : Dialog :=
  fold_left (step np_bool) events d.

End TimeSeriesDialog.

(** ** src/main_window.py *)

Module MainWindow.
Import Qt.

(** *** Collaborators *)

(** A scalar stored in a frame-info dict. [Float] stands for a Python
    [float] or a NumPy number, [Int] for a Python [int]. *)
Inductive scalar : Type :=
| Float (q : Q)
| Int (z : Z)
| Str (s : string).

(** A frame of data, and an interpolated grid of the plot widget. *)
Definition Frame : Type := gmap string (list Q).
Definition Grid : Type := list (list Q).

(** The dict returned by [get_database_info]; [None] is an absent key. *)
Record DatabaseInfo : Type := mkDatabaseInfo {
  info_frame_count : option Z;
  info_variables : option (list string);
  info_db_size_mb : option Q;
  info_zarr_size_mb : option Q
}.

(** The dict returned by [get_cache_info], read under ['size'] and
    ['max_size']. *)
Record CacheInfo : Type := mkCacheInfo {
  info_size : Z;
  info_max_size : Z
}.

(** The data manager as the main window sees it during one handler: the
    answers of its queries. *)
Record DataManager : Type := mkDM {
  setup_project_directory : string -> bool;
  is_database_ready : bool;
  get_frame_count : Z;
  get_variables : list string;
  get_frame_data : Z -> option (gset string) -> option Frame;
  get_time_averaged_data : Z -> Z -> option Frame;
  get_frame_info : Z -> option (gmap string scalar);
  get_database_info : DatabaseInfo;
  set_global_filter : string -> Py.outcome unit;
  time_variable : string;
  zarr_path : option string;
  db_path : option string;
  get_cache_info : CacheInfo
}.

(** [sorted(names)]. *)
Definition sorted (names : list string) : list string := StringSort.sort names.

(** The formula engine: [validate_syntax] returns [(is_valid, error_msg)]. *)
Record FormulaEngine : Type := mkFE {
  validate_syntax : string -> bool * string;
  get_used_variables : string -> gset string
}.

(** [config_handler.get_current_config()]. An optional field is a key read
    with [.get]. *)
Record LayerConfig : Type := mkLayer {
  layer_enabled : option bool;
  layer_formula : option string
}.

Record VectorConfig : Type := mkVector {
  vector_enabled : option bool;
  u_formula : option string;
  v_formula : option string
}.

Record Config : Type := mkConfig {
  cfg_heatmap : LayerConfig;
  cfg_contour : LayerConfig;
  cfg_vector : VectorConfig;
  cfg_x_formula : option string;
  cfg_y_formula : option string;
  cfg_time_average_enabled : bool;
  cfg_start_frame : Z;
  cfg_end_frame : Z
}.

(** [d.get('enabled')] used as a condition. *)
Definition enabled (flag : option bool) : bool :=
  match flag with Some b => b | None => false end.

(** *** Widgets *)

Inductive editor_kind : Type := QLineEdit | QTextEdit.

(** A formula editor: a [QLineEdit] (read with [text()]) or a multi-line
    editor (read with [toPlainText()]). *)
Record Editor : Type := mkEditor {
  kind : editor_kind;
  text : string;
  styleSheet : string;
  toolTip : string
}.

(** The editors of [_get_all_formula_editors], in its order. *)
Inductive editor_id : Type :=
| x_axis_formula | y_axis_formula | chart_title_edit | heatmap_formula
| contour_formula | vector_u_formula | vector_v_formula
| new_variable_formula_edit | filter_text_edit | new_time_agg_formula_edit.

#[export] Instance editor_id_eq_dec : EqDecision editor_id.
Proof. solve_decision. Defined.

Definition _get_all_formula_editors : list editor_id :=
  [x_axis_formula; y_axis_formula; chart_title_edit; heatmap_formula;
   contour_formula; vector_u_formula; vector_v_formula;
   new_variable_formula_edit; filter_text_edit; new_time_agg_formula_edit].

Inductive PickerMode : Type := TIMESERIES | PROFILE_START | PROFILE_END | VMIN | VMAX.

#[export] Instance PickerMode_eq_dec : EqDecision PickerMode.
Proof. solve_decision. Defined.

(** The plot widget: what the main window reads and writes of it. *)
Record PlotWidget : Type := mkPlot {
  picker_mode : option PickerMode;
  interpolated_results : option (gmap string (option Grid));
  last_mouse_coords : option (Q * Q);
  plot_data : option Frame;
  plot_config : option Config
}.

(** A [QSlider]: [setValue] and [setMaximum] keep the value in range. *)
Record Slider : Type := mkSlider {
  minimum : Z;
  maximum : Z;
  value : Z
}.

Definition bound (lo hi v : Z) : Z := Z.max lo (Z.min hi v).

Definition setValue (v : Z) (s : Slider) : Slider :=
  mkSlider (minimum s) (maximum s) (bound (minimum s) (maximum s) v).

Definition setMaximum (m : Z) (s : Slider) : Slider :=
  let lo := Z.min (minimum s) m in
  mkSlider lo m (bound lo m (value s)).

Record Label : Type := mkLabel {
  label_text : string;
  label_toolTip : string
}.

(** The modal progress dialog of the import. *)
Record ImportDialog : Type := mkImportDialog {
  import_message : string;
  isVisible : bool
}.

Inductive signal : Type := progress | log_message | finished | error.

#[export] Instance signal_eq_dec : EqDecision signal.
Proof. solve_decision. Defined.

Inductive slot : Type :=
| update_progress | set_log_message | on_import_finished | on_error.

(** The import worker: the connections of its signals, in the order they
    were made, and whether [start] was called. *)
Record DataImportWorker : Type := mkWorker {
  connections : list (signal * slot);
  started : bool
}.

Record ProfilePlotDialog : Type := mkProfileDialog {
  start_point : Q * Q;
  end_point : Q * Q;
  profile_results : gmap string (option Grid);
  available_data : gmap string string;
  profile_output_dir : string;
  profile_visible : bool
}.

Inductive StandardButton : Type := Yes | No | Cancel.

(** What a handler does to the outside, in program order. [AddItem] is
    an unchecked, user-checkable item appended to a list widget; [Call] is
    a call into a handler or a widget that is not modelled further. *)
Inductive effect : Type :=
| MessageBox (kind : box_kind) (title text : string)
| StatusMessage (text : string) (timeout : Z)
| StatusClear
| Connect (sig : signal) (target : slot)
| WorkerStart
| DialogExec
| DialogAccept
| OpenProfileDialog (dialog : ProfilePlotDialog)
| CloseProfileDialog
| ProbeAt (coords : Q * Q)
| SetMaximum (widget : string) (v : Z)
| SetValue (widget : string) (v : Z)
| SetEnabled (widget : string) (on : bool)
| AddItem (widget : string) (text : string)
| Call (callee : string).

(** *** The window *)

(** The attributes of [MainWindow] and the widgets of [self.ui] that the
    embedded methods touch. [config] is the answer of
    [config_handler.get_current_config()]; [log] collects the effects. *)
Record Window : Type := mkWindow {
  data_manager : DataManager;
  formula_engine : FormulaEngine;
  config : Config;
  project_dir : string;
  output_dir : string;
  current_frame_index : Z;
  _should_reset_view_after_refresh : bool;
  import_worker : option DataImportWorker;
  import_progress_dialog : option ImportDialog;
  profile_dialog : option ProfilePlotDialog;
  editor : editor_id -> Editor;
  filter_enabled_checkbox : bool;
  draw_profile_btn : bool;
  plot_widget : PlotWidget;
  time_slider : Slider;
  frame_info_label : string;
  timestamp_label : string;
  cache_label : string;
  db_info_label : Label;
  cache_size_spinbox : Z;
  log : list effect
}.

Definition set_data_manager (v : DataManager) (w : Window) : Window :=
  mkWindow v (formula_engine w) (config w) (project_dir w) (output_dir w)
    (current_frame_index w) (_should_reset_view_after_refresh w)
    (import_worker w) (import_progress_dialog w) (profile_dialog w) (editor w)
    (filter_enabled_checkbox w) (draw_profile_btn w) (plot_widget w)
    (time_slider w) (frame_info_label w) (timestamp_label w) (cache_label w)
    (db_info_label w) (cache_size_spinbox w) (log w).

Definition set_current_frame_index (v : Z) (w : Window) : Window :=
  mkWindow (data_manager w) (formula_engine w) (config w) (project_dir w)
    (output_dir w) v (_should_reset_view_after_refresh w) (import_worker w)
    (import_progress_dialog w) (profile_dialog w) (editor w)
    (filter_enabled_checkbox w) (draw_profile_btn w) (plot_widget w)
    (time_slider w) (frame_info_label w) (timestamp_label w) (cache_label w)
    (db_info_label w) (cache_size_spinbox w) (log w).

Definition set_should_reset_view_after_refresh (v : bool) (w : Window) : Window :=
  mkWindow (data_manager w) (formula_engine w) (config w) (project_dir w)
    (output_dir w) (current_frame_index w) v (import_worker w)
    (import_progress_dialog w) (profile_dialog w) (editor w)
    (filter_enabled_checkbox w) (draw_profile_btn w) (plot_widget w)
    (time_slider w) (frame_info_label w) (timestamp_label w) (cache_label w)
    (db_info_label w) (cache_size_spinbox w) (log w).

Definition set_import_worker (v : option DataImportWorker) (w : Window) : Window :=
  mkWindow (data_manager w) (formula_engine w) (config w) (project_dir w)
    (output_dir w) (current_frame_index w)
    (_should_reset_view_after_refresh w) v (import_progress_dialog w)
    (profile_dialog w) (editor w) (filter_enabled_checkbox w)
    (draw_profile_btn w) (plot_widget w) (time_slider w) (frame_info_label w)
    (timestamp_label w) (cache_label w) (db_info_label w)
    (cache_size_spinbox w) (log w).

Definition set_import_progress_dialog (v : option ImportDialog) (w : Window) : Window :=
  mkWindow (data_manager w) (formula_engine w) (config w) (project_dir w)
    (output_dir w) (current_frame_index w)
    (_should_reset_view_after_refresh w) (import_worker w) v
    (profile_dialog w) (editor w) (filter_enabled_checkbox w)
    (draw_profile_btn w) (plot_widget w) (time_slider w) (frame_info_label w)
    (timestamp_label w) (cache_label w) (db_info_label w)
    (cache_size_spinbox w) (log w).

Definition set_profile_dialog (v : option ProfilePlotDialog) (w : Window) : Window :=
  mkWindow (data_manager w) (formula_engine w) (config w) (project_dir w)
    (output_dir w) (current_frame_index w)
    (_should_reset_view_after_refresh w) (import_worker w)
    (import_progress_dialog w) v (editor w) (filter_enabled_checkbox w)
    (draw_profile_btn w) (plot_widget w) (time_slider w) (frame_info_label w)
    (timestamp_label w) (cache_label w) (db_info_label w)
    (cache_size_spinbox w) (log w).

Definition set_editor (v : editor_id -> Editor) (w : Window) : Window :=
  mkWindow (data_manager w) (formula_engine w) (config w) (project_dir w)
    (output_dir w) (current_frame_index w)
    (_should_reset_view_after_refresh w) (import_worker w)
    (import_progress_dialog w) (profile_dialog w) v
    (filter_enabled_checkbox w) (draw_profile_btn w) (plot_widget w)
    (time_slider w) (frame_info_label w) (timestamp_label w) (cache_label w)
    (db_info_label w) (cache_size_spinbox w) (log w).

Definition set_draw_profile_btn (v : bool) (w : Window) : Window :=
  mkWindow (data_manager w) (formula_engine w) (config w) (project_dir w)
    (output_dir w) (current_frame_index w)
    (_should_reset_view_after_refresh w) (import_worker w)
    (import_progress_dialog w) (profile_dialog w) (editor w)
    (filter_enabled_checkbox w) v (plot_widget w) (time_slider w)
    (frame_info_label w) (timestamp_label w) (cache_label w) (db_info_label w)
    (cache_size_spinbox w) (log w).

Definition set_plot_widget (v : PlotWidget) (w : Window) : Window :=
  mkWindow (data_manager w) (formula_engine w) (config w) (project_dir w)
    (output_dir w) (current_frame_index w)
    (_should_reset_view_after_refresh w) (import_worker w)
    (import_progress_dialog w) (profile_dialog w) (editor w)
    (filter_enabled_checkbox w) (draw_profile_btn w) v (time_slider w)
    (frame_info_label w) (timestamp_label w) (cache_label w) (db_info_label w)
    (cache_size_spinbox w) (log w).

Definition set_time_slider (v : Slider) (w : Window) : Window :=
  mkWindow (data_manager w) (formula_engine w) (config w) (project_dir w)
    (output_dir w) (current_frame_index w)
    (_should_reset_view_after_refresh w) (import_worker w)
    (import_progress_dialog w) (profile_dialog w) (editor w)
    (filter_enabled_checkbox w) (draw_profile_btn w) (plot_widget w) v
    (frame_info_label w) (timestamp_label w) (cache_label w) (db_info_label w)
    (cache_size_spinbox w) (log w).

Definition set_frame_info_label (v : string) (w : Window) : Window :=
  mkWindow (data_manager w) (formula_engine w) (config w) (project_dir w)
    (output_dir w) (current_frame_index w)
    (_should_reset_view_after_refresh w) (import_worker w)
    (import_progress_dialog w) (profile_dialog w) (editor w)
    (filter_enabled_checkbox w) (draw_profile_btn w) (plot_widget w)
    (time_slider w) v (timestamp_label w) (cache_label w) (db_info_label w)
    (cache_size_spinbox w) (log w).

Definition set_timestamp_label (v : string) (w : Window) : Window :=
  mkWindow (data_manager w) (formula_engine w) (config w) (project_dir w)
    (output_dir w) (current_frame_index w)
    (_should_reset_view_after_refresh w) (import_worker w)
    (import_progress_dialog w) (profile_dialog w) (editor w)
    (filter_enabled_checkbox w) (draw_profile_btn w) (plot_widget w)
    (time_slider w) (frame_info_label w) v (cache_label w) (db_info_label w)
    (cache_size_spinbox w) (log w).

Definition set_cache_label (v : string) (w : Window) : Window :=
  mkWindow (data_manager w) (formula_engine w) (config w) (project_dir w)
    (output_dir w) (current_frame_index w)
    (_should_reset_view_after_refresh w) (import_worker w)
    (import_progress_dialog w) (profile_dialog w) (editor w)
    (filter_enabled_checkbox w) (draw_profile_btn w) (plot_widget w)
    (time_slider w) (frame_info_label w) (timestamp_label w) v
    (db_info_label w) (cache_size_spinbox w) (log w).

Definition set_db_info_label (v : Label) (w : Window) : Window :=
  mkWindow (data_manager w) (formula_engine w) (config w) (project_dir w)
    (output_dir w) (current_frame_index w)
    (_should_reset_view_after_refresh w) (import_worker w)
    (import_progress_dialog w) (profile_dialog w) (editor w)
    (filter_enabled_checkbox w) (draw_profile_btn w) (plot_widget w)
    (time_slider w) (frame_info_label w) (timestamp_label w) (cache_label w) v
    (cache_size_spinbox w) (log w).

Definition set_log (v : list effect) (w : Window) : Window :=
  mkWindow (data_manager w) (formula_engine w) (config w) (project_dir w)
    (output_dir w) (current_frame_index w)
    (_should_reset_view_after_refresh w) (import_worker w)
    (import_progress_dialog w) (profile_dialog w) (editor w)
    (filter_enabled_checkbox w) (draw_profile_btn w) (plot_widget w)
    (time_slider w) (frame_info_label w) (timestamp_label w) (cache_label w)
    (db_info_label w) (cache_size_spinbox w) v.

Definition emit (e : effect) (w : Window) : Window := set_log (log w ++ [e]) w.

Definition showMessage (msg : string) (timeout : Z) : Window -> Window :=
  emit (StatusMessage msg timeout).

(** *** Formula validation *)

(** The tooltip line of a multi-line editor:
    [f"Line '{line[:30]}...': {error_msg}"]. *)
Definition line_error (line error_msg : string) : string :=
  "Line '" +:+ Py.slice_to 30 line +:+ "...': " +:+ error_msg.

(** The test that decides whether a line of a multi-line editor is
    validated: [line.strip() and not line.strip().startswith('#')]. *)
Definition is_formula_line (line : string) : bool :=
  Py.truthy (Py.strip line) && negb (Py.startswith (Py.strip line) "#").

(** One turn of the loop over the lines; the accumulator is
    [(all_valid, errors)]. *)
Definition check_line (fe : FormulaEngine) (acc : bool * list string) (line : string)
  : bool * list string :=
  if is_formula_line line then
    let '(is_valid, error_msg) := validate_syntax fe line in
    if is_valid then acc else (false, [line_error line error_msg])
  else acc.

Definition check_editor (fe : FormulaEngine) (e : Editor) : bool * list string :=
  match kind e with
  | QLineEdit =>
      let '(is_valid, error_msg) := validate_syntax fe (text e) in
      if is_valid then (true, []) else (false, [error_msg])
  | QTextEdit => fold_left (check_line fe) (Py.split nl (text e)) (true, [])
  end.

(** The body of the loop of [_validate_all_formulas] for one editor. *)
Definition validate_editor (fe : FormulaEngine) (e : Editor) : Editor :=
  let '(all_valid, errors) := check_editor fe e in
  mkEditor (kind e) (text e)
    (if all_valid then "" else "background-color: #ffe0e0;")
    (Py.join NL errors).

Definition update_editor (id : editor_id) (e : Editor) (f : editor_id -> Editor)
  : editor_id -> Editor :=
  fun j => if decide (j = id) then e else f j.

Definition _validate_all_formulas (w : Window) : Window :=
  fold_left
    (fun w id =>
       set_editor (update_editor id (validate_editor (formula_engine w) (editor w id)) (editor w)) w)
    _get_all_formula_editors w.

(** *** Labels *)

(** [str(p)] of a path attribute that may be [None]. *)
Definition str_path (p : option string) : string :=
  match p with Some s => s | None => "None" end.

Definition db_info_text (info : DatabaseInfo) : string :=
  let fc := default 0%Z (info_frame_count info) in
  let variables := default [] (info_variables info) in
  let db_size := default 0%Q (info_db_size_mb info) in
  let zarr_size := default 0%Q (info_zarr_size_mb info) in
  "帧: " +:+ Py.str_int fc +:+ " | 变量: " +:+ Py.str_int (Z.of_nat (length variables))
  +:+ " | 大小: " +:+ Py.format_fixed 2 zarr_size +:+ " MB (数据) + "
  +:+ Py.format_fixed 2 db_size +:+ " MB (元数据)".

Definition db_tooltip_text (dm : DataManager) : string :=
  "数据 (Zarr): " +:+ str_path (zarr_path dm) +:+ NL
  +:+ "元数据 (SQLite): " +:+ str_path (db_path dm).

Definition _update_db_info (w : Window) : Window :=
  set_db_info_label
    (mkLabel (db_info_text (get_database_info (data_manager w)))
       (db_tooltip_text (data_manager w))) w.

(** [f"{ts_val:.4f}" if isinstance(ts_val, (float, np.number)) else str(ts_val)]. *)
Definition ts_str (ts_val : scalar) : string :=
  match ts_val with
  | Float q => Py.format_fixed 4 q
  | Int z => Py.str_int z
  | Str s => s
  end.

(** [f"缓存: {info['size']}/{info['max_size']}"]. *)
Definition cache_text (dm : DataManager) : string :=
  "缓存: " +:+ Py.str_int (info_size (get_cache_info dm)) +:+ "/"
  +:+ Py.str_int (info_max_size (get_cache_info dm)).

Definition _update_frame_info (is_time_avg : bool) (start end_ : Z) (w : Window) : Window :=
  let dm := data_manager w in
  let w :=
    if is_time_avg then
      set_timestamp_label ""
        (set_frame_info_label
           ("时间平均: 帧 " +:+ Py.str_int start +:+ "-" +:+ Py.str_int end_) w)
    else
      let fc := get_frame_count dm in
      let w :=
        set_frame_info_label
          ("帧: " +:+ Py.str_int (current_frame_index w + 1) +:+ "/"
           +:+ (if (fc =? 0)%Z then "?" else Py.str_int fc)) w in
      match get_frame_info dm (current_frame_index w) with
      | Some info =>
          match info !! "timestamp" with
          | Some ts_val =>
              set_timestamp_label
                ("时间(" +:+ time_variable dm +:+ "): " +:+ ts_str ts_val) w
          | None => w
          end
      | None => w
      end in
  set_cache_label (cache_text dm) w.

(** *** Frames *)

Definition update_data (data : option Frame) (p : PlotWidget) : PlotWidget :=
  mkPlot (picker_mode p) (interpolated_results p) (last_mouse_coords p) data (plot_config p).

Definition set_config (c : Config) (p : PlotWidget) : PlotWidget :=
  mkPlot (picker_mode p) (interpolated_results p) (last_mouse_coords p) (plot_data p) (Some c).

Definition set_picker_mode (m : option PickerMode) (p : PlotWidget) : PlotWidget :=
  mkPlot m (interpolated_results p) (last_mouse_coords p) (plot_data p) (plot_config p).

Definition _load_frame (frame_index : Z) (required_columns : option (gset string))
    (w : Window) : Window :=
  if negb ((0 <=? frame_index)%Z && (frame_index <? get_frame_count (data_manager w))%Z)
  then w
  else
    match get_frame_data (data_manager w) frame_index required_columns with
    | Some data =>
        let w := set_current_frame_index frame_index w in
        let w := set_time_slider (setValue frame_index (time_slider w)) w in
        let w := set_plot_widget (update_data (Some data) (plot_widget w)) w in
        let w := _update_frame_info false 0 0 w in
        match last_mouse_coords (plot_widget w) with
        | Some coords => emit (ProbeAt coords) w
        | None => w
        end
    | None => w
    end.

(** [filter(None, formulas)]: the formulas that are neither [None] nor
    empty. *)
Definition given_formulas (formulas : list (option string)) : list string :=
  omap (fun f => match f with
                 | Some s => if Py.truthy s then Some s else None
                 | None => None
                 end) formulas.

Definition visible_formulas (c : Config) : list (option string) :=
  [Some (default "x" (cfg_x_formula c)); Some (default "y" (cfg_y_formula c))]
  ++ (if enabled (layer_enabled (cfg_heatmap c)) then [layer_formula (cfg_heatmap c)] else [])
  ++ (if enabled (layer_enabled (cfg_contour c)) then [layer_formula (cfg_contour c)] else [])
  ++ (if enabled (vector_enabled (cfg_vector c))
      then [u_formula (cfg_vector c); v_formula (cfg_vector c)] else []).

Definition required_vars (fe : FormulaEngine) (c : Config) : gset string :=
  fold_left (fun acc f => acc ∪ get_used_variables fe f)
    (given_formulas (visible_formulas c)) ∅.

Definition _apply_visualization_settings (w : Window) : Window :=
  if (get_frame_count (data_manager w) =? 0)%Z then w
  else
    let c := config w in
    let w := set_plot_widget (set_config c (plot_widget w)) w in
    if cfg_time_average_enabled c then
      let start := cfg_start_frame c in
      let end_ := cfg_end_frame c in
      if (end_ <=? start)%Z then
        showMessage "时间平均范围无效：起始帧必须小于结束帧。" 3000 w
      else
        let data := get_time_averaged_data (data_manager w) start end_ in
        let w := set_plot_widget (update_data data (plot_widget w)) w in
        let w := _update_frame_info true start end_ w in
        showMessage "可视化设置已更新。" 2000 w
    else
      let w := _load_frame (current_frame_index w)
                 (Some (required_vars (formula_engine w) c)) w in
      showMessage "可视化设置已更新。" 2000 w.

Definition _force_refresh_plot (reset_view : bool) (w : Window) : Window :=
  _apply_visualization_settings (set_should_reset_view_after_refresh reset_view w).

(** [_apply_cache_settings]. The method [set_cache_size] belongs to the
    data manager, whose code (src/core/data_manager.py) is not part of these
    files: [set_cache_size n dm] stands for the data manager after the call
    [dm.set_cache_size(n)], whatever that method does. *)
Definition _apply_cache_settings (set_cache_size : Z -> DataManager -> DataManager)
    (w : Window) : Window :=
  _update_frame_info false 0 0
    (set_data_manager (set_cache_size (cache_size_spinbox w) (data_manager w)) w).

(** [_apply_global_filter]: a [ValueError] of [set_global_filter] ends the
    [try] block in the critical box. *)
Definition _apply_global_filter (w : Window) : Window :=
  let filter_text :=
    if filter_enabled_checkbox w then text (editor w filter_text_edit) else "" in
  match set_global_filter (data_manager w) filter_text with
  | Py.Raised e => emit (MessageBox Critical "过滤器错误" ("过滤器语法无效: " +:+ e)) w
  | Py.Returned _ =>
      let w := emit (Call "data_manager.set_global_filter") w in
      let w :=
        if Py.truthy filter_text then
          emit (MessageBox Information "过滤器提示"
                  ("全局过滤器已设置。" +:+ NL +:+ NL
                   +:+ "请注意：在当前版本中，此过滤器主要用于数据导出，尚不会影响实时可视化和计算。")) w
        else w in
      showMessage "全局过滤器已应用。" 3000 (_force_refresh_plot false w)
  end.

(** *** Project loading and import *)

Definition compute_buttons : list string :=
  ["compute_and_add_btn"; "compute_and_add_time_agg_btn"; "compute_combined_btn"].

Definition frame_range_widgets : list string :=
  ["video_start_frame"; "video_end_frame"; "time_avg_start_slider";
   "time_avg_start_spinbox"; "time_avg_end_slider"; "time_avg_end_spinbox"].

Definition emit_all (es : list effect) (w : Window) : Window :=
  fold_left (fun w e => emit e w) es w.

Definition _load_project_data (w : Window) : Window :=
  let w := emit (Call "data_manager.post_import_setup") w in
  let w := _update_db_info w in
  let frame_count := get_frame_count (data_manager w) in
  if (0 <? frame_count)%Z then
    let all_vars := get_variables (data_manager w) in
    let w := emit_all
      [Call "_update_variables_table";
       Call "stats_handler.load_definitions_and_stats";
       Call "playback_handler.update_time_axis_candidates";
       Call "formula_engine.update_allowed_variables";
       Call "floating_probe_vars_list.clear"] w in
    let w := emit_all (map (AddItem "floating_probe_vars_list") (sorted all_vars)) w in
    let w := set_time_slider (setMaximum (frame_count - 1) (time_slider w)) w in
    let w := emit_all (map (fun n => SetMaximum n (frame_count - 1)) frame_range_widgets) w in
    let w := emit_all
      [SetValue "video_end_frame" (frame_count - 1);
       SetValue "time_avg_end_spinbox" (frame_count - 1);
       Call "config_handler.populate_config_combobox";
       Call "template_handler.populate_template_combobox";
       Call "theme_handler.populate_theme_combobox"] w in
    let w := emit_all (map (fun n => SetEnabled n true) compute_buttons) w in
    let w := _force_refresh_plot true w in
    showMessage ("项目加载成功，共 " +:+ Py.str_int frame_count +:+ " 帧数据。") 5000 w
  else
    let w := showMessage "项目加载失败：数据存储为空或无法读取。" 5000 w in
    let w := emit (MessageBox Warning "数据为空" "项目加载失败：数据存储为空或无法读取。") w in
    emit_all (map (fun n => SetEnabled n false) compute_buttons) w.

(** [connect] on a signal of the worker. *)
Definition connect (sig : signal) (target : slot) (w : Window) : Window :=
  let w :=
    match import_worker w with
    | Some wk => set_import_worker (Some (mkWorker (connections wk ++ [(sig, target)]) (started wk))) w
    | None => w
    end in
  emit (Connect sig target) w.

(** [self.import_worker.start()]. *)
Definition start_worker (w : Window) : Window :=
  let w :=
    match import_worker w with
    | Some wk => set_import_worker (Some (mkWorker (connections wk) true)) w
    | None => w
    end in
  emit WorkerStart w.

(** [self.import_progress_dialog.exec()]: the dialog is shown and its event
    loop runs; the signals of the worker arrive while it does. *)
Definition exec_dialog (w : Window) : Window :=
  let w :=
    match import_progress_dialog w with
    | Some dlg => set_import_progress_dialog (Some (mkImportDialog (import_message dlg) true)) w
    | None => w
    end in
  emit DialogExec w.

(** [self.import_progress_dialog.accept()]: the dialog closes. *)
Definition accept_dialog (w : Window) : Window :=
  let w :=
    match import_progress_dialog w with
    | Some dlg => set_import_progress_dialog (Some (mkImportDialog (import_message dlg) false)) w
    | None => w
    end in
  emit DialogAccept w.

Definition _start_database_import (w : Window) : Window :=
  let w := set_import_progress_dialog
             (Some (mkImportDialog "正在创建和分析数据存储..." false)) w in
  let w := set_import_worker (Some (mkWorker [] false)) w in
  let w := connect progress update_progress w in
  let w := connect log_message set_log_message w in
  let w := connect finished on_import_finished w in
  let w := connect error on_error w in
  let w := start_worker w in
  exec_dialog w.

Definition _on_import_finished (w : Window) : Window :=
  let w :=
    match import_progress_dialog w with
    | Some _ => accept_dialog w
    | None => w
    end in
  let w := emit (MessageBox Information "导入完成"
                   "数据存储已成功创建，基础统计数据已计算完毕。") w in
  _load_project_data w.

Definition _on_error (message : string) (w : Window) : Window :=
  let w :=
    match import_progress_dialog w with
    | Some dlg => if isVisible dlg then accept_dialog w else w
    | None => w
    end in
  let w := showMessage ("错误: " +:+ message) 5000 w in
  emit (MessageBox Critical "发生错误" message) w.

(** The question of [_initialize_project]. *)
Definition import_question (dir : string) : effect :=
  MessageBox Question "未找到数据存储"
    ("在目录 '" +:+ dir +:+ "' 中未找到数据文件。" +:+ NL +:+ NL
     +:+ "是否从此目录中的所有CSV文件创建新的数据存储？").

(** [_initialize_project]; [reply] is the button the user presses if the
    question is asked. *)
Definition _initialize_project (reply : StandardButton) (w : Window) : Window :=
  if negb (setup_project_directory (data_manager w) (project_dir w)) then w
  else if is_database_ready (data_manager w) then _load_project_data w
  else
    let w := emit (import_question (project_dir w)) w in
    match reply with
    | Yes => _start_database_import w
    | _ => showMessage "操作已取消。请选择一个包含CSV文件或数据存储的项目目录。" 5000 w
    end.

(** A signal emitted by the worker, with its argument. *)
Inductive emission : Type :=
| EmitProgress
| EmitLogMessage
| EmitFinished
| EmitError (message : string).

Definition signal_of (e : emission) : signal :=
  match e with
  | EmitProgress => progress
  | EmitLogMessage => log_message
  | EmitFinished => finished
  | EmitError _ => error
  end.

(** What a connected slot does when its signal arrives. *)
Definition run_slot (e : emission) (target : slot) (w : Window) : Window :=
  match target, e with
  | update_progress, _ => emit (Call "import_progress_dialog.update_progress") w
  | set_log_message, _ => emit (Call "import_progress_dialog.set_log_message") w
  | on_import_finished, _ => _on_import_finished w
  | on_error, EmitError message => _on_error message w
  | on_error, _ => w
  end.

(** Delivery of a signal of the import worker: the slots connected to it
    run in connection order; a signal nothing is connected to is lost. *)
Definition deliver (e : emission) (w : Window) : Window :=
  match import_worker w with
  | Some wk =>
      fold_left (fun w c => if decide (fst c = signal_of e) then run_slot e (snd c) w else w)
        (connections wk) w
  | None => w
  end.

(** *** Profile lines *)

(** [_on_draw_profile_toggled(False)], which [setChecked(False)] triggers
    when the button was checked. *)
Definition _on_draw_profile_untoggled (w : Window) : Window :=
  match picker_mode (plot_widget w) with
  | Some PROFILE_START | Some PROFILE_END =>
      emit StatusClear (set_plot_widget (set_picker_mode None (plot_widget w)) w)
  | _ => w
  end.

(** [self.ui.draw_profile_btn.setChecked(False)]. *)
Definition uncheck_draw_profile_btn (w : Window) : Window :=
  if draw_profile_btn w then _on_draw_profile_untoggled (set_draw_profile_btn false w)
  else w.

(** [f'{key}_data' in results and results[f'{key}_data'] is not None]. *)
Definition has_data (results : gmap string (option Grid)) (key : string) : bool :=
  match results !! (key +:+ "_data") with
  | Some (Some _) => true
  | _ => false
  end.

(** The formula chosen for a key by the [if]/[elif] chain. *)
Definition formula_for (c : Config) (key : string) : string :=
  if String.eqb key "heatmap" && enabled (layer_enabled (cfg_heatmap c))
  then default key (layer_formula (cfg_heatmap c))
  else if String.eqb key "contour" && enabled (layer_enabled (cfg_contour c))
  then default key (layer_formula (cfg_contour c))
  else if String.eqb key "vector_u" && enabled (vector_enabled (cfg_vector c))
  then default key (u_formula (cfg_vector c))
  else if String.eqb key "vector_v" && enabled (vector_enabled (cfg_vector c))
  then default key (v_formula (cfg_vector c))
  else "".

Definition profile_keys : list string := ["heatmap"; "contour"; "vector_u"; "vector_v"].

(** The loop that fills [available_data]. *)
Definition collect_available (results : gmap string (option Grid)) (c : Config)
  : gmap string string :=
  fold_left
    (fun acc key =>
       if has_data results key then
         let formula := formula_for c key in
         if Py.truthy formula then <[key := formula]> acc else acc
       else acc)
    profile_keys ∅.

(** [not self.ui.plot_widget.interpolated_results]: [None] or an empty
    dict. *)
Definition no_results (r : option (gmap string (option Grid))) : bool :=
  match r with
  | None => true
  | Some m => bool_decide (m = ∅)
  end.

Definition _on_profile_line_defined (p1 p2 : Q * Q) (w : Window) : Window :=
  let w := uncheck_draw_profile_btn w in
  match interpolated_results (plot_widget w) with
  | None => emit (MessageBox Warning "无数据" "无可用于剖面的插值数据。") w
  | Some results =>
      if bool_decide (results = ∅) then
        emit (MessageBox Warning "无数据" "无可用于剖面的插值数据。") w
      else
        let w :=
          match profile_dialog w with
          | Some old => if profile_visible old then emit CloseProfileDialog w else w
          | None => w
          end in
        let dialog :=
          mkProfileDialog p1 p2 results (collect_available results (config w))
            (output_dir w) true in
        emit (OpenProfileDialog dialog) (set_profile_dialog (Some dialog) w)
  end.

End MainWindow.

(** ** src/main_window.py, further handlers *)

Module MainWindowMore.
Import Qt MainWindow.

(** *** Rendering *)

(** [_on_plot_rendered]; [is_playing] is the flag of the playback
    handler. *)
Definition _on_plot_rendered (is_playing : bool) (w : Window) : Window :=
  let w := if is_playing then emit (Call "playback_handler.play_timer.start") w else w in
  let w :=
    if _should_reset_view_after_refresh w then
      set_should_reset_view_after_refresh false (emit (Call "plot_widget.reset_view") w)
    else w in
  match picker_mode (plot_widget w) with
  | Some PROFILE_END => showMessage "剖面图模式: 点击定义剖面线终点 (右键取消)。" 0 w
  | _ => w
  end.

(** *** The picking tools *)

(** The main window together with the widgets of the picking tools that
    the record [Window] leaves out: the pick-time-series button and the
    time-series dialog with its visibility. *)
Record Session : Type := mkSession {
  window : Window;
  pick_timeseries_btn : bool;
  timeseries_dialog : option (TimeSeriesDialog.Dialog * bool)
}.

Definition on_window (f : Window -> Window) (s : Session) : Session :=
  mkSession (f (window s)) (pick_timeseries_btn s) (timeseries_dialog s).

Definition set_pick_timeseries_btn (b : bool) (s : Session) : Session :=
  mkSession (window s) b (timeseries_dialog s).

Definition set_mode (m : option PickerMode) (w : Window) : Window :=
  set_plot_widget (set_picker_mode m (plot_widget w)) w.

(** [_on_pick_timeseries_toggled(False)]. *)
Definition _on_pick_timeseries_untoggled (w : Window) : Window :=
  match picker_mode (plot_widget w) with
  | Some TIMESERIES => emit StatusClear (set_mode None w)
  | _ => w
  end.

(** [self.ui.pick_timeseries_btn.setChecked(False)]: a checked button is
    unchecked and emits [toggled(False)]. *)
Definition uncheck_pick_timeseries_btn (s : Session) : Session :=
  if pick_timeseries_btn s
  then on_window _on_pick_timeseries_untoggled (set_pick_timeseries_btn false s)
  else s.

Definition _on_pick_timeseries_toggled (checked : bool) (s : Session) : Session :=
  if checked then
    on_window
      (fun w => showMessage "时间序列模式: 在图表上单击一点以拾取 (右键取消)。" 0
                  (set_mode (Some TIMESERIES) (uncheck_draw_profile_btn w))) s
  else on_window _on_pick_timeseries_untoggled s.

Definition _on_draw_profile_toggled (checked : bool) (s : Session) : Session :=
  if checked then
    on_window
      (fun w => showMessage "剖面图模式: 点击定义剖面线起点 (右键取消)。" 0
                  (set_mode (Some PROFILE_START) w))
      (uncheck_pick_timeseries_btn s)
  else on_window _on_draw_profile_untoggled s.

(** A click on one of the two checkable buttons: the button changes its
    state and emits [toggled] with the new state. *)
Inductive click : Type := ClickPickTimeseries | ClickDrawProfile.

Definition press (s : Session) (c : click) : Session :=
  match c with
  | ClickPickTimeseries =>
      let checked := negb (pick_timeseries_btn s) in
      _on_pick_timeseries_toggled checked (set_pick_timeseries_btn checked s)
  | ClickDrawProfile =>
      let checked := negb (draw_profile_btn (window s)) in
      _on_draw_profile_toggled checked (on_window (set_draw_profile_btn checked) s)
  end.

(** [_on_timeseries_point_picked]; [dm] is the data manager as the new
    dialog sees it. The filter clause handed to the dialog is stored there
    and never read. *)
Definition _on_timeseries_point_picked (np_bool : numpy_bool_argument) (coords : Q * Q)
    (dm : TimeSeriesDialog.DataManager) (s : Session) : Session :=
  let s := uncheck_pick_timeseries_btn s in
  let s :=
    match timeseries_dialog s with
    | Some (_, true) => on_window (emit (Call "timeseries_dialog.close")) s
    | _ => s
    end in
  let dialog := TimeSeriesDialog.init np_bool coords dm (output_dir (window s)) in
  on_window (emit (Call "timeseries_dialog.show"))
    (mkSession (window s) (pick_timeseries_btn s) (Some (dialog, true))).

(** *** Coordinates typed by the user *)

Section Coordinates.

(** Python's [float(text)]: [None] stands for the [ValueError]. *)
Variable py_float : string -> option Q.

(** [x, y = map(float, text.split(','))]: a [ValueError] unless the text
    has exactly two fields and both are numbers. *)
Definition parse_pair (text : string) : option (Q * Q) :=
  match Py.split "," text with
  | [a; b] =>
      match py_float a, py_float b with
      | Some x, Some y => Some (x, y)
      | _, _ => None
      end
  | _ => None
  end.

Definition invalid_input : effect :=
  MessageBox Warning "输入无效" "请输入格式为 'x, y' 的两个数值。".

(** The answer of [QInputDialog.getText]: the text and the OK flag. *)
Definition confirmed (answer : string * bool) : bool :=
  snd answer && Py.truthy (fst answer).

Definition _pick_timeseries_by_coords (np_bool : numpy_bool_argument)
    (answer : string * bool) (dm : TimeSeriesDialog.DataManager) (s : Session) : Session :=
  let s := on_window (emit (Call "QInputDialog.getText")) s in
  if confirmed answer then
    match parse_pair (fst answer) with
    | Some coords => _on_timeseries_point_picked np_bool coords dm s
    | None => on_window (emit invalid_input) s
    end
  else s.

Definition _draw_profile_by_coords (start_answer end_answer : string * bool)
    (w : Window) : Window :=
  let w := emit (Call "QInputDialog.getText") w in
  if negb (confirmed start_answer) then w
  else
    let w := emit (Call "QInputDialog.getText") w in
    if negb (confirmed end_answer) then w
    else
      match parse_pair (fst start_answer), parse_pair (fst end_answer) with
      | Some p1, Some p2 => _on_profile_line_defined p1 p2 w
      | _, _ => emit invalid_input w
      end.

End Coordinates.

(** *** The variables table *)

(** A row of the variables table: name, type and formula. *)
Definition table_row : Type := (string * string * string)%type.

Definition type_map (t : string) : string :=
  if String.eqb t "per-frame" then "逐帧计算"
  else if String.eqb t "time-aggregated" then "时间聚合"
  else t.

Definition is_managed (v : string) : bool :=
  negb (String.eqb v "id" || String.eqb v "frame_index" || String.eqb v "source_file").

(** The rows written by [_update_variables_table]; [definitions] is the
    answer of [load_variable_definitions], from a name to its type and
    formula. *)
Definition variables_table_rows (all_vars : list string)
    (definitions : gmap string (string * string)) : list table_row :=
  map (fun var_name =>
         match definitions !! var_name with
         | Some info => (var_name, type_map (fst info), snd info)
         | None => (var_name, "原始数据", "来自源文件")
         end)
    (sorted (List.filter is_managed all_vars)).

(** *** Renaming and deleting a variable *)

(** The call of [data_manager.rename_variable(old_name, new_name)]. *)
Definition rename_call (old_name new_name : string) : effect :=
  Call ("data_manager.rename_variable('" +:+ old_name +:+ "', '" +:+ new_name +:+ "')").

(** The call of [data_manager.delete_variable(name)]. *)
Definition delete_call (name : string) : effect :=
  Call ("data_manager.delete_variable('" +:+ name +:+ "')").

(** The name in column 0 of the current row. *)
Definition row_name (names : list string) (current_row : Z) : string :=
  nth (Z.to_nat current_row) names "".

Section Renaming.

(** Python's [str.isidentifier]. *)
Variable isidentifier : string -> bool.

(** [_rename_variable]. [names] is column 0 of the table, [answer] what the
    input dialog returns, [reply] the button pressed in the confirmation
    box, [renamed] the outcome of [rename_variable]: the data manager as it
    answers after the call, or the exception. *)
Definition _rename_variable (names : list string) (current_row : Z)
    (answer : string * bool) (reply : StandardButton) (renamed : Py.outcome DataManager)
    (w : Window) : Window :=
  if (current_row <? 0)%Z then
    emit (MessageBox Warning "未选择" "请在表格中选择一个要重命名的变量。") w
  else
    let old_name := row_name names current_row in
    let w := emit (Call "QInputDialog.getText") w in
    if confirmed answer && negb (String.eqb (fst answer) old_name) then
      let new_name := Py.strip (fst answer) in
      if negb (isidentifier new_name) then
        emit (MessageBox Warning "名称无效" "变量名只能包含字母、数字和下划线，且不能以数字开头。") w
      else if bool_decide (new_name ∈ get_variables (data_manager w)) then
        emit (MessageBox Warning "名称冲突" ("变量名 '" +:+ new_name +:+ "' 已存在。")) w
      else
        let w := emit (MessageBox Question "确认重命名"
                         ("您确定要将变量 <b>'" +:+ old_name +:+ "'</b> 重命名为 <b>'"
                          +:+ new_name +:+ "'</b> 吗？<br><br>任何依赖此变量的公式、模板或设置文件都需要手动更新，否则将失效。")) w in
        match reply with
        | Yes =>
            let w := emit (Call "wait_box.show") w in
            let w := emit (rename_call old_name new_name) w in
            let w := emit (Call "wait_box.accept") w in
            match renamed with
            | Py.Returned dm =>
                _load_project_data
                  (emit (MessageBox Information "成功"
                           ("变量已成功重命名为 '" +:+ new_name +:+ "'。正在刷新应用..."))
                     (set_data_manager dm w))
            | Py.Raised e =>
                emit (MessageBox Critical "重命名失败"
                        ("重命名变量时发生错误:" +:+ NL +:+ e)) w
            end
        | _ => w
        end
    else w.

End Renaming.

(** [_delete_variable]; [deleted] is the outcome of [delete_variable]: the
    data manager as it answers after the call, or the exception. *)
Definition _delete_variable (names : list string) (current_row : Z)
    (reply : StandardButton) (deleted : Py.outcome DataManager) (w : Window) : Window :=
  if (current_row <? 0)%Z then
    emit (MessageBox Warning "未选择" "请在表格中选择一个要删除的变量。") w
  else
    let var_to_delete := row_name names current_row in
    let w := emit (MessageBox Question "确认删除"
                     ("您确定要永久删除变量 <b>'" +:+ var_to_delete
                      +:+ "'</b> 吗？<br><br>此操作将从数据存储中移除该列及其所有关联的统计数据和定义，且<b>无法撤销</b>。<br>任何依赖此变量的公式、模板或设置文件都将失效。")) w in
    match reply with
    | Yes =>
        let w := emit (Call "wait_box.show") w in
        let w := emit (delete_call var_to_delete) w in
        let w := emit (Call "wait_box.accept") w in
        match deleted with
        | Py.Returned dm =>
            _load_project_data
              (emit (MessageBox Information "成功"
                       ("变量 '" +:+ var_to_delete +:+ "' 已成功删除。正在刷新应用..."))
                 (set_data_manager dm w))
        | Py.Raised e =>
            emit (MessageBox Critical "删除失败"
                    ("删除变量 '" +:+ var_to_delete +:+ "' 时发生错误:" +:+ NL +:+ e)) w
        end
    | _ => w
    end.

(** *** Changing and reloading the project *)



(** The file system as [_force_reload_data] sees it. *)
Record FileSystem : Type := mkFS {
  path_exists : string -> bool;
  path_isdir : string -> bool;
  os_remove : string -> Py.outcome unit;
  shutil_rmtree : string -> Py.outcome unit
}.

(** [if path and test(path): delete(path)] inside the [try] block: the
    outcome and the call made, if any. *)
Definition delete_if (path : option string) (test : string -> bool)
    (delete : string -> Py.outcome unit) (callee : string)
  : Py.outcome unit * list effect :=
  match path with
  | Some p =>
      if Py.truthy p && test p then (delete p, [Call (callee +:+ "('" +:+ p +:+ "')")])
      else (Py.Returned tt, [])
  | None => (Py.Returned tt, [])
  end.

(** [_force_reload_data]; [confirm] answers the first question and [reply]
    the question of [_initialize_project]. The paths are read before the
    deletions; the other answers of the data manager are those it gives
    when [_initialize_project] asks. *)
Definition _force_reload_data (fs : FileSystem) (confirm reply : StandardButton)
    (w : Window) : Window :=
  let w := emit (MessageBox Question "确认重新导入"
                   ("这将删除现有数据存储和元数据并从CSV文件重新导入所有数据。此操作不可撤销。"
                    +:+ NL +:+ NL +:+ "是否继续？")) w in
  match confirm with
  | Yes =>
      let w := emit_all [Call "playback_handler.stop_playback";
                         Call "stats_handler.reset_global_stats"] w in
      let '(removed, calls) :=
        delete_if (db_path (data_manager w)) (path_exists fs) (os_remove fs) "os.remove" in
      let w := emit_all calls w in
      match removed with
      | Py.Raised e => _on_error ("删除旧数据存储失败: " +:+ e) w
      | Py.Returned _ =>
          let '(removed, calls) :=
            delete_if (zarr_path (data_manager w)) (path_isdir fs) (shutil_rmtree fs)
              "shutil.rmtree" in
          let w := emit_all calls w in
          match removed with
          | Py.Raised e => _on_error ("删除旧数据存储失败: " +:+ e) w
          | Py.Returned _ => _initialize_project reply w
          end
      end
  | _ => w
  end.

(** *** The filter builder *)

Definition set_text (t : string) (e : Editor) : Editor :=
  mkEditor (kind e) t (styleSheet e) (toolTip e).

(** [_open_filter_builder]; [built] is [Some] filter string when the
    builder dialog is accepted. *)
Definition _open_filter_builder (built : option string) (w : Window) : Window :=
  if (get_frame_count (data_manager w) =? 0)%Z then
    emit (MessageBox Warning "无数据" "请先加载数据再构建过滤器。") w
  else
    let w := emit (Call "FilterBuilderDialog.exec") w in
    match built with
    | Some filter_string =>
        _apply_global_filter
          (set_editor
             (update_editor filter_text_edit
                (set_text filter_string (editor w filter_text_edit)) (editor w)) w)
    | None => w
    end.

(** *** Closing the window *)

Inductive CloseReply : Type := Save | Discard | CancelClose.

(** What [closeEvent] asks of the handlers. *)
Record CloseContext : Type := mkCloseContext {
  on_main_window_close : bool;
  config_is_dirty : bool;
  current_config_file : option string;
  has_thread_pool : bool
}.

(** [_save_settings]: the keys written, in order. *)
Definition _save_settings (ctx : CloseContext) : list effect :=
  [Call "settings.setValue('geometry')"; Call "settings.setValue('windowState')";
   Call "settings.setValue('project_directory')";
   Call "settings.setValue('output_directory')";
   Call "settings.setValue('panel_visible')"]
  ++ (match current_config_file ctx with
      | Some f => if Py.truthy f then [Call "settings.setValue('last_config_file')"] else []
      | None => []
      end)
  ++ [Call "settings.setValue('last_time_variable')"].

(** The part of [closeEvent] after the question: settings, playback,
    thread pool and the two dialogs. *)
Definition finish_close (ctx : CloseContext) (s : Session) : Session :=
  let s := on_window (emit_all (_save_settings ctx)) s in
  let s := on_window (emit (Call "playback_handler.stop_playback")) s in
  let s :=
    if has_thread_pool ctx
    then on_window (emit_all [Call "thread_pool.clear"; Call "thread_pool.waitForDone"]) s
    else s in
  let s :=
    match timeseries_dialog s with
    | Some (d, _) =>
        on_window (emit (Call "timeseries_dialog.close"))
          (mkSession (window s) (pick_timeseries_btn s) (Some (d, false)))
    | None => s
    end in
  match profile_dialog (window s) with
  | Some _ => on_window (emit CloseProfileDialog) s
  | None => s
  end.

(** [closeEvent]: whether the event is accepted, and the session after. *)
Definition closeEvent (ctx : CloseContext) (reply : CloseReply) (s : Session)
  : bool * Session :=
  if negb (on_main_window_close ctx) then (false, s)
  else if config_is_dirty ctx then
    let s := on_window (emit (MessageBox Question "未保存的修改" "退出前是否保存当前修改？")) s in
    match reply with
    | Save =>
        (true, finish_close ctx
                 (on_window (emit (Call "config_handler.save_current_config")) s))
    | CancelClose => (false, s)
    | Discard => (true, finish_close ctx s)
    end
  else (true, finish_close ctx s).

End MainWindowMore.

(** * Vocabulary of the properties *)

(** ** The time-series dialog *)

Module DialogTerms.
Import Qt Np TimeSeriesDialog.

(** Strictly increasing: each entry is smaller than its successor. *)
Definition strictly_increasing (ts : list Q) : Prop :=
  forall (i : nat) (a b : Q), ts !! i = Some a -> ts !! S i = Some b -> (a < b)%Q.


(** The mean-subtracted signal handed to [np.fft.fft]. *)
Definition centred (signal : list Q) : list Q :=
  map (fun s => (s - mean signal)%Q) signal.

(** A dialog that holds three samples taken at the times 0, 1 and 3. *)
Definition sample_dialog : Dialog :=
  mkDialog (0, 0)%Q "output" (mkCombo ["u"] (Some 0%nat)) true false
    (Some [(0, 1); (1, 3); (3, 2)]%Q) cleared cleared None None 0.



(** A data manager that knows one variable and three samples of it. *)
Definition sample_dm : DataManager :=
  mkDM ["u"] "t" ∅ (fun _ _ _ => Py.Returned (Some [(0, 1); (1, 3); (3, 2)]%Q)).




(** The line that the call [plot_fft d] draws, if it gets as far as
    [ax_fft.plot]: the call redraws the canvas and the FFT axes carry a
    line. *)
Definition plotted_by_fft (d : Dialog) : option (list Q * list R) :=
  if bool_decide (canvas_draws (plot_fft d) = canvas_draws d) then None
  else head (lines (ax_fft (plot_fft d))).

(** The line drawn by the most recent call of [plot_fft] that drew one,
    along a sequence of events; [last] is the one drawn before them. *)
Fixpoint last_fft_plot np_bool (d : Dialog) (events : list event)
    (last : option (list Q * list R)) : option (list Q * list R) :=
  match events with
  | [] => last
  | e :: rest =>
      last_fft_plot np_bool (step np_bool d e) rest
        (match e with
         | ClickFft => match plotted_by_fft d with
                       | Some line => Some line
                       | None => last
                       end
         | _ => last
         end)
  end.

(** The stored spectrum is the one behind the last line drawn. *)
Definition spectrum_matches (d : Dialog) (last : option (list Q * list R)) : Prop :=
  match last with
  | None => xf d = None /\ yf d = None
  | Some (xs, ys) =>
      exists y : list C,
        xf d = Some xs /\ yf d = Some y /\
        ys = amplitudes (length y) y /\ length xs = length ys
  end.

(** The combo box of a dialog built over variables with non-empty names:
    it is empty and the FFT button is disabled, or it shows one of its
    items, none of which is the empty string. *)
Definition combo_settled (d : Dialog) : Prop :=
  (items (variable_combo d) = [] /\ currentIndex (variable_combo d) = None /\
   fft_button d = false) \/
  (exists i : nat, currentIndex (variable_combo d) = Some i /\
     (i < length (items (variable_combo d)))%nat /\
     Forall (fun v => v <> "") (items (variable_combo d))).

End DialogTerms.

(** ** The main window *)

Module WindowTerms.
Import Qt MainWindow.

(** The strings an editor hands to [validate_syntax]: the whole text of a
    [QLineEdit]; of a multi-line editor, the lines that are neither blank
    nor comments. *)
Definition checked_inputs (e : Editor) : list string :=
  match kind e with
  | QLineEdit => [text e]
  | QTextEdit => List.filter is_formula_line (Py.split nl (text e))
  end.

(** The last line of a list that is validated and found invalid. *)
Definition last_invalid (fe : FormulaEngine) (lines : list string) : option string :=
  last (List.filter (fun l => is_formula_line l && negb (fst (validate_syntax fe l))) lines).

(** The layer a profile key reads: whether it is enabled, and its formula
    if the configuration holds one. *)
Definition layer_of (c : Config) (key : string) : option (bool * option string) :=
  if String.eqb key "heatmap"
  then Some (enabled (layer_enabled (cfg_heatmap c)), layer_formula (cfg_heatmap c))
  else if String.eqb key "contour"
  then Some (enabled (layer_enabled (cfg_contour c)), layer_formula (cfg_contour c))
  else if String.eqb key "vector_u"
  then Some (enabled (vector_enabled (cfg_vector c)), u_formula (cfg_vector c))
  else if String.eqb key "vector_v"
  then Some (enabled (vector_enabled (cfg_vector c)), v_formula (cfg_vector c))
  else None.

(** An effect that neither asks the user, nor touches the import worker or
    its dialog. *)
Definition quiet (e : effect) : Prop :=
  match e with
  | MessageBox Question _ _ | Connect _ _ | WorkerStart | DialogExec | DialogAccept => False
  | _ => True
  end.

(** [w'] is [w] after some quiet effects that left the import worker and
    its dialog alone. *)
Definition keeps (w w' : Window) : Prop :=
  import_progress_dialog w' = import_progress_dialog w /\
  import_worker w' = import_worker w /\
  data_manager w' = data_manager w /\
  exists effects : list effect, log w' = log w ++ effects /\ Forall quiet effects.

(** The connections [_start_database_import] makes. *)
Definition import_connections : list (signal * slot) :=
  [(progress, update_progress); (log_message, set_log_message);
   (finished, on_import_finished); (error, on_error)].

(** The behaviour of [_initialize_project] in the words of the
    specification: a ready database is loaded directly (nothing is asked,
    no import is started); otherwise the user is asked, the import starts
    exactly on Yes, and on No only the status bar changes. *)
Definition initialization_claim (reply : StandardButton) (w : Window) : Prop :=
  let dm := data_manager w in
  let w' := _initialize_project reply w in
  (is_database_ready dm = true ->
   w' = _load_project_data w /\
   exists effects : list effect, log w' = log w ++ effects /\ Forall quiet effects) /\
  (is_database_ready dm = false ->
   exists effects : list effect,
     log w' = log w ++ import_question (project_dir w) :: effects /\
     (In WorkerStart effects <-> reply = Yes) /\
     (reply = Yes ->
      w' = _start_database_import (emit (import_question (project_dir w)) w)) /\
     (reply = No ->
      effects = [StatusMessage "操作已取消。请选择一个包含CSV文件或数据存储的项目目录。" 5000] /\
      w' = set_log (log w') w)).

(** A window over a data manager, with empty editors and an empty log. *)
Definition window_over (dm : DataManager) : Window :=
  mkWindow dm (mkFE (fun _ => (true, "")) (fun _ => ∅))
    (mkConfig (mkLayer None None) (mkLayer None None) (mkVector None None None)
       None None false 0 0)
    "data" "output" 0 false None None None
    (fun _ => mkEditor QLineEdit "" "" "")
    false false (mkPlot None None None None None) (mkSlider 0 99 0)
    "" "" "" (mkLabel "" "") 10 [].



(** A data manager with an empty store that answers [setup] to
    [setup_project_directory] and [ready] to [is_database_ready]. *)
Definition empty_dm (setup ready : bool) : DataManager :=
  mkDM (fun _ => setup) ready 0 [] (fun _ _ => None) (fun _ _ => None) (fun _ => None)
    (mkDatabaseInfo None None None None) (fun _ => Py.Returned tt) "" None None
    (mkCacheInfo 0 100).

End WindowTerms.

(** ** Further vocabulary *)

Module MoreDialogTerms.
Import Qt Np TimeSeriesDialog DialogTerms.



End MoreDialogTerms.

Module MoreWindowTerms.
Import Qt MainWindow MainWindowMore.

(** What the user has set up in the window: directories, configuration,
    formula engine, editors, filter checkbox, the profile tool with its
    dialog, the picker of the plot widget and the cache size wanted. *)
Definition settings_kept (w w' : Window) : Prop :=
  project_dir w' = project_dir w /\
  output_dir w' = output_dir w /\
  config w' = config w /\
  formula_engine w' = formula_engine w /\
  editor w' = editor w /\
  filter_enabled_checkbox w' = filter_enabled_checkbox w /\
  draw_profile_btn w' = draw_profile_btn w /\
  profile_dialog w' = profile_dialog w /\
  picker_mode (plot_widget w') = picker_mode (plot_widget w) /\
  interpolated_results (plot_widget w') = interpolated_results (plot_widget w) /\
  cache_size_spinbox w' = cache_size_spinbox w.

(** An input dialog or a message box. *)
Definition is_dialog (e : effect) : Prop :=
  match e with
  | MessageBox _ _ _ => True
  | Call c => c = "QInputDialog.getText"
  | _ => False
  end.

(** Column 0 of the variables table. *)
Definition names_column (rows : list table_row) : list string :=
  map (fun r => fst (fst r)) rows.

End MoreWindowTerms.

(** * Properties *)

(** ** Arithmetic of the NumPy model *)

Section NumPyFacts.
Import Np.

Lemma Qlt_bool_iff (x y : Q) : Qlt_bool x y = true <-> (x < y)%Q.
Proof.
  unfold Qlt_bool. rewrite negb_true_iff. split.
  - intros H. apply Qnot_le_lt. intros Hle.
    apply Qle_bool_iff in Hle. congruence.
  - intros H. destruct (Qle_bool y x) eqn:E; [|reflexivity].
    apply Qle_bool_iff in E. exfalso. exact (Qlt_not_le _ _ H E).
Qed.

(** [np.any(a <= 0)] is the negation of [np.all(a > 0)]. *)
Lemma any_nonpositive_negb (a : list Q) :
  any_nonpositive a = negb (all_positive a).
Proof.
  induction a as [|d a IH]; simpl; [reflexivity|].
  rewrite IH. unfold Qlt_bool. destruct (Qle_bool d 0); reflexivity.
Qed.

Lemma all_positive_Forall (a : list Q) :
  all_positive a = true <-> Forall (fun d => (0 < d)%Q) a.
Proof.
  unfold all_positive. rewrite forallb_forall, Forall_forall.
  split; intros H d Hd.
  - apply Qlt_bool_iff, H. apply list_elem_of_In, Hd.
  - apply Qlt_bool_iff, H. apply list_elem_of_In, Hd.
Qed.


Lemma length_diff (a : list Q) : length (diff a) = (length a - 1)%nat.
Proof.
  induction a as [|x [|y a] IH]; simpl in *; try reflexivity.
  rewrite IH. lia.
Qed.

Lemma sum_positive (a : list Q) :
  a <> [] -> Forall (fun d => (0 < d)%Q) a -> (0 < sum a)%Q.
Proof.
  induction a as [|d a IH]; intros Hne Hall; [congruence|].
  inversion Hall as [|? ? Hd Ha]; subst. simpl.
  destruct a as [|d' a].
  - simpl. rewrite Qplus_0_r. exact Hd.
  - assert (0 < sum (d' :: a))%Q by (apply IH; [discriminate | exact Ha]).
    rewrite <- (Qplus_0_r 0). apply Qplus_lt_le_compat; [exact Hd|].
    apply Qlt_le_weak. assumption.
Qed.

(** The mean of a non-empty array of positive numbers is positive. *)
Lemma mean_positive (a : list Q) :
  a <> [] -> Forall (fun d => (0 < d)%Q) a -> (0 < mean a)%Q.
Proof.
  intros Hne Hall. unfold mean.
  apply Qlt_shift_div_l.
  - destruct a; [congruence|]. unfold Qlt. simpl. lia.
  - rewrite Qmult_0_l. apply sum_positive; assumption.
Qed.

Lemma length_fft (x : list Q) : length (fft x) = length x.
Proof. unfold fft. rewrite length_map, length_seq. reflexivity. Qed.

Lemma fft_lookup (x : list Q) (k : nat) :
  (k < length x)%nat -> fft x !! k = Some (fft_bin x k).
Proof.
  intros Hk. unfold fft. rewrite list_lookup_fmap.
  rewrite lookup_seq_lt by exact Hk. reflexivity.
Qed.

Lemma half_bins (n : nat) : (n / 2 <= (n - 1) / 2 + 1)%nat.
Proof.
  destruct n as [|n]; [simpl; lia|].
  replace (S n - 1)%nat with n by lia.
  pose proof (Nat.div_mod_eq n 2). pose proof (Nat.div_mod_eq (S n) 2).
  pose proof (Nat.mod_upper_bound n 2). pose proof (Nat.mod_upper_bound (S n) 2).
  lia.
Qed.

Lemma bins_total (n : nat) : (0 < n)%nat -> ((n - 1) / 2 + 1 + n / 2 = n)%nat.
Proof.
  intros Hn. destruct n as [|n]; [lia|].
  replace (S n - 1)%nat with n by lia.
  pose proof (Nat.div_mod_eq n 2). pose proof (Nat.div_mod_eq (S n) 2).
  pose proof (Nat.mod_upper_bound n 2). pose proof (Nat.mod_upper_bound (S n) 2).
  assert (n mod 2 = 0 /\ S n mod 2 = 1 \/ n mod 2 = 1 /\ S n mod 2 = 0)%nat as Hpar.
  { replace (S n) with (n + 1)%nat by lia.
    rewrite <- (Nat.Div0.add_mod_idemp_l n 1 2).
    destruct (n mod 2)%nat as [|[|?]] eqn:E; [left|right|lia]; split; reflexivity. }
  lia.
Qed.

Lemma length_fftfreq (n : nat) (d : Q) : (0 < n)%nat -> length (fftfreq n d) = n.
Proof.
  intros Hn. unfold fftfreq.
  rewrite length_map, length_take, length_app, !length_map, !length_seq.
  rewrite bins_total by exact Hn. lia.
Qed.

(** The first half of [fftfreq(n, d)]: bin [k] is [k * (1/(n*d))]. *)
Lemma fftfreq_lookup (n : nat) (d : Q) (k : nat) :
  (k < n / 2)%nat ->
  fftfreq n d !! k
  = Some (inject_Z (Z.of_nat k) * (1 / (inject_Z (Z.of_nat n) * d)))%Q.
Proof.
  intros Hk. pose proof (half_bins n) as Hh.
  assert (n / 2 <= n)%nat as Hle by (apply Nat.Div0.div_le_upper_bound; lia).
  unfold fftfreq. rewrite list_lookup_fmap.
  rewrite lookup_take_lt by lia.
  rewrite lookup_app_l by (rewrite length_map, length_seq; lia).
  rewrite list_lookup_fmap, lookup_seq_lt by lia. reflexivity.
Qed.

End NumPyFacts.

(** ** The time-series dialog *)

Section TimeSeriesFacts.
Import Qt Np TimeSeriesDialog DialogTerms.

Lemma diff_positive_increasing (ts : list Q) :
  all_positive (diff ts) = true <-> strictly_increasing ts.
Proof.
  induction ts as [|x [|y ts] IH].
  - split; [intros _ i a b H; discriminate | reflexivity].
  - split; [intros _ i a b Ha Hb; destruct i; discriminate | reflexivity].
  - change (diff (x :: y :: ts)) with ((y - x)%Q :: diff (y :: ts)).
    change (all_positive ((y - x)%Q :: diff (y :: ts)))
      with (Qlt_bool 0 (y - x) && all_positive (diff (y :: ts))).
    rewrite andb_true_iff, Qlt_bool_iff, IH. split.
    + intros [Hxy Hrest] i a b Ha Hb. destruct i as [|i].
      * simpl in Ha, Hb. injection Ha as <-. injection Hb as <-.
        apply (Qplus_lt_l _ _ (- x)). rewrite Qplus_opp_r. exact Hxy.
      * exact (Hrest i a b Ha Hb).
    + intros H. split.
      * specialize (H 0%nat x y eq_refl eq_refl).
        apply (Qplus_lt_l _ _ (- x)) in H. rewrite Qplus_opp_r in H. exact H.
      * intros i a b Ha Hb. exact (H (S i) a b Ha Hb).
Qed.


Lemma length_times (df : DataFrame) : length (times df) = length df.
Proof. apply length_map. Qed.

Lemma length_values (df : DataFrame) : length (values df) = length df.
Proof. apply length_map. Qed.

Lemma length_amplitudes (N : nat) (y : list C) :
  length (amplitudes N y) = Nat.min (N / 2) (length y).
Proof. unfold amplitudes. rewrite length_map, length_take. reflexivity. Qed.

Lemma amplitudes_lookup (N : nat) (y : list C) (k : nat) :
  (k < N / 2)%nat ->
  amplitudes N y !! k = (fun c => (2 / INR N * Np.abs c)%R) <$> (y !! k).
Proof.
  intros Hk. unfold amplitudes.
  rewrite list_lookup_fmap, lookup_take_lt by exact Hk. reflexivity.
Qed.

(** What [plot_fft] does once all its guards are passed. *)
Lemma plot_fft_passes (d : Dialog) (df : DataFrame) :
  current_df d = Some df ->
  (2 <= length df)%nat ->
  all_positive (diff (times df)) = true ->
  let N := length df in
  let T := mean (diff (times df)) in
  let y := fft (centred (values df)) in
  let x := firstn (N / 2) (fftfreq N T) in
  plot_fft d
  = set_export_button true
      (draw (set_ax_fft
               (fft_plot (currentText (variable_combo d)) x (amplitudes N y))
               (set_spectrum x y d))).
Proof.
  intros Hdf HN Hpos N T y x. unfold plot_fft. rewrite Hdf.
  destruct df as [|r df]; [simpl in HN; lia|].
  cbn [empty]. rewrite length_values.
  destruct (Nat.ltb_spec (length (r :: df)) 2) as [Hlt|_]; [lia|].
  rewrite any_nonpositive_negb, Hpos. cbn [negb].
  assert (0 < mean (diff (times (r :: df))))%Q as HT.
  { apply mean_positive; [|apply all_positive_Forall, Hpos].
    intros E. apply (f_equal (@length Q)) in E.
    rewrite length_diff, length_times in E. simpl in E, HN. lia. }
  destruct (Qeq_bool (mean (diff (times (r :: df)))) 0) eqn:E.
  - apply Qeq_bool_iff in E. rewrite E in HT. exfalso. exact (Qlt_irrefl _ HT).
  - reflexivity.
Qed.

(** C1. For a loaded time series of N >= 2 samples whose timestamps are
    strictly increasing, [plot_fft] stores the discrete Fourier transform of
    the mean-subtracted signal in [yf], takes the mean T of the successive
    time differences (which is positive) as sample spacing, and draws one
    line of exactly N//2 points on the FFT axes: point k has the abscissa
    [fftfreq(N, T)[k]], that is k/(N*T), and the ordinate [2/N * |yf[k]|]. *)
Theorem plot_fft_spectrum (d : Dialog) (df : DataFrame) :
  current_df d = Some df ->
  (2 <= length df)%nat ->
  strictly_increasing (times df) ->
  let N := length df in
  let T := mean (diff (times df)) in
  let y := fft (centred (values df)) in
  (0 < T)%Q /\
  yf (plot_fft d) = Some y /\
  xf (plot_fft d) = Some (firstn (N / 2) (fftfreq N T)) /\
  exists (xs : list Q) (ys : list R),
    lines (ax_fft (plot_fft d)) = [(xs, ys)] /\
    length xs = (N / 2)%nat /\
    length ys = (N / 2)%nat /\
    forall k : nat, (k < N / 2)%nat ->
      xs !! k = fftfreq N T !! k /\
      xs !! k = Some (inject_Z (Z.of_nat k) * (1 / (inject_Z (Z.of_nat N) * T)))%Q /\
      exists c : C, y !! k = Some c /\ ys !! k = Some (2 / INR N * Np.abs c)%R.
Proof.
  intros Hdf HN Hinc N T y.
  apply diff_positive_increasing in Hinc.
  assert (N / 2 <= N)%nat as Hhalf by (apply Nat.Div0.div_le_upper_bound; lia).
  rewrite (plot_fft_passes d df Hdf HN Hinc). fold N T y.
  split.
  { apply mean_positive; [|apply all_positive_Forall, Hinc].
    intros E. apply (f_equal (@length Q)) in E.
    rewrite length_diff, length_times in E. simpl in E. lia. }
  split; [reflexivity|]. split; [reflexivity|].
  exists (firstn (N / 2) (fftfreq N T)), (amplitudes N y).
  split; [reflexivity|].
  split. { rewrite length_take, length_fftfreq by lia. lia. }
  split. { rewrite length_amplitudes. unfold y, centred.
           rewrite length_fft, length_map, length_values. fold N. lia. }
  intros k Hk.
  split. { apply lookup_take_lt, Hk. }
  split. { rewrite lookup_take_lt by exact Hk. apply fftfreq_lookup, Hk. }
  exists (fft_bin (centred (values df)) k).
  assert (y !! k = Some (fft_bin (centred (values df)) k)) as Hy.
  { apply fft_lookup. unfold centred. rewrite length_map, length_values. fold N. lia. }
  split; [exact Hy|].
  rewrite amplitudes_lookup by exact Hk. rewrite Hy. reflexivity.
Qed.

Lemma plot_fft_spectrum_witness :
  yf (plot_fft sample_dialog) = Some (fft (centred [1; 3; 2]%Q)).
Proof.
  apply (plot_fft_spectrum sample_dialog [(0, 1); (1, 3); (3, 2)]%Q).
  - reflexivity.
  - simpl. lia.
  - apply diff_positive_increasing. reflexivity.
Defined.


Lemma truthy_iff (s : string) : Py.truthy s = true <-> s <> "".
Proof. destruct s; simpl; split; intros; congruence. Qed.

(** The ways a call of [plot_data] can end. *)
Lemma plot_data_cases (np_bool : numpy_bool_argument) (dm : DataManager) (d : Dialog) :
  let selected := currentText (variable_combo d) in
  let d0 := set_axes cleared fft_placeholder d in
  selected = "" /\ plot_data np_bool dm d = d \/
  selected <> "" /\
  ((exists e : string,
      get_timeseries_at_point dm selected (point_coords d) (tolerance dm) = Py.Raised e /\
      plot_data np_bool dm d
      = draw (set_buttons false false
                (set_ax_time (only_text ("绘图失败:" +:+ NL +:+ e)) d0))) \/
   (exists df : option DataFrame,
      get_timeseries_at_point dm selected (point_coords d) (tolerance dm)
      = Py.Returned df /\
      (df = None \/ df = Some []) /\
      plot_data np_bool dm d
      = draw (set_buttons false false
                (set_ax_time (only_text "在此位置找不到时间序列数据")
                   (set_current_df df d0)))) \/
   (exists (rows : DataFrame) (e : string),
      get_timeseries_at_point dm selected (point_coords d) (tolerance dm)
      = Py.Returned (Some rows) /\
      (1 < length rows)%nat /\ np_bool = TypeError e /\
      plot_data np_bool dm d
      = draw (set_buttons false false
                (set_ax_time
                   (add_text ("绘图失败:" +:+ NL +:+ e)
                      (time_plot (time_variable dm) selected rows))
                   (set_current_df (Some rows) d0)))) \/
   (exists rows : DataFrame,
      get_timeseries_at_point dm selected (point_coords d) (tolerance dm)
      = Py.Returned (Some rows) /\
      rows <> [] /\ ((length rows <= 1)%nat \/ np_bool = Converted) /\
      plot_data np_bool dm d
      = draw (set_buttons (is_valid_for_fft rows) false
                (set_ax_time (time_plot (time_variable dm) selected rows)
                   (set_current_df (Some rows) d0))))).
Proof.
  cbv zeta. unfold plot_data.
  destruct (Py.truthy (currentText (variable_combo d))) eqn:Hsel; cbn [negb].
  2: { left. split; [|reflexivity].
       destruct (currentText (variable_combo d)); [reflexivity | discriminate]. }
  right. split; [apply truthy_iff, Hsel|].
  cbn [set_axes point_coords].
  destruct (get_timeseries_at_point dm _ _ _) as [[[|r rows]|]|e].
  - right. left. exists (Some []). auto.
  - right. right. cbn [empty].
    destruct (Nat.ltb_spec 1 (length (r :: rows))) as [Hlen|Hlen].
    + destruct np_bool as [|e].
      * right. exists (r :: rows). split; [reflexivity|]. split; [discriminate|]. auto.
      * left. exists (r :: rows), e. auto.
    + right. exists (r :: rows). split; [reflexivity|]. split; [discriminate|].
      split; [left; lia|]. destruct np_bool; reflexivity.
  - right. left. exists None. auto.
  - left. exists e. auto.
Qed.

(** The FFT button after [plot_data], when a variable is selected. *)
Lemma plot_data_button (np_bool : numpy_bool_argument) (dm : DataManager) (d : Dialog) :
  currentText (variable_combo d) <> "" ->
  fft_button (plot_data np_bool dm d)
  = match get_timeseries_at_point dm (currentText (variable_combo d))
            (point_coords d) (tolerance dm) with
    | Py.Returned (Some df) =>
        negb (empty df) && is_valid_for_fft df
        && match np_bool with Converted => true | TypeError _ => false end
    | _ => false
    end.
Proof.
  intros Hsel.
  destruct (plot_data_cases np_bool dm d)
    as [[Hno _] | (_ & [(e & -> & ->) | [(df & -> & Hdf & ->) |
                        [(rows & e & -> & Hlen & -> & ->) | (rows & -> & Hne & Hnp & ->)]]])].
  - contradiction.
  - reflexivity.
  - destruct Hdf as [-> | ->]; reflexivity.
  - cbn. destruct rows; [simpl in Hlen; lia|]. cbn [empty negb andb].
    rewrite andb_false_r. reflexivity.
  - cbn [draw set_buttons fft_button]. destruct rows as [|r rows]; [congruence|].
    cbn [empty negb andb]. destruct Hnp as [Hlen | ->]; [|rewrite andb_true_r; reflexivity].
    unfold is_valid_for_fft. destruct (Nat.ltb_spec 1 (length (r :: rows))); [lia|].
    reflexivity.
Qed.

Lemma plot_data_combo (np_bool : numpy_bool_argument) (dm : DataManager) (d : Dialog) :
  variable_combo (plot_data np_bool dm d) = variable_combo d.
Proof.
  destruct (plot_data_cases np_bool dm d)
    as [[_ ->] | (_ & [(e & _ & ->) | [(df & _ & _ & ->) |
                       [(rows & e & _ & _ & _ & ->) | (rows & _ & _ & _ & ->)]]])];
    reflexivity.
Qed.

Lemma plot_fft_combo (d : Dialog) :
  variable_combo (plot_fft d) = variable_combo d /\ fft_button (plot_fft d) = fft_button d.
Proof.
  unfold plot_fft. destruct (current_df d) as [df|]; [|auto].
  destruct (empty df); [auto|]. destruct (_ <? 2)%nat; [auto|].
  destruct (any_nonpositive _); [auto|]. destruct (Qeq_bool _ 0); auto.
Qed.

Lemma combo_settled_plot_data (np_bool : numpy_bool_argument) (dm : DataManager)
    (d : Dialog) :
  combo_settled d -> combo_settled (plot_data np_bool dm d).
Proof.
  intros [(Hi & Hc & Hb) | Hsel].
  - assert (plot_data np_bool dm d = d) as ->; [|left; auto].
    unfold plot_data, currentText. rewrite Hc. reflexivity.
  - right. rewrite plot_data_combo. exact Hsel.
Qed.

Lemma combo_settled_step (np_bool : numpy_bool_argument) (d : Dialog) (e : event) :
  combo_settled d -> combo_settled (step np_bool d e).
Proof.
  intros Hd. destruct e as [i dm| |]; cbn [step].
  - destruct (Nat.ltb_spec i (length (items (variable_combo d)))) as [Hi|Hi];
      cbn [andb]; [|exact Hd].
    destruct (negb _); [|exact Hd].
    apply combo_settled_plot_data. right. exists i. cbn.
    split; [reflexivity|]. split; [exact Hi|].
    destruct Hd as [(Hnil & _) | (j & _ & _ & Hall)]; [|exact Hall].
    rewrite Hnil in Hi. simpl in Hi. lia.
  - destruct (plot_fft_combo d) as [Hc Hb].
    unfold combo_settled. rewrite Hc, Hb. exact Hd.
  - exact Hd.
Qed.

(** Every state of a dialog built over variables with non-empty names meets
    the precondition of the theorem below: a variable is selected, or the
    FFT button is disabled. *)
Lemma reachable_dialog_ready (np_bool : numpy_bool_argument) (coords : Q * Q)
    (dm : DataManager) (out_dir : string) (events : list event) :
  Forall (fun v => v <> "") (get_variables dm) ->
  let d := run np_bool (init np_bool coords dm out_dir) events in
  currentText (variable_combo d) <> "" \/ fft_button d = false.
Proof.
  intros Hnames d.
  assert (combo_settled (init np_bool coords dm out_dir)) as Hinit.
  { unfold init. apply combo_settled_plot_data. unfold combo_settled. cbn.
    assert (Forall (fun v => v <> "")
              (List.filter (fun v => negb (v =? "source_file")%string) (get_variables dm)))
      as Hall.
    { rewrite List.Forall_forall in *. intros v Hv. apply filter_In in Hv as [Hv _].
      apply Hnames, Hv. }
    destruct (List.filter _ (get_variables dm)) as [|v vs]; [left; auto|].
    right. exists 0%nat. cbn. split; [reflexivity|]. split; [lia|exact Hall]. }
  assert (forall d0, combo_settled d0 -> combo_settled (fold_left (step np_bool) events d0)) as Hrun.
  { induction events as [|e events IH]; intros d0 H0; [exact H0|].
    cbn [fold_left]. apply IH, combo_settled_step, H0. }
  unfold d, run.
  destruct (Hrun _ Hinit) as [(_ & _ & Hb) | (i & Hc & Hi & Hall)].
  - right. exact Hb.
  - left. unfold currentText. rewrite Hc.
    rewrite List.Forall_forall in Hall. apply Hall, nth_In, Hi.
Qed.





Lemma plot_data_spectrum (np_bool : numpy_bool_argument) (dm : DataManager) (d : Dialog) :
  xf (plot_data np_bool dm d) = xf d /\ yf (plot_data np_bool dm d) = yf d.
Proof.
  destruct (plot_data_cases np_bool dm d)
    as [[_ ->] | (_ & [(e & _ & ->) | [(df & _ & _ & ->) |
                       [(rows & e & _ & _ & _ & ->) | (rows & _ & _ & _ & ->)]]])];
    auto.
Qed.

(** The three ways a call of [plot_fft] can end. *)
Lemma plot_fft_cases (d : Dialog) :
  (plot_fft d = d) \/
  (xf (plot_fft d) = xf d /\ yf (plot_fft d) = yf d /\
   lines (ax_fft (plot_fft d)) = [] /\
   canvas_draws (plot_fft d) = S (canvas_draws d)) \/
  (exists (x : list Q) (y : list C),
     xf (plot_fft d) = Some x /\ yf (plot_fft d) = Some y /\
     lines (ax_fft (plot_fft d)) = [(x, amplitudes (length y) y)] /\
     length x = length (amplitudes (length y) y) /\
     canvas_draws (plot_fft d) = S (canvas_draws d)).
Proof.
  unfold plot_fft. destruct (current_df d) as [df|]; [|auto].
  destruct (empty df); [auto|]. rewrite length_values.
  destruct (Nat.ltb_spec (length df) 2) as [Hlt|Hge]; [auto|].
  destruct (any_nonpositive (diff (times df))); [right; left; simpl; auto|].
  destruct (Qeq_bool (mean (diff (times df))) 0); [right; left; simpl; auto|].
  right. right.
  assert (length df / 2 <= length df)%nat as Hhalf
    by (apply Nat.Div0.div_le_upper_bound; lia).
  assert (length (fft (centred (values df))) = length df) as Hlen.
  { unfold centred. rewrite length_fft, length_map, length_values. reflexivity. }
  eexists _, (fft (centred (values df))).
  split; [reflexivity|]. split; [reflexivity|].
  rewrite Hlen. split; [reflexivity|]. split; [|reflexivity].
  rewrite length_amplitudes, Hlen, length_take, length_fftfreq by lia. reflexivity.
Qed.

Lemma plotted_by_fft_matches (d : Dialog) (last : option (list Q * list R)) :
  spectrum_matches d last ->
  spectrum_matches (plot_fft d)
    (match plotted_by_fft d with Some line => Some line | None => last end).
Proof.
  intros Hinv. unfold plotted_by_fft.
  destruct (plot_fft_cases d) as [Hsame | [(Hx & Hy & Hl & Hd) | (x & y & Hx & Hy & Hl & Hlen & Hd)]].
  - rewrite Hsame. rewrite bool_decide_eq_true_2 by reflexivity. exact Hinv.
  - assert (match (if bool_decide (canvas_draws (plot_fft d) = canvas_draws d)
                   then None else head (lines (ax_fft (plot_fft d))))
            with Some line => Some line | None => last end = last) as ->.
    { rewrite Hl. destruct (bool_decide _); reflexivity. }
    destruct last as [[xs ys]|]; simpl in *; rewrite Hx, Hy; exact Hinv.
  - rewrite bool_decide_eq_false_2 by (rewrite Hd; lia).
    rewrite Hl. simpl. exists y. auto.
Qed.

Lemma step_matches (np_bool : numpy_bool_argument) (d : Dialog) (e : event)
    (last : option (list Q * list R)) :
  spectrum_matches d last ->
  spectrum_matches (step np_bool d e)
    (match e with
     | ClickFft => match plotted_by_fft d with Some line => Some line | None => last end
     | _ => last
     end).
Proof.
  intros Hinv. destruct e as [i dm| |]; simpl.
  - destruct (_ && _); [|exact Hinv].
    destruct (plot_data_spectrum np_bool dm
                (set_combo (mkCombo (items (variable_combo d)) (Some i)) d)) as [Hx Hy].
    destruct last as [[xs ys]|]; simpl in *; rewrite Hx, Hy; exact Hinv.
  - apply plotted_by_fft_matches, Hinv.
  - exact Hinv.
Qed.

Lemma run_matches (np_bool : numpy_bool_argument) (events : list event) (d : Dialog)
    (last : option (list Q * list R)) :
  spectrum_matches d last ->
  spectrum_matches (run np_bool d events) (last_fft_plot np_bool d events last).
Proof.
  revert d last. induction events as [|e events IH]; intros d last Hinv.
  - exact Hinv.
  - simpl. apply IH, step_matches, Hinv.
Qed.

(** C6. Along any use of a dialog, the CSV export writes the columns
    'Frequency (Hz)' and 'Amplitude' whose rows pair, one by one, the
    abscissas and ordinates of the line drawn by the most recent call of
    [plot_fft] that drew one; before any such call it only warns. *)
Theorem export_matches_plot (np_bool : numpy_bool_argument) (coords : Q * Q)
    (dm : DataManager) (out_dir : string) (events : list event) (file_path : string)
    (write : Py.outcome unit) :
  let d := run np_bool (init np_bool coords dm out_dir) events in
  match last_fft_plot np_bool (init np_bool coords dm out_dir) events None with
  | Some (xs, ys) =>
      length xs = length ys /\
      exists (table : Table) (box : effect),
        export_fft_results_csv file_path write d
        = [MakeDirs (output_dir d); ToCsv file_path table; box] /\
        column_names table = ("Frequency (Hz)", "Amplitude") /\
        table_rows table = combine xs ys
  | None =>
      export_fft_results_csv file_path write d
      = [MessageBox Warning "无数据" "没有可导出的 FFT 结果。请先计算 FFT。"]
  end.
Proof.
  intros d.
  assert (spectrum_matches (init np_bool coords dm out_dir) None) as Hinit.
  { unfold init. simpl.
    destruct (plot_data_spectrum np_bool dm
      (mkDialog coords out_dir
         (addItems (List.filter (fun v => negb (v =? "source_file")%string) (get_variables dm))
            empty_combo) false false None cleared cleared None None 0)) as [Hx Hy].
    split; [rewrite Hx | rewrite Hy]; reflexivity. }
  pose proof (run_matches np_bool events _ _ Hinit) as Hrun. fold d in Hrun.
  destruct (last_fft_plot np_bool (init np_bool coords dm out_dir) events None) as [[xs ys]|].
  - destruct Hrun as (y & Hx & Hy & Hys & Hlen). split; [exact Hlen|].
    unfold export_fft_results_csv, pd_DataFrame. rewrite Hx, Hy, <- Hys.
    rewrite (proj2 (Nat.eqb_eq _ _) Hlen).
    destruct write as [u|e]; eexists _, _; (split; [reflexivity|]); split; reflexivity.
  - destruct Hrun as [Hx Hy]. unfold export_fft_results_csv. rewrite Hx. reflexivity.
Qed.

End TimeSeriesFacts.

(** ** The main window *)

Section MainWindowFacts.
Import Qt MainWindow WindowTerms.

(** *** Formula validation *)

Lemma check_line_fold (fe : FormulaEngine) (lines : list string) (acc : bool * list string) :
  fold_left (check_line fe) lines acc
  = match last_invalid fe lines with
    | Some l => (false, [line_error l (snd (validate_syntax fe l))])
    | None => acc
    end.
Proof.
  induction lines as [|x lines IH] using rev_ind; [reflexivity|].
  rewrite fold_left_app. cbn [fold_left]. rewrite IH.
  unfold last_invalid. rewrite List.filter_app. cbn [List.filter].
  unfold check_line at 1.
  destruct (is_formula_line x); cbn [andb].
  - destruct (validate_syntax fe x) as [ok msg] eqn:E; cbn [fst snd negb].
    destruct ok; cbn [negb].
    + rewrite app_nil_r. reflexivity.
    + rewrite last_snoc, E. reflexivity.
  - rewrite app_nil_r. reflexivity.
Qed.

Lemma last_invalid_None (fe : FormulaEngine) (lines : list string) :
  last_invalid fe lines = None <->
  forall l, In l (List.filter is_formula_line lines) -> fst (validate_syntax fe l) = true.
Proof.
  unfold last_invalid. rewrite last_None. split.
  - intros Hnil l Hl. apply filter_In in Hl as [Hin Hf].
    destruct (fst (validate_syntax fe l)) eqn:E; [reflexivity|].
    assert (In l (List.filter
      (fun l => is_formula_line l && negb (fst (validate_syntax fe l))) lines)) as Hc.
    { apply filter_In. split; [exact Hin|]. rewrite Hf, E. reflexivity. }
    rewrite Hnil in Hc. destruct Hc.
  - intros Hall.
    destruct (List.filter
      (fun l => is_formula_line l && negb (fst (validate_syntax fe l))) lines)
      as [|l rest] eqn:E; [reflexivity|].
    assert (In l (List.filter
      (fun l => is_formula_line l && negb (fst (validate_syntax fe l))) lines)) as Hc
      by (rewrite E; left; reflexivity).
    apply filter_In in Hc as [Hin Hc]. apply andb_true_iff in Hc as [Hf Hbad].
    rewrite (Hall l) in Hbad; [discriminate|]. apply filter_In. auto.
Qed.



(** Every editor of the list is validated, once, with the engine of the
    window. *)
Lemma validate_all_lookup (w : Window) (id : editor_id) :
  editor (_validate_all_formulas w) id = validate_editor (formula_engine w) (editor w id).
Proof. destruct id; reflexivity. Qed.

Lemma is_formula_line_iff (line : string) :
  is_formula_line line = true <->
  Py.strip line <> "" /\ Py.startswith (Py.strip line) "#" = false.
Proof.
  unfold is_formula_line. rewrite andb_true_iff, negb_true_iff.
  destruct (Py.strip line); simpl; split; intros [H1 H2]; split; congruence.
Qed.

Lemma check_editor_valid (fe : FormulaEngine) (e : Editor) :
  (forall l, In l (checked_inputs e) -> fst (validate_syntax fe l) = true) ->
  check_editor fe e = (true, []).
Proof.
  unfold check_editor, checked_inputs. destruct (kind e); intros Hall.
  - specialize (Hall (text e) (or_introl eq_refl)).
    destruct (validate_syntax fe (text e)) as [ok msg]. simpl in Hall. rewrite Hall.
    reflexivity.
  - rewrite check_line_fold.
    rewrite (proj2 (last_invalid_None fe _) Hall). reflexivity.
Qed.




(** Validation changes the editors and nothing else. *)
Lemma validate_all_only_editors (w : Window) :
  _validate_all_formulas w = set_editor (editor (_validate_all_formulas w)) w.
Proof.
  unfold _validate_all_formulas. generalize _get_all_formula_editors. intros ids.
  revert w. induction ids as [|id ids IH]; intros w.
  - destruct w. reflexivity.
  - cbn [fold_left]. rewrite IH at 1.
    match goal with |- set_editor ?f _ = _ => generalize f end.
    intros f. destruct w. reflexivity.
Qed.






(** *** Profile lines *)

Lemma fold_insert_lookup (A : string -> bool) (F : string -> string) (B : string -> bool)
    (keys : list string) (acc : gmap string string) (k : string) :
  fold_left
    (fun acc key =>
       if A key then
         let formula := F key in
         if B formula then <[key := formula]> acc else acc
       else acc) keys acc !! k
  = if bool_decide (k ∈ keys) && A k && B (F k) then Some (F k) else acc !! k.
Proof.
  revert acc. induction keys as [|x keys IH]; intros acc; [reflexivity|].
  cbn [fold_left]. rewrite IH.
  destruct (decide (k = x)) as [->|Hne].
  - rewrite (bool_decide_eq_true_2 (x ∈ x :: keys)) by (left; reflexivity).
    cbn [andb].
    destruct (bool_decide (x ∈ keys)); cbn [andb];
      destruct (A x); cbn [andb]; try reflexivity;
      destruct (B (F x)); cbn [andb]; try reflexivity;
      apply lookup_insert_eq.
  - assert (bool_decide (k ∈ x :: keys) = bool_decide (k ∈ keys)) as ->.
    { apply bool_decide_ext. rewrite elem_of_cons. intuition congruence. }
    destruct (bool_decide (k ∈ keys) && A k && B (F k)); [reflexivity|].
    destruct (A x); [|reflexivity]. cbn zeta.
    destruct (B (F x)); [|reflexivity].
    apply lookup_insert_ne. congruence.
Qed.

Lemma collect_available_lookup (results : gmap string (option Grid)) (c : Config) (key : string) :
  collect_available results c !! key
  = if bool_decide (key ∈ profile_keys) && has_data results key && Py.truthy (formula_for c key)
    then Some (formula_for c key) else None.
Proof.
  unfold collect_available.
  rewrite (fold_insert_lookup (has_data results) (formula_for c) Py.truthy).
  rewrite lookup_empty. reflexivity.
Qed.

Lemma layer_of_keys (c : Config) (key : string) :
  key ∈ profile_keys <-> is_Some (layer_of c key).
Proof.
  unfold profile_keys, layer_of. rewrite !elem_of_cons, elem_of_nil.
  destruct (String.eqb_spec key "heatmap"); [split; eauto|].
  destruct (String.eqb_spec key "contour"); [split; eauto|].
  destruct (String.eqb_spec key "vector_u"); [split; eauto|].
  destruct (String.eqb_spec key "vector_v"); [split; eauto|].
  split; [intuition congruence | intros [x Hx]; discriminate].
Qed.

Lemma formula_for_layer (c : Config) (key : string) (en : bool) (formula : option string) :
  layer_of c key = Some (en, formula) ->
  formula_for c key = if en then default key formula else "".
Proof.
  unfold layer_of, formula_for.
  destruct (String.eqb_spec key "heatmap") as [->|H1].
  { intros [= <- <-]. cbn [andb]. destruct (enabled _); reflexivity. }
  destruct (String.eqb_spec key "contour") as [->|H2].
  { intros [= <- <-]. cbn [andb]. destruct (enabled _); reflexivity. }
  destruct (String.eqb_spec key "vector_u") as [->|H3].
  { intros [= <- <-]. cbn [andb]. destruct (enabled _); reflexivity. }
  destruct (String.eqb_spec key "vector_v") as [->|H4].
  { intros [= <- <-]. cbn [andb]. destruct (enabled _); reflexivity. }
  discriminate.
Qed.

Lemma has_data_iff (results : gmap string (option Grid)) (key : string) :
  has_data results key = true <->
  exists grid : Grid, results !! (key +:+ "_data") = Some (Some grid).
Proof.
  unfold has_data. destruct (results !! (key +:+ "_data")) as [[g|]|]; split;
    try discriminate; eauto; intros [g' H]; discriminate.
Qed.

(** The entries of [available_data]. *)
Lemma collect_available_spec (results : gmap string (option Grid)) (c : Config)
    (key f : string) :
  collect_available results c !! key = Some f <->
  exists (en : bool) (formula : option string),
    layer_of c key = Some (en, formula) /\
    (exists grid : Grid, results !! (key +:+ "_data") = Some (Some grid)) /\
    en = true /\ f = default key formula /\ f <> "".
Proof.
  rewrite collect_available_lookup. split.
  - destruct (bool_decide (key ∈ profile_keys)) eqn:Hk; [|discriminate].
    apply bool_decide_eq_true_1, (layer_of_keys c) in Hk as [[en formula] Hl].
    cbn [andb]. destruct (has_data results key) eqn:Hd; [|discriminate]. cbn [andb].
    destruct (Py.truthy (formula_for c key)) eqn:Ht; [|discriminate].
    intros [= <-]. exists en, formula.
    rewrite (formula_for_layer c key en formula Hl) in *.
    split; [exact Hl|]. split; [apply has_data_iff, Hd|].
    destruct en; [|discriminate]. split; [reflexivity|]. split; [reflexivity|].
    apply truthy_iff, Ht.
  - intros (en & formula & Hl & Hd & -> & -> & Hne).
    rewrite bool_decide_eq_true_2 by (apply (layer_of_keys c); eauto).
    rewrite (proj2 (has_data_iff results key) Hd).
    rewrite (formula_for_layer c key true formula Hl).
    rewrite (proj2 (truthy_iff _) Hne). reflexivity.
Qed.

(** Unchecking the draw-profile button touches the button, the picker mode
    and the status bar only. *)
Lemma uncheck_draw_profile_btn_frame (w : Window) :
  let w' := uncheck_draw_profile_btn w in
  (log w' = log w \/ log w' = log w ++ [StatusClear]) /\
  profile_dialog w' = profile_dialog w /\
  config w' = config w /\
  output_dir w' = output_dir w /\
  interpolated_results (plot_widget w') = interpolated_results (plot_widget w).
Proof.
  unfold uncheck_draw_profile_btn, _on_draw_profile_untoggled.
  destruct (draw_profile_btn w); [|simpl; auto].
  cbn [set_draw_profile_btn plot_widget].
  destruct (picker_mode (plot_widget w)) as [[| | | |]|]; simpl; auto.
Qed.

(** C4. When a profile line is defined while the plot widget has no
    interpolated results (None or an empty dict), a warning box is shown, no
    profile dialog is opened and the attribute [profile_dialog] keeps its
    value. Otherwise no box is shown and a dialog is opened on the two points
    and the results, whose available-data map has an entry for a key exactly
    when the key is one of heatmap, contour, vector_u and vector_v, the
    results hold data (not None) under key_data, the layer of the key is
    enabled in the current configuration, and the formula looked up for it
    (the key itself when the configuration holds none) is not empty; the
    entry is that formula. *)
Theorem profile_line_dialog (p1 p2 : Q * Q) (w : Window) :
  let w' := _on_profile_line_defined p1 p2 w in
  exists effects : list effect,
    log w' = log w ++ effects /\
    (no_results (interpolated_results (plot_widget w)) = true ->
     In (MessageBox Warning "无数据" "无可用于剖面的插值数据。") effects /\
     (forall dlg, ~ In (OpenProfileDialog dlg) effects) /\
     profile_dialog w' = profile_dialog w) /\
    (no_results (interpolated_results (plot_widget w)) = false ->
     exists dlg : ProfilePlotDialog,
       profile_dialog w' = Some dlg /\
       In (OpenProfileDialog dlg) effects /\
       (forall kind title body, ~ In (MessageBox kind title body) effects) /\
       start_point dlg = p1 /\ end_point dlg = p2 /\
       profile_visible dlg = true /\
       profile_output_dir dlg = output_dir w /\
       interpolated_results (plot_widget w) = Some (profile_results dlg) /\
       forall key f : string,
         available_data dlg !! key = Some f <->
         exists (en : bool) (formula : option string),
           layer_of (config w) key = Some (en, formula) /\
           (exists grid : Grid,
              profile_results dlg !! (key +:+ "_data") = Some (Some grid)) /\
           en = true /\ f = default key formula /\ f <> "").
Proof.
  intros w'. unfold w', _on_profile_line_defined.
  destruct (uncheck_draw_profile_btn_frame w) as (Hlog & Hdlg & Hcfg & Hout & Hres).
  set (w1 := uncheck_draw_profile_btn w) in *. cbv zeta in Hlog, Hdlg, Hcfg, Hout, Hres.
  rewrite Hres.
  assert (exists pre, log w1 = log w ++ pre /\ (pre = [] \/ pre = [StatusClear])) as (pre & Hpre & Hcases).
  { destruct Hlog as [H|H]; [exists [] | exists [StatusClear]]; rewrite H.
    - rewrite app_nil_r. auto.
    - auto. }
  destruct (interpolated_results (plot_widget w)) as [results|] eqn:Hr.
  - destruct (bool_decide (results = ∅)) eqn:Hempty.
    + exists (pre ++ [MessageBox Warning "无数据" "无可用于剖面的插值数据。"]).
      split. { simpl. rewrite Hpre, <- app_assoc. reflexivity. }
      split; [|simpl; rewrite Hempty; discriminate].
      intros _. split; [apply in_or_app; right; left; reflexivity|].
      split; [|exact Hdlg].
      intros dlg Hin. apply in_app_or in Hin as [Hin|[Hin|[]]]; [|discriminate].
      destruct Hcases as [-> | ->]; [destruct Hin|].
      destruct Hin as [Hin|[]]. discriminate.
    + set (dlg := mkProfileDialog p1 p2 results (collect_available results (config w1))
                    (output_dir w1) true).
      exists (pre ++ (match profile_dialog w1 with
                      | Some old => if profile_visible old then [CloseProfileDialog] else []
                      | None => []
                      end) ++ [OpenProfileDialog dlg]).
      split.
      { destruct (profile_dialog w1) as [old|]; [destruct (profile_visible old)|];
          simpl; rewrite Hpre, <- ?app_assoc; simpl; rewrite ?app_nil_r; reflexivity. }
      split; [simpl; rewrite Hempty; discriminate|].
      intros _. exists dlg.
      split. { destruct (profile_dialog w1) as [old|]; [destruct (profile_visible old)|]; reflexivity. }
      split. { apply in_or_app. right. apply in_or_app. right. left. reflexivity. }
      split.
      { intros kind title body Hin.
        apply in_app_or in Hin as [Hin|Hin].
        - destruct Hcases as [-> | ->]; [destruct Hin|]. destruct Hin as [Hin|[]]. discriminate.
        - apply in_app_or in Hin as [Hin|[Hin|[]]]; [|discriminate].
          destruct (profile_dialog w1) as [old|]; [destruct (profile_visible old)|];
            simpl in Hin; intuition discriminate. }
      split; [reflexivity|]. split; [reflexivity|]. split; [reflexivity|].
      split; [exact Hout|]. split; [reflexivity|].
      intros key f. rewrite <- Hcfg. apply collect_available_spec.
  - exists (pre ++ [MessageBox Warning "无数据" "无可用于剖面的插值数据。"]).
    split. { simpl. rewrite Hpre, <- app_assoc. reflexivity. }
    split; [|simpl; discriminate].
    intros _. split; [apply in_or_app; right; left; reflexivity|].
    split; [|exact Hdlg].
    intros dlg Hin. apply in_app_or in Hin as [Hin|[Hin|[]]]; [|discriminate].
    destruct Hcases as [-> | ->]; [destruct Hin|].
    destruct Hin as [Hin|[]]. discriminate.
Qed.

(** *** Frames, labels and the cache *)

(** [_update_frame_info] writes three labels and nothing else. *)
Lemma update_frame_info_frame (is_time_avg : bool) (start end_ : Z) (w : Window) :
  let w' := _update_frame_info is_time_avg start end_ w in
  data_manager w' = data_manager w /\
  current_frame_index w' = current_frame_index w /\
  time_slider w' = time_slider w /\
  plot_widget w' = plot_widget w /\
  import_progress_dialog w' = import_progress_dialog w /\
  import_worker w' = import_worker w /\
  log w' = log w /\
  cache_label w' = cache_text (data_manager w).
Proof.
  unfold _update_frame_info. destruct is_time_avg; [simpl; tauto|].
  cbn [set_frame_info_label current_frame_index].
  destruct (get_frame_info (data_manager w) (current_frame_index w)) as [info|];
    [destruct (info !! "timestamp")|]; simpl; tauto.
Qed.

(** C5. When the frame index is outside [0, frame_count), and when the
    data manager returns None for the frame, [_load_frame] changes nothing:
    not the current frame index, not the value of the time slider, not the
    data of the plot widget. The current frame index changes only when the
    index is in range and the data is not None, and then it becomes the
    index, the slider is set to it and the plot widget receives the data. *)
Theorem load_frame_guard (frame_index : Z) (required_columns : option (gset string))
    (w : Window) :
  let dm := data_manager w in
  let w' := _load_frame frame_index required_columns w in
  ((~ (0 <= frame_index < get_frame_count dm)%Z \/
    get_frame_data dm frame_index required_columns = None) ->
   w' = w /\
   current_frame_index w' = current_frame_index w /\
   value (time_slider w') = value (time_slider w) /\
   plot_data (plot_widget w') = plot_data (plot_widget w)) /\
  (current_frame_index w' <> current_frame_index w ->
   (0 <= frame_index < get_frame_count dm)%Z /\
   get_frame_data dm frame_index required_columns <> None) /\
  (forall data : Frame,
     (0 <= frame_index < get_frame_count dm)%Z ->
     get_frame_data dm frame_index required_columns = Some data ->
     current_frame_index w' = frame_index /\
     time_slider w' = setValue frame_index (time_slider w) /\
     plot_data (plot_widget w') = Some data).
Proof.
  intros dm w'.
  assert ((~ (0 <= frame_index < get_frame_count dm)%Z \/
           get_frame_data dm frame_index required_columns = None) -> w' = w) as Hsame.
  { intros Hbad. unfold w', _load_frame. fold dm.
    destruct (Z.leb_spec 0 frame_index); destruct (Z.ltb_spec frame_index (get_frame_count dm));
      cbn [andb negb]; try reflexivity.
    destruct Hbad as [Hout|Hnone]; [lia|]. rewrite Hnone. reflexivity. }
  split; [|split].
  - intros Hbad. rewrite (Hsame Hbad). auto.
  - intros Hchg.
    destruct (Z.leb_spec 0 frame_index) as [H0|H0];
      [|exfalso; apply Hchg; rewrite Hsame; [reflexivity | left; lia]].
    destruct (Z.ltb_spec frame_index (get_frame_count dm)) as [H1|H1];
      [|exfalso; apply Hchg; rewrite Hsame; [reflexivity | left; lia]].
    split; [lia|]. intros Hnone. apply Hchg. rewrite Hsame; [reflexivity | right; exact Hnone].
  - intros data Hin Hdata. unfold w', _load_frame. fold dm.
    destruct (Z.leb_spec 0 frame_index); [|lia].
    destruct (Z.ltb_spec frame_index (get_frame_count dm)); [|lia].
    cbn [andb negb]. rewrite Hdata.
    set (w1 := set_plot_widget _ _).
    destruct (update_frame_info_frame false 0 0 w1) as (_ & Hidx & Hsl & Hpw & _).
    cbv zeta in Hidx, Hsl, Hpw.
    destruct (last_mouse_coords (plot_widget (_update_frame_info false 0 0 w1)));
      cbn [emit set_log current_frame_index time_slider plot_widget];
      rewrite Hidx, Hsl, Hpw; repeat split; reflexivity.
Qed.


(** C10. The database-info label shows the frame count, the number of
    variables, the size of the Zarr array store and the size of the SQLite
    metadata store of [get_database_info], each replaced by 0 (no variable,
    for the list) when its key is absent, and its tooltip names the
    [zarr_path] and the [db_path] of the data manager. *)
Theorem db_info_display (w : Window) :
  let info := get_database_info (data_manager w) in
  let w' := _update_db_info w in
  exists (fc : Z) (variables : list string) (zarr_size db_size : Q),
    (info_frame_count info = Some fc \/ info_frame_count info = None /\ fc = 0%Z) /\
    (info_variables info = Some variables \/ info_variables info = None /\ variables = []) /\
    (info_zarr_size_mb info = Some zarr_size \/
     info_zarr_size_mb info = None /\ zarr_size = 0%Q) /\
    (info_db_size_mb info = Some db_size \/ info_db_size_mb info = None /\ db_size = 0%Q) /\
    label_text (db_info_label w')
    = "帧: " +:+ Py.str_int fc +:+ " | 变量: " +:+ Py.str_int (Z.of_nat (length variables))
      +:+ " | 大小: " +:+ Py.format_fixed 2 zarr_size +:+ " MB (数据) + "
      +:+ Py.format_fixed 2 db_size +:+ " MB (元数据)" /\
    label_toolTip (db_info_label w')
    = "数据 (Zarr): " +:+ str_path (zarr_path (data_manager w)) +:+ NL
      +:+ "元数据 (SQLite): " +:+ str_path (db_path (data_manager w)).
Proof.
  intros info w'.
  exists (default 0%Z (info_frame_count info)), (default [] (info_variables info)),
    (default 0%Q (info_zarr_size_mb info)), (default 0%Q (info_db_size_mb info)).
  split; [destruct (info_frame_count info); simpl; auto|].
  split; [destruct (info_variables info); simpl; auto|].
  split; [destruct (info_zarr_size_mb info); simpl; auto|].
  split; [destruct (info_db_size_mb info); simpl; auto|].
  split; reflexivity.
Qed.

(** *** Import and initialization *)

Lemma keeps_refl (w : Window) : keeps w w.
Proof.
  repeat split. exists []. split; [rewrite app_nil_r; reflexivity | constructor].
Qed.

Lemma keeps_trans (w1 w2 w3 : Window) : keeps w1 w2 -> keeps w2 w3 -> keeps w1 w3.
Proof.
  intros (Hd & Hw & Hm & es & Hl & Hq) (Hd' & Hw' & Hm' & es' & Hl' & Hq').
  split; [congruence|]. split; [congruence|]. split; [congruence|].
  exists (es ++ es'). split.
  - rewrite Hl', Hl, app_assoc. reflexivity.
  - apply Forall_app. auto.
Qed.

Lemma keeps_emit (e : effect) (w : Window) : quiet e -> keeps w (emit e w).
Proof.
  intros Hq. repeat split. exists [e]. split; [reflexivity|]. constructor; [exact Hq|constructor].
Qed.

Lemma keeps_emit_all (es : list effect) (w : Window) :
  Forall quiet es -> keeps w (emit_all es w).
Proof.
  revert w. induction es as [|e es IH]; intros w Hq; [apply keeps_refl|].
  inversion Hq; subst. unfold emit_all. cbn [fold_left].
  eapply keeps_trans; [apply (keeps_emit e); assumption|]. apply IH. assumption.
Qed.

(** A change of fields other than the log, the data manager, the import
    worker and its dialog. *)
Lemma keeps_fields (w w' : Window) :
  import_progress_dialog w' = import_progress_dialog w ->
  import_worker w' = import_worker w ->
  data_manager w' = data_manager w ->
  log w' = log w ->
  keeps w w'.
Proof.
  intros Hd Hw Hm Hl. split; [exact Hd|]. split; [exact Hw|]. split; [exact Hm|].
  exists []. rewrite app_nil_r. split; [exact Hl|constructor].
Qed.

Lemma keeps_update_frame_info (is_time_avg : bool) (start end_ : Z) (w : Window) :
  keeps w (_update_frame_info is_time_avg start end_ w).
Proof.
  destruct (update_frame_info_frame is_time_avg start end_ w)
    as (Hm & _ & _ & _ & Hd & Hw & Hl & _).
  apply keeps_fields; assumption.
Qed.

Lemma keeps_load_frame (i : Z) (cols : option (gset string)) (w : Window) :
  keeps w (_load_frame i cols w).
Proof.
  unfold _load_frame. destruct (negb _); [apply keeps_refl|].
  destruct (get_frame_data _ _ _) as [data|]; [|apply keeps_refl].
  set (w1 := set_plot_widget _ _).
  assert (keeps w w1) as H1 by (apply keeps_fields; reflexivity).
  assert (keeps w (_update_frame_info false 0 0 w1)) as H2
    by (eapply keeps_trans; [exact H1 | apply keeps_update_frame_info]).
  destruct (last_mouse_coords _); [|exact H2].
  eapply keeps_trans; [exact H2 | apply keeps_emit; exact I].
Qed.

Lemma keeps_apply_visualization_settings (w : Window) :
  keeps w (_apply_visualization_settings w).
Proof.
  unfold _apply_visualization_settings, showMessage.
  destruct (_ =? 0)%Z; [apply keeps_refl|].
  set (w1 := set_plot_widget _ w).
  assert (keeps w w1) as H1 by (apply keeps_fields; reflexivity).
  destruct (cfg_time_average_enabled (config w)).
  - destruct (_ <=? _)%Z.
    + eapply keeps_trans; [exact H1 | apply keeps_emit; exact I].
    + set (w2 := set_plot_widget _ w1).
      assert (keeps w1 w2) as H2 by (apply keeps_fields; reflexivity).
      eapply keeps_trans; [exact H1|]. eapply keeps_trans; [exact H2|].
      eapply keeps_trans; [apply keeps_update_frame_info | apply keeps_emit; exact I].
  - eapply keeps_trans; [exact H1|].
    eapply keeps_trans; [apply keeps_load_frame | apply keeps_emit; exact I].
Qed.

Lemma keeps_force_refresh_plot (reset_view : bool) (w : Window) :
  keeps w (_force_refresh_plot reset_view w).
Proof.
  unfold _force_refresh_plot.
  eapply keeps_trans; [|apply keeps_apply_visualization_settings].
  apply keeps_fields; reflexivity.
Qed.

Lemma quiet_add_items (widget : string) (names : list string) :
  Forall quiet (map (AddItem widget) names).
Proof. induction names as [|v names IH]; constructor; [exact I | exact IH]. Qed.

(** Peels the outermost operation off the window on the right. *)
Ltac keeps_step :=
  lazymatch goal with
  | |- keeps ?a (emit ?e ?x) =>
      apply (keeps_trans a x); [| apply keeps_emit; exact I]
  | |- keeps ?a (emit_all (map (AddItem ?n) ?vs) ?x) =>
      apply (keeps_trans a x); [| apply keeps_emit_all, quiet_add_items]
  | |- keeps ?a (emit_all ?es ?x) =>
      apply (keeps_trans a x);
      [| apply keeps_emit_all; cbn [map frame_range_widgets compute_buttons];
         repeat constructor]
  | |- keeps ?a (set_time_slider ?s ?x) =>
      apply (keeps_trans a x);
      [| generalize s; generalize x; intros; apply keeps_fields; reflexivity]
  | |- keeps ?a (_update_db_info ?x) =>
      apply (keeps_trans a x);
      [| generalize x; intros; apply keeps_fields; reflexivity]
  | |- keeps ?a (_force_refresh_plot ?b ?x) =>
      apply (keeps_trans a x); [| apply keeps_force_refresh_plot]
  | |- keeps ?a ?b => constr_eq a b; apply keeps_refl
  end.

(** Loading the project data starts with [post_import_setup], asks nothing
    and leaves the import worker and its dialog alone. *)
Lemma load_project_data_effects (w : Window) :
  import_progress_dialog (_load_project_data w) = import_progress_dialog w /\
  import_worker (_load_project_data w) = import_worker w /\
  exists rest : list effect,
    log (_load_project_data w) = log w ++ Call "data_manager.post_import_setup" :: rest /\
    Forall quiet rest.
Proof.
  unfold _load_project_data.
  set (w0 := emit (Call "data_manager.post_import_setup") w).
  assert (forall w', keeps w0 w' ->
            import_progress_dialog w' = import_progress_dialog w /\
            import_worker w' = import_worker w /\
            exists rest, log w' = log w ++ Call "data_manager.post_import_setup" :: rest /\
                         Forall quiet rest) as Hfin.
  { intros w' (Hd & Hw & _ & es & Hl & Hq). split; [exact Hd|]. split; [exact Hw|].
    exists es. split; [|exact Hq]. rewrite Hl. unfold w0. simpl.
    rewrite <- app_assoc. reflexivity. }
  apply Hfin. cbv zeta. fold w0.
  destruct (0 <? get_frame_count (data_manager (_update_db_info w0)))%Z;
    unfold showMessage; repeat keeps_step.
Qed.

(** Loading the project data leaves the data manager as it is. *)
Lemma load_project_data_keeps (w : Window) : keeps w (_load_project_data w).
Proof.
  unfold _load_project_data. cbv zeta.
  destruct (0 <? get_frame_count
                   (data_manager (_update_db_info
                      (emit (Call "data_manager.post_import_setup") w))))%Z;
    unfold showMessage; repeat keeps_step.
Qed.

Lemma start_database_import_state (w : Window) :
  let w1 := _start_database_import w in
  log w1
  = log w ++ [Connect progress update_progress; Connect log_message set_log_message;
              Connect finished on_import_finished; Connect error on_error;
              WorkerStart; DialogExec] /\
  import_worker w1 = Some (mkWorker import_connections true) /\
  import_progress_dialog w1 = Some (mkImportDialog "正在创建和分析数据存储..." true) /\
  data_manager w1 = data_manager w.
Proof.
  cbn. rewrite <- !app_assoc. auto.
Qed.

Lemma deliver_connected (w : Window) (started : bool) :
  import_worker w = Some (mkWorker import_connections started) ->
  deliver EmitFinished w = _on_import_finished w /\
  forall message, deliver (EmitError message) w = _on_error message w.
Proof.
  intros Hw. unfold deliver. rewrite Hw. split; [|intros message]; reflexivity.
Qed.

Lemma on_error_visible (message : string) (w : Window) (dlg : ImportDialog) :
  import_progress_dialog w = Some dlg ->
  isVisible dlg = true ->
  log (_on_error message w)
  = log w ++ [DialogAccept; StatusMessage ("错误: " +:+ message) 5000;
              MessageBox Critical "发生错误" message] /\
  import_progress_dialog (_on_error message w)
  = Some (mkImportDialog (import_message dlg) false).
Proof.
  intros Hd Hv. unfold _on_error, accept_dialog, showMessage. rewrite Hd, Hv. cbn.
  rewrite <- !app_assoc. auto.
Qed.

Lemma on_import_finished_dialog (w : Window) (dlg : ImportDialog) :
  import_progress_dialog w = Some dlg ->
  _on_import_finished w
  = _load_project_data
      (emit (MessageBox Information "导入完成" "数据存储已成功创建，基础统计数据已计算完毕。")
         (accept_dialog w)) /\
  import_progress_dialog (_on_import_finished w)
  = Some (mkImportDialog (import_message dlg) false) /\
  exists rest : list effect,
    log (_on_import_finished w)
    = log w ++ DialogAccept
        :: MessageBox Information "导入完成" "数据存储已成功创建，基础统计数据已计算完毕。"
        :: Call "data_manager.post_import_setup" :: rest /\
    Forall quiet rest.
Proof.
  intros Hd. unfold _on_import_finished. rewrite Hd.
  split; [reflexivity|].
  set (w1 := emit _ (accept_dialog w)).
  destruct (load_project_data_effects w1) as (Hd1 & _ & rest & Hl & Hq).
  split.
  - rewrite Hd1. unfold w1, accept_dialog. rewrite Hd. reflexivity.
  - exists rest. split; [|exact Hq]. rewrite Hl. unfold w1, accept_dialog. rewrite Hd.
    cbn. rewrite <- !app_assoc. reflexivity.
Qed.

(** C7. [_start_database_import] creates the import worker, connects its
    progress, log, finished and error signals and only then starts it and
    runs the progress dialog. When the worker then emits [finished], the
    dialog is accepted, the completion box is shown and the project data is
    loaded; when it emits [error], and whenever [_on_error] runs while the
    import dialog is visible, the dialog is accepted first, then the message
    goes to the status bar and into a critical box. *)
Theorem import_worker_signals (w : Window) :
  let w1 := _start_database_import w in
  (exists effects : list effect,
     log w1 = log w ++ effects /\
     (forall (i j : nat) (sig : signal) (target : slot),
        effects !! i = Some (Connect sig target) ->
        effects !! j = Some WorkerStart -> (i < j)%nat) /\
     (forall sig : signal, exists (i : nat) (target : slot),
        effects !! i = Some (Connect sig target)) /\
     In WorkerStart effects) /\
  (exists wk : DataImportWorker,
     import_worker w1 = Some wk /\ started wk = true /\
     In (progress, update_progress) (connections wk) /\
     In (log_message, set_log_message) (connections wk) /\
     In (finished, on_import_finished) (connections wk) /\
     In (error, on_error) (connections wk)) /\
  (exists dlg : ImportDialog, import_progress_dialog w1 = Some dlg /\ isVisible dlg = true) /\
  (let w2 := deliver EmitFinished w1 in
   w2 = _load_project_data
          (emit (MessageBox Information "导入完成"
                   "数据存储已成功创建，基础统计数据已计算完毕。")
             (accept_dialog w1)) /\
   (exists dlg : ImportDialog,
      import_progress_dialog w2 = Some dlg /\ isVisible dlg = false) /\
   exists rest : list effect,
     log w2 = log w1 ++ DialogAccept
                :: MessageBox Information "导入完成"
                     "数据存储已成功创建，基础统计数据已计算完毕。"
                :: Call "data_manager.post_import_setup" :: rest) /\
  (forall message : string,
     let w3 := deliver (EmitError message) w1 in
     log w3 = log w1 ++ [DialogAccept; StatusMessage ("错误: " +:+ message) 5000;
                         MessageBox Critical "发生错误" message] /\
     exists dlg : ImportDialog,
       import_progress_dialog w3 = Some dlg /\ isVisible dlg = false) /\
  (forall (w0 : Window) (dlg : ImportDialog) (message : string),
     import_progress_dialog w0 = Some dlg -> isVisible dlg = true ->
     log (_on_error message w0)
     = log w0 ++ [DialogAccept; StatusMessage ("错误: " +:+ message) 5000;
                  MessageBox Critical "发生错误" message] /\
     exists dlg' : ImportDialog,
       import_progress_dialog (_on_error message w0) = Some dlg' /\
       isVisible dlg' = false).
Proof.
  intros w1.
  destruct (start_database_import_state w) as (Hlog & Hwk & Hdlg & _). fold w1 in Hlog, Hwk, Hdlg.
  destruct (deliver_connected w1 true Hwk) as [Hfin Herr].
  split.
  { eexists. split; [exact Hlog|]. split; [|split].
    - intros i j sig target Hi Hj.
      do 4 (destruct j as [|j]; [discriminate|]).
      do 4 (destruct i as [|i]; [lia|]).
      destruct i as [|[|i]]; discriminate.
    - intros [| | |]; [exists 0%nat | exists 1%nat | exists 2%nat | exists 3%nat];
        eexists; reflexivity.
    - simpl. tauto. }
  split.
  { eexists. split; [exact Hwk|]. simpl. tauto. }
  split.
  { eexists. split; [exact Hdlg|]. reflexivity. }
  split.
  { cbv zeta. rewrite Hfin.
    destruct (on_import_finished_dialog w1 _ Hdlg) as (Heq & Hd2 & rest & Hl2 & _).
    split; [exact Heq|]. split.
    - eexists. split; [exact Hd2|]. reflexivity.
    - exists rest. exact Hl2. }
  split.
  { intros message. cbv zeta. rewrite Herr.
    destruct (on_error_visible message w1 _ Hdlg eq_refl) as [Hl3 Hd3].
    split; [exact Hl3|]. eexists. split; [exact Hd3|]. reflexivity. }
  intros w0 dlg message Hd Hv.
  destruct (on_error_visible message w0 dlg Hd Hv) as [Hl Hd'].
  split; [exact Hl|]. eexists. split; [exact Hd'|]. reflexivity.
Qed.

(** C8, as stated, fails when [setup_project_directory] refuses the
    directory: the database is not ready, yet nobody is asked and nothing
    happens at all. *)
Lemma initialize_project_setup_refused :
  is_database_ready (data_manager (window_over (empty_dm false false))) = false /\
  _initialize_project Yes (window_over (empty_dm false false))
  = window_over (empty_dm false false) /\
  ~ initialization_claim Yes (window_over (empty_dm false false)).
Proof.
  split; [reflexivity|]. split; [reflexivity|].
  intros [_ Hask]. destruct (Hask eq_refl) as (effects & Hlog & _).
  discriminate Hlog.
Qed.

(** C8, amended. When [setup_project_directory] refuses the project
    directory, [_initialize_project] changes nothing. When it accepts it: a
    database reported ready is loaded directly, without a question and
    without an import; otherwise the user is asked whether to create the
    data store from the CSV files of the directory, the import is started
    exactly when the answer is Yes, and on No the status-bar message is the
    only other effect and the rest of the window is unchanged. *)
Theorem initialize_project_dispatch (reply : StandardButton) (w : Window) :
  if setup_project_directory (data_manager w) (project_dir w)
  then initialization_claim reply w
  else _initialize_project reply w = w.
Proof.
  destruct (setup_project_directory (data_manager w) (project_dir w)) eqn:Hsetup.
  - unfold initialization_claim, _initialize_project. rewrite Hsetup. cbn [negb].
    split.
    + intros Hready. rewrite Hready. split; [reflexivity|].
      destruct (load_project_data_effects w) as (_ & _ & rest & Hl & Hq).
      eexists. split; [exact Hl|]. constructor; [exact I | exact Hq].
    + intros Hready. rewrite Hready.
      set (q := import_question (project_dir w)).
      destruct reply.
      * destruct (start_database_import_state (emit q w)) as (Hl & _).
        eexists. split; [rewrite Hl; cbn; rewrite <- app_assoc; reflexivity|].
        split; [split; [reflexivity | intros _; simpl; tauto]|].
        split; [reflexivity|]. discriminate.
      * eexists. split; [cbn; rewrite <- app_assoc; reflexivity|].
        split; [split; [intros [H|[]]; discriminate | discriminate]|].
        split; [discriminate|]. intros _. split; reflexivity.
      * eexists. split; [cbn; rewrite <- app_assoc; reflexivity|].
        split; [split; [intros [H|[]]; discriminate | discriminate]|].
        split; discriminate.
  - unfold _initialize_project. rewrite Hsetup. reflexivity.
Qed.

End MainWindowFacts.

(** ** The model on sample inputs *)

Section Samples.
Import Qt Np.

Example format_fixed_samples :
  Py.format_fixed 2 (3 # 8) = "0.38" /\ Py.format_fixed 2 (1 # 8) = "0.12" /\
  Py.format_fixed 4 (- (12345678 # 1000000)) = "-12.3457" /\ Py.format_fixed 2 0 = "0.00" /\
  Py.format_fixed 4 7 = "7.0000" /\ Py.format_fixed 4 (5 # 1000) = "0.0050".
Proof. repeat split; reflexivity. Qed.

Example split_strip_samples :
  Py.split nl ("a" +:+ NL +:+ NL +:+ "b") = ["a"; ""; "b"] /\
  Py.split nl "" = [""] /\
  Py.strip "  # note  " = "# note" /\
  Py.strip " 　x　y　 " = "x　y" /\
  Py.strip "　" = "" /\
  Py.chars "a　b" = ["a"; "　"; "b"] /\
  Py.slice_to 2 "频率 (Hz)" = "频率".
Proof. repeat split; reflexivity. Qed.

Example fftfreq_sample :
  map Qred (fftfreq 8 (1 # 10))
  = [0; 5 # 4; 5 # 2; 15 # 4; -5 # 1; -15 # 4; -5 # 2; -5 # 4]%Q.
Proof. reflexivity. Qed.

Example sample_dialog_spectrum :
  let d := TimeSeriesDialog.init Converted (0, 0)%Q DialogTerms.sample_dm "output" in
  TimeSeriesDialog.fft_button d = true /\
  TimeSeriesDialog.xf (TimeSeriesDialog.plot_fft d) = Some [0 # 9]%Q /\
  TimeSeriesDialog.export_fft_button (TimeSeriesDialog.plot_fft d) = true.
Proof. repeat split; reflexivity. Qed.

(** The same dialog where PyQt6 refuses the NumPy boolean: the samples are
    stored and plotted, the button stays disabled and the failure text is
    on the time axes. *)
Example refused_boolean_sample :
  let d := TimeSeriesDialog.init (TypeError "argument 1 has unexpected type 'numpy.bool'")
             (0, 0)%Q DialogTerms.sample_dm "output" in
  TimeSeriesDialog.fft_button d = false /\
  TimeSeriesDialog.current_df d = Some [(0, 1); (1, 3); (3, 2)]%Q /\
  lines (TimeSeriesDialog.ax_time d) = [([0; 1; 3]%Q, [1; 3; 2]%Q)] /\
  texts (TimeSeriesDialog.ax_time d)
  = ["绘图失败:" +:+ NL +:+ "argument 1 has unexpected type 'numpy.bool'"].
Proof. repeat split; reflexivity. Qed.

Example sample_dialog_last_plot :
  exists ys : list R,
    DialogTerms.last_fft_plot Converted
      (TimeSeriesDialog.init Converted (0, 0)%Q DialogTerms.sample_dm "output")
      [TimeSeriesDialog.ClickFft] None = Some ([0 # 9]%Q, ys).
Proof. eexists. reflexivity. Qed.

(** A formula engine that rejects the one text ["bad("]. *)
Example validation_sample :
  let fe := MainWindow.mkFE
              (fun s => if String.eqb s "bad(" then (false, "unbalanced") else (true, ""))
              (fun _ => ∅) in
  let e := MainWindow.mkEditor MainWindow.QTextEdit
             ("a+b" +:+ NL +:+ "  # note" +:+ NL +:+ NL +:+ "bad(") "" "" in
  WindowTerms.checked_inputs e = ["a+b"; "bad("] /\
  MainWindow.styleSheet (MainWindow.validate_editor fe e) = "background-color: #ffe0e0;" /\
  MainWindow.toolTip (MainWindow.validate_editor fe e) = "Line 'bad(...': unbalanced".
Proof. repeat split; reflexivity. Qed.

(** A [set_cache_size] that makes its argument the capacity and evicts
    what no longer fits: after the settings are applied with 10 in the spin
    box, a cache that held 50 frames of 100 is shown as 10 of 10. *)
Example cache_settings_sample :
  let shrink (n : Z) (dm : MainWindow.DataManager) : MainWindow.DataManager :=
    MainWindow.mkDM (MainWindow.setup_project_directory dm) (MainWindow.is_database_ready dm)
      (MainWindow.get_frame_count dm) (MainWindow.get_variables dm)
      (MainWindow.get_frame_data dm) (MainWindow.get_time_averaged_data dm)
      (MainWindow.get_frame_info dm) (MainWindow.get_database_info dm)
      (MainWindow.set_global_filter dm) (MainWindow.time_variable dm)
      (MainWindow.zarr_path dm) (MainWindow.db_path dm)
      (MainWindow.mkCacheInfo
         (Z.min n (MainWindow.info_size (MainWindow.get_cache_info dm))) n) in
  let dm := MainWindow.mkDM (fun _ => true) true 0 [] (fun _ _ => None) (fun _ _ => None)
              (fun _ => None) (MainWindow.mkDatabaseInfo None None None None)
              (fun _ => Py.Returned tt) "" None None (MainWindow.mkCacheInfo 50 100) in
  MainWindow.cache_label
    (MainWindow._apply_cache_settings shrink (WindowTerms.window_over dm))
  = "缓存: 10/10".
Proof. reflexivity. Qed.

Example db_info_sample :
  MainWindow.db_info_text
    (MainWindow.mkDatabaseInfo (Some 12%Z) (Some ["x"; "y"; "u"]) (Some (1 # 4)%Q)
       (Some (3 # 2)%Q))
  = "帧: 12 | 变量: 3 | 大小: 1.50 MB (数据) + 0.25 MB (元数据)" /\
  MainWindow.db_info_text (MainWindow.mkDatabaseInfo None None None None)
  = "帧: 0 | 变量: 0 | 大小: 0.00 MB (数据) + 0.00 MB (元数据)".
Proof. split; reflexivity. Qed.

Example available_data_sample :
  let c := MainWindow.mkConfig (MainWindow.mkLayer (Some true) (Some "u*2"))
             (MainWindow.mkLayer (Some true) None)
             (MainWindow.mkVector (Some false) (Some "u") (Some "v"))
             None None false 0 0 in
  let results : gmap string (option MainWindow.Grid) :=
    <["heatmap_data" := Some [[1%Q]]]>
      (<["contour_data" := Some []]>
         (<["vector_u_data" := Some []]> (<["vector_v_data" := None]> ∅))) in
  map_to_list (MainWindow.collect_available results c)
  = [("contour", "contour"); ("heatmap", "u*2")].
Proof. vm_compute. reflexivity. Qed.

Example import_error_sample :
  MainWindow.log
    (MainWindow.deliver (MainWindow.EmitError "boom")
       (MainWindow._initialize_project MainWindow.Yes
          (WindowTerms.window_over (WindowTerms.empty_dm true false))))
  = [MainWindow.import_question "data";
     MainWindow.Connect MainWindow.progress MainWindow.update_progress;
     MainWindow.Connect MainWindow.log_message MainWindow.set_log_message;
     MainWindow.Connect MainWindow.finished MainWindow.on_import_finished;
     MainWindow.Connect MainWindow.error MainWindow.on_error;
     MainWindow.WorkerStart; MainWindow.DialogExec; MainWindow.DialogAccept;
     MainWindow.StatusMessage "错误: boom" 5000;
     MainWindow.MessageBox Critical "发生错误" "boom"].
Proof. reflexivity. Qed.

End Samples.

(** * Further properties *)

(** ** The spectrum drawn by the time-series dialog *)

Section SpectrumFacts.
Import Qt Np TimeSeriesDialog DialogTerms.







(** The frequency of a bin of the first half, bounded by the Nyquist
    frequency. *)
Lemma bin_frequency_bounds (N k : nat) (T : Q) :
  (0 < T)%Q -> (k < N / 2)%nat ->
  let f := (inject_Z (Z.of_nat k) * (1 / (inject_Z (Z.of_nat N) * T)))%Q in
  (0 <= f)%Q /\ (f < 1 / (2 * T))%Q /\
  (f < inject_Z (Z.of_nat (S k)) * (1 / (inject_Z (Z.of_nat N) * T)))%Q.
Proof.
  intros HT Hk f.
  assert (2 * k < N)%nat as H2k.
  { pose proof (Nat.div_mod_eq N 2). lia. }
  assert (0 < inject_Z (Z.of_nat N))%Q as HN.
  { rewrite <- (Zlt_Qlt 0). lia. }
  assert (0 < inject_Z (Z.of_nat N) * T)%Q as HNT
    by (apply Qmult_lt_0_compat; assumption).
  assert (0 < 1 / (inject_Z (Z.of_nat N) * T))%Q as Hval.
  { apply Qlt_shift_div_l; [exact HNT|]. rewrite Qmult_0_l. reflexivity. }
  assert (0 <= inject_Z (Z.of_nat k))%Q as Hk0.
  { rewrite <- (Zle_Qle 0). lia. }
  split; [|split].
  - unfold f. apply Qmult_le_0_compat; [exact Hk0 | apply Qlt_le_weak, Hval].
  - apply Qlt_shift_div_l.
    + apply Qmult_lt_0_compat; [reflexivity | exact HT].
    + assert (f * (2 * T) == inject_Z (2 * Z.of_nat k) / inject_Z (Z.of_nat N))%Q as ->.
      { unfold f. rewrite inject_Z_mult. field.
        split; intros E;
          first [ rewrite E in HT; exact (Qlt_irrefl _ HT)
                | rewrite E in HN; exact (Qlt_irrefl _ HN) ]. }
      apply Qlt_shift_div_r; [exact HN|]. rewrite Qmult_1_l, <- Zlt_Qlt. lia.
  - unfold f. apply Qmult_lt_compat_r; [exact Hval|]. rewrite <- Zlt_Qlt. lia.
Qed.

(** X2. The frequencies of the spectrum that [plot_fft] draws are
    non-negative, strictly increasing from one point to the next, and all
    below the Nyquist frequency 1/(2T) of the mean sample spacing T. *)
Theorem plotted_frequencies_below_nyquist (d : Dialog) (df : DataFrame) :
  current_df d = Some df ->
  (2 <= length df)%nat ->
  strictly_increasing (times df) ->
  exists (xs : list Q) (ys : list R),
    lines (ax_fft (plot_fft d)) = [(xs, ys)] /\
    forall (k : nat) (f : Q), xs !! k = Some f ->
      (0 <= f)%Q /\ (f < 1 / (2 * mean (diff (times df))))%Q /\
      forall f' : Q, xs !! S k = Some f' -> (f < f')%Q.
Proof.
  intros Hdf HN Hinc. apply diff_positive_increasing in Hinc.
  rewrite (plot_fft_passes d df Hdf HN Hinc).
  set (N := length df). set (T := mean (diff (times df))).
  assert (0 < T)%Q as HT.
  { apply mean_positive; [|apply all_positive_Forall, Hinc].
    intros E. apply (f_equal (@length Q)) in E.
    rewrite length_diff, length_times in E. simpl in E. lia. }
  assert (N / 2 <= N)%nat as Hhalf by (apply Nat.Div0.div_le_upper_bound; lia).
  eexists _, _. split; [reflexivity|].
  intros k f Hf.
  assert (k < N / 2)%nat as Hk.
  { apply lookup_lt_Some in Hf. rewrite length_take, length_fftfreq in Hf by (unfold N; lia).
    lia. }
  rewrite lookup_take_lt, fftfreq_lookup in Hf by exact Hk. injection Hf as <-.
  destruct (bin_frequency_bounds N k T HT Hk) as (H0 & Hny & Hnext).
  split; [exact H0|]. split; [exact Hny|].
  intros f' Hf'.
  assert (S k < N / 2)%nat as Hk'.
  { apply lookup_lt_Some in Hf'. rewrite length_take, length_fftfreq in Hf' by (unfold N; lia).
    lia. }
  rewrite lookup_take_lt, fftfreq_lookup in Hf' by exact Hk'. injection Hf' as <-.
  exact Hnext.
Qed.

Lemma plotted_frequencies_below_nyquist_witness :
  exists (xs : list Q) (ys : list R),
    lines (ax_fft (plot_fft sample_dialog)) = [(xs, ys)] /\
    forall (k : nat) (f : Q), xs !! k = Some f ->
      (0 <= f)%Q /\
      (f < 1 / (2 * mean (diff (times [(0, 1); (1, 3); (3, 2)]%Q))))%Q /\
      forall f' : Q, xs !! S k = Some f' -> (f < f')%Q.
Proof.
  apply (plotted_frequencies_below_nyquist sample_dialog [(0, 1); (1, 3); (3, 2)]%Q).
  - reflexivity.
  - simpl. lia.
  - apply diff_positive_increasing. reflexivity.
Defined.

End SpectrumFacts.

(** ** The buttons of the time-series dialog *)

Section ButtonFacts.
Import Qt Np TimeSeriesDialog DialogTerms MoreDialogTerms.














(** X6. A retrieval that fails never leaves a usable FFT button: when the
    data manager returns None or an empty dataframe, or raises, [plot_data]
    disables both buttons and replaces the time plot by a message; when it
    raises, the dataframe loaded before stays in [current_df]. *)
Theorem plot_data_failure (np_bool : numpy_bool_argument) (dm : DataManager)
    (d : Dialog) :
  currentText (variable_combo d) <> "" ->
  let retrieved := get_timeseries_at_point dm (currentText (variable_combo d))
                     (point_coords d) (tolerance dm) in
  let d' := plot_data np_bool dm d in
  (retrieved = Py.Returned None \/ retrieved = Py.Returned (Some []) ->
   fft_button d' = false /\ export_fft_button d' = false /\
   lines (ax_time d') = [] /\
   texts (ax_time d') = ["在此位置找不到时间序列数据"] /\
   (current_df d' = None \/ current_df d' = Some [])) /\
  (forall e : string, retrieved = Py.Raised e ->
   fft_button d' = false /\ export_fft_button d' = false /\
   lines (ax_time d') = [] /\
   texts (ax_time d') = ["绘图失败:" +:+ NL +:+ e] /\
   current_df d' = current_df d).
Proof.
  intros Hsel retrieved d'. apply truthy_iff in Hsel.
  unfold d', plot_data. rewrite Hsel. cbn [negb]. cbn [set_axes point_coords].
  fold retrieved. split.
  - intros [-> | ->]; cbn; auto 10.
  - intros e ->. cbn. auto 10.
Qed.

Lemma plot_data_failure_witness :
  fft_button
    (plot_data Converted (mkDM ["u"] "t" ∅ (fun _ _ _ => Py.Raised "locked")) sample_dialog)
  = false.
Proof.
  refine (proj1 (proj2 (plot_data_failure Converted
                          (mkDM ["u"] "t" ∅ (fun _ _ _ => Py.Raised "locked"))
                          sample_dialog _) "locked" eq_refl)).
  discriminate.
Defined.

Lemma plot_fft_combo_kept (d : Dialog) : variable_combo (plot_fft d) = variable_combo d.
Proof. apply plot_fft_combo. Qed.

(** X7. The combo box of a dialog is filled once, by the constructor, with
    the variables of the data manager other than 'source_file', in their
    order; whatever the user does later and however the data manager
    changes, 'source_file' is never offered and never the selected
    variable. *)
Theorem source_file_never_offered (np_bool : numpy_bool_argument) (coords : Q * Q)
    (dm : DataManager) (out_dir : string) (events : list event) :
  let d := run np_bool (init np_bool coords dm out_dir) events in
  items (variable_combo d)
  = List.filter (fun v => negb (String.eqb v "source_file")) (get_variables dm) /\
  ~ In "source_file" (items (variable_combo d)) /\
  currentText (variable_combo d) <> "source_file".
Proof.
  intros d.
  set (vars := List.filter (fun v => negb (String.eqb v "source_file")) (get_variables dm)).
  assert (forall d0 : Dialog,
            (items (variable_combo d0) = vars /\
             (currentIndex (variable_combo d0) = None \/
              exists i, currentIndex (variable_combo d0) = Some i /\
                        (i < length vars)%nat)) ->
            forall e, items (variable_combo (step np_bool d0 e)) = vars /\
             (currentIndex (variable_combo (step np_bool d0 e)) = None \/
              exists i, currentIndex (variable_combo (step np_bool d0 e)) = Some i /\
                        (i < length vars)%nat)) as Hstep.
  { intros d0 [Hi Hc] e. destruct e as [i dm'| |]; cbn [step].
    - destruct (Nat.ltb_spec i (length (items (variable_combo d0)))) as [Hlt|Hge];
        cbn [andb]; [|auto].
      destruct (negb _); [|auto]. rewrite plot_data_combo. cbn.
      split; [exact Hi|]. right. exists i. rewrite <- Hi. auto.
    - rewrite plot_fft_combo_kept. auto.
    - auto. }
  assert (items (variable_combo d) = vars /\
          (currentIndex (variable_combo d) = None \/
           exists i, currentIndex (variable_combo d) = Some i /\ (i < length vars)%nat))
    as [Hitems Hidx].
  { unfold d, run.
    assert (items (variable_combo (init np_bool coords dm out_dir)) = vars /\
            (currentIndex (variable_combo (init np_bool coords dm out_dir)) = None \/
             exists i, currentIndex (variable_combo (init np_bool coords dm out_dir)) = Some i /\
                       (i < length vars)%nat)) as Hinit.
    { unfold init. rewrite plot_data_combo. cbn. fold vars.
      split; [reflexivity|]. destruct vars; [left; reflexivity|].
      right. exists 0%nat. cbn. split; [reflexivity | lia]. }
    revert Hinit. generalize (init np_bool coords dm out_dir).
    induction events as [|e events IH]; intros d0 H0; [exact H0|].
    cbn [fold_left]. apply IH, Hstep, H0. }
  assert (~ In "source_file" vars) as Hnot.
  { intros Hin. apply filter_In in Hin as [_ Hin]. discriminate Hin. }
  split; [exact Hitems|]. split; [rewrite Hitems; exact Hnot|].
  unfold currentText. destruct Hidx as [-> | (i & -> & Hi)]; [discriminate|].
  rewrite Hitems. intros E. apply Hnot. rewrite <- E. apply nth_In, Hi.
Qed.

End ButtonFacts.

(** ** Refreshing the plot *)

Section RefreshFacts.
Import Qt MainWindow WindowTerms.




(** What [_load_frame] may touch. *)
Lemma load_frame_frame (i : Z) (cols : option (gset string)) (w : Window) :
  let w' := _load_frame i cols w in
  (w' = w \/
   current_frame_index w' = i /\ time_slider w' = setValue i (time_slider w)) /\
  config w' = config w /\
  _should_reset_view_after_refresh w' = _should_reset_view_after_refresh w /\
  plot_config (plot_widget w') = plot_config (plot_widget w).
Proof.
  unfold _load_frame. destruct (negb _); [cbn; auto|].
  destruct (get_frame_data _ _ _) as [data|]; [|cbn; auto].
  set (w1 := set_plot_widget _ _).
  destruct (update_frame_info_frame false 0 0 w1) as (_ & Hidx & Hsl & Hpw & _).
  cbv zeta in Hidx, Hsl, Hpw.
  assert (config (_update_frame_info false 0 0 w1) = config w /\
          _should_reset_view_after_refresh (_update_frame_info false 0 0 w1)
          = _should_reset_view_after_refresh w) as [Hc Hr].
  { unfold _update_frame_info. cbn [set_frame_info_label current_frame_index].
    destruct (get_frame_info _ _) as [info|]; [destruct (info !! "timestamp")|];
      split; reflexivity. }
  destruct (last_mouse_coords (plot_widget (_update_frame_info false 0 0 w1)));
    cbn [emit set_log current_frame_index time_slider config plot_widget
         _should_reset_view_after_refresh];
    rewrite Hidx, Hsl, Hpw, Hc, Hr; (split; [right; split; reflexivity|]);
    repeat split; reflexivity.
Qed.

(** X9. A refresh never moves to another frame: [_apply_visualization_settings]
    leaves [current_frame_index] as it is. With no frames in the store it
    changes nothing at all. With time averaging enabled over a range whose
    start is not below its end, the plot data and the three labels stay,
    and the only effect is the status-bar message on the invalid range. *)
Theorem refresh_keeps_frame (w : Window) :
  let w' := _apply_visualization_settings w in
  current_frame_index w' = current_frame_index w /\
  (get_frame_count (data_manager w) = 0%Z -> w' = w) /\
  (get_frame_count (data_manager w) <> 0%Z ->
   cfg_time_average_enabled (config w) = true ->
   (cfg_end_frame (config w) <= cfg_start_frame (config w))%Z ->
   plot_data (plot_widget w') = plot_data (plot_widget w) /\
   frame_info_label w' = frame_info_label w /\
   timestamp_label w' = timestamp_label w /\
   cache_label w' = cache_label w /\
   log w' = log w ++ [StatusMessage "时间平均范围无效：起始帧必须小于结束帧。" 3000]).
Proof.
  cbv zeta. unfold _apply_visualization_settings, showMessage.
  destruct (Z.eqb_spec (get_frame_count (data_manager w)) 0) as [H0|H0].
  { split; [reflexivity|]. split; [reflexivity|]. intros Hne; congruence. }
  split; [|split; [intros; congruence|]].
  - set (w1 := set_plot_widget _ w).
    destruct (cfg_time_average_enabled (config w)).
    + destruct (_ <=? _)%Z; [reflexivity|].
      set (w2 := set_plot_widget _ w1).
      destruct (update_frame_info_frame true (cfg_start_frame (config w))
                  (cfg_end_frame (config w)) w2) as (_ & Hidx & _).
      cbv zeta in Hidx. cbn [emit set_log current_frame_index]. rewrite Hidx. reflexivity.
    + destruct (load_frame_frame (current_frame_index w1)
                  (Some (required_vars (formula_engine w1) (config w))) w1)
        as ([Hsame | [Hidx _]] & _).
      * cbv zeta in Hsame. cbn [emit set_log current_frame_index]. rewrite Hsame.
        reflexivity.
      * cbv zeta in Hidx. cbn [emit set_log current_frame_index]. rewrite Hidx.
        reflexivity.
  - intros _ Hta Hrange. rewrite Hta.
    destruct (Z.leb_spec (cfg_end_frame (config w)) (cfg_start_frame (config w)));
      [|lia].
    cbn. repeat split; reflexivity.
Qed.

(** After [_on_error] the import dialog, if there is one, is not visible. *)
Lemma on_error_effects (message : string) (w : Window) :
  (exists dlg, import_progress_dialog w = Some dlg /\ isVisible dlg = true /\
     import_progress_dialog (_on_error message w)
     = Some (mkImportDialog (import_message dlg) false) /\
     log (_on_error message w)
     = log w ++ [DialogAccept; StatusMessage ("错误: " +:+ message) 5000;
                 MessageBox Critical "发生错误" message]) \/
  ((import_progress_dialog w = None \/
    exists dlg, import_progress_dialog w = Some dlg /\ isVisible dlg = false) /\
   import_progress_dialog (_on_error message w) = import_progress_dialog w /\
   log (_on_error message w)
   = log w ++ [StatusMessage ("错误: " +:+ message) 5000;
               MessageBox Critical "发生错误" message]).
Proof.
  destruct (import_progress_dialog w) as [dlg|] eqn:Hd.
  - destruct (isVisible dlg) eqn:Hv.
    + left. exists dlg. destruct (on_error_visible message w dlg Hd Hv) as [Hl Hd'].
      auto.
    + right. unfold _on_error, showMessage. rewrite Hd, Hv. cbn.
      rewrite Hd, <- app_assoc. split; [right; exists dlg; auto|]. split; reflexivity.
  - right. unfold _on_error, showMessage. rewrite Hd. cbn.
    rewrite Hd, <- app_assoc. split; [left; reflexivity|]. split; reflexivity.
Qed.

(** X10. [_on_error] accepts the import dialog at most once: it leaves a
    missing or hidden dialog alone, and after any error a further error
    only adds its status-bar message and its critical box. *)
Theorem error_accepts_once (m1 m2 : string) (w : Window) :
  let w1 := _on_error m1 w in
  ((import_progress_dialog w = None \/
    exists dlg, import_progress_dialog w = Some dlg /\ isVisible dlg = false) ->
   import_progress_dialog w1 = import_progress_dialog w /\
   log w1 = log w ++ [StatusMessage ("错误: " +:+ m1) 5000;
                      MessageBox Critical "发生错误" m1]) /\
  import_progress_dialog (_on_error m2 w1) = import_progress_dialog w1 /\
  log (_on_error m2 w1)
  = log w1 ++ [StatusMessage ("错误: " +:+ m2) 5000; MessageBox Critical "发生错误" m2].
Proof.
  intros w1. split.
  - intros Hhidden.
    destruct (on_error_effects m1 w) as [(dlg & Hd & Hv & _) | (_ & Hd' & Hl)]; [|auto].
    destruct Hhidden as [Hn | (dlg' & Hd' & Hv')]; congruence.
  - assert (import_progress_dialog w1 = None \/
            exists dlg, import_progress_dialog w1 = Some dlg /\ isVisible dlg = false)
      as Hhidden.
    { unfold w1.
      destruct (on_error_effects m1 w) as [(dlg & Hd & Hv & Hd' & _) | (Hh & Hd' & _)].
      - right. eexists. split; [exact Hd'|]. reflexivity.
      - rewrite Hd'. exact Hh. }
    destruct (on_error_effects m2 w1) as [(dlg & Hd & Hv & _) | (_ & Hd' & Hl)]; [|auto].
    destruct Hhidden as [Hn | (dlg' & Hd' & Hv')]; congruence.
Qed.

End RefreshFacts.

(** ** Formula validation, further *)

Section ValidationFacts.
Import Qt MainWindow WindowTerms.

(** X11. A multi-line editor whose lines are all blank or comments, the
    empty editor among them, is marked valid without the formula engine
    being consulted: its stylesheet and tooltip are cleared whatever the
    engine would answer. *)
Theorem comments_only_is_valid (fe : FormulaEngine) (e : Editor) :
  kind e = QTextEdit ->
  (forall line, In line (Py.split nl (text e)) ->
     Py.strip line = "" \/ Py.startswith (Py.strip line) "#" = true) ->
  checked_inputs e = [] /\
  styleSheet (validate_editor fe e) = "" /\
  toolTip (validate_editor fe e) = "".
Proof.
  intros Hk Hlines.
  assert (checked_inputs e = []) as Hnone.
  { unfold checked_inputs. rewrite Hk.
    induction (Py.split nl (text e)) as [|l ls IH]; [reflexivity|].
    cbn [List.filter].
    destruct (is_formula_line l) eqn:Hl.
    - apply is_formula_line_iff in Hl as [H1 H2].
      destruct (Hlines l (or_introl eq_refl)); congruence.
    - apply IH. intros line Hin. apply Hlines. right. exact Hin. }
  split; [exact Hnone|].
  unfold validate_editor. rewrite (check_editor_valid fe e).
  - split; reflexivity.
  - rewrite Hnone. intros l [].
Qed.

Lemma comments_only_is_valid_witness :
  styleSheet (validate_editor (mkFE (fun _ => (false, "rejected")) (fun _ => ∅))
                (mkEditor QTextEdit ("# scale" +:+ NL +:+ "   ") "old" "old")) = "".
Proof.
  refine (proj1 (proj2 (comments_only_is_valid
                          (mkFE (fun _ => (false, "rejected")) (fun _ => ∅))
                          (mkEditor QTextEdit ("# scale" +:+ NL +:+ "   ") "old" "old")
                          eq_refl _))).
  intros line [<- | [<- | []]]; [right | left]; reflexivity.
Defined.

(** X12. A multi-line editor reports one error only, the one of its last
    invalid line: the errors of earlier lines are overwritten, not
    collected. *)
Theorem last_invalid_line_wins (fe : FormulaEngine) (e : Editor)
    (before after : list string) (bad : string) :
  kind e = QTextEdit ->
  Py.split nl (text e) = before ++ bad :: after ->
  is_formula_line bad = true ->
  fst (validate_syntax fe bad) = false ->
  (forall l, In l after -> is_formula_line l = true -> fst (validate_syntax fe l) = true) ->
  styleSheet (validate_editor fe e) = "background-color: #ffe0e0;" /\
  toolTip (validate_editor fe e)
  = "Line '" +:+ Py.slice_to 30 bad +:+ "...': " +:+ snd (validate_syntax fe bad).
Proof.
  intros Hk Hsplit Hbad Hinvalid Hafter.
  unfold validate_editor, check_editor. rewrite Hk, check_line_fold, Hsplit.
  assert (last_invalid fe (before ++ bad :: after) = Some bad) as ->.
  { unfold last_invalid. rewrite List.filter_app. cbn [List.filter].
    rewrite Hbad, Hinvalid. cbn [andb negb].
    assert (List.filter
              (fun l => is_formula_line l && negb (fst (validate_syntax fe l))) after = [])
      as ->.
    { clear Hsplit. induction after as [|l ls IH]; [reflexivity|]. cbn [List.filter].
      destruct (is_formula_line l) eqn:Hl; cbn [andb].
      - rewrite (Hafter l (or_introl eq_refl) Hl). cbn [negb].
        apply IH. intros l' Hin. apply Hafter. right. exact Hin.
      - apply IH. intros l' Hin. apply Hafter. right. exact Hin. }
    apply last_snoc. }
  split; reflexivity.
Qed.

Lemma last_invalid_line_wins_witness :
  toolTip (validate_editor
             (mkFE (fun s => if String.eqb s "ok" then (true, "") else (false, "no: " +:+ s))
                (fun _ => ∅))
             (mkEditor QTextEdit ("a(" +:+ NL +:+ "b(" +:+ NL +:+ "ok") "" ""))
  = "Line 'b(...': no: b(".
Proof.
  apply (last_invalid_line_wins
           (mkFE (fun s => if String.eqb s "ok" then (true, "") else (false, "no: " +:+ s))
              (fun _ => ∅))
           (mkEditor QTextEdit ("a(" +:+ NL +:+ "b(" +:+ NL +:+ "ok") "" "")
           ["a("] ["ok"] "b(").
  - reflexivity.
  - reflexivity.
  - reflexivity.
  - reflexivity.
  - intros l [<- | []] _. reflexivity.
Defined.

Lemma check_editor_text (fe : FormulaEngine) (e e' : Editor) :
  kind e' = kind e -> text e' = text e -> check_editor fe e' = check_editor fe e.
Proof. intros Hk Ht. unfold check_editor. rewrite Hk, Ht. reflexivity. Qed.

(** X13. Validation marks the editors and does nothing else: it keeps the
    kind and the text of every editor and every other part of the window,
    the effect log included, and a second validation changes nothing. *)
Theorem validation_only_marks (w : Window) :
  _validate_all_formulas w = set_editor (editor (_validate_all_formulas w)) w /\
  forall id : editor_id,
    kind (editor (_validate_all_formulas w) id) = kind (editor w id) /\
    text (editor (_validate_all_formulas w) id) = text (editor w id) /\
    editor (_validate_all_formulas (_validate_all_formulas w)) id
    = editor (_validate_all_formulas w) id.
Proof.
  split; [apply validate_all_only_editors|].
  intros id.
  assert (formula_engine (_validate_all_formulas w) = formula_engine w) as Hfe.
  { rewrite (validate_all_only_editors w).
    match goal with |- context [set_editor ?f w] => generalize f end.
    intros f. destruct w. reflexivity. }
  rewrite (validate_all_lookup (_validate_all_formulas w)), Hfe, validate_all_lookup.
  set (e := editor w id). set (fe := formula_engine w).
  assert (kind (validate_editor fe e) = kind e /\ text (validate_editor fe e) = text e)
    as [Hk Ht].
  { unfold validate_editor. destruct (check_editor fe e). split; reflexivity. }
  split; [exact Hk|]. split; [exact Ht|].
  unfold validate_editor at 1. rewrite (check_editor_text fe e _ Hk Ht), Hk, Ht.
  reflexivity.
Qed.


End ValidationFacts.

(** ** Rendering and the picking tools *)

(** Membership in a list of effects written out: every case is split and
    the impossible ones are closed. *)
Ltac in_cases H :=
  repeat match type of H with
         | In _ (_ ++ _) => apply in_app_or in H
         | _ \/ _ => destruct H as [H | H]
         | In _ (_ :: _) => destruct H as [H | H]
         | In _ [] => destruct H
         | False => destruct H
         end;
  try discriminate H.

Section ToolFacts.
Import Qt MainWindow WindowTerms MainWindowMore.

Lemma refresh_keeps_reset_flag (w : Window) :
  _should_reset_view_after_refresh (_apply_visualization_settings w)
  = _should_reset_view_after_refresh w.
Proof.
  unfold _apply_visualization_settings, showMessage.
  destruct (_ =? 0)%Z; [reflexivity|].
  set (w1 := set_plot_widget _ w).
  destruct (cfg_time_average_enabled (config w)).
  - destruct (_ <=? _)%Z; [reflexivity|].
    set (w2 := set_plot_widget _ w1).
    unfold _update_frame_info. reflexivity.
  - destruct (load_frame_frame (current_frame_index w1)
                (Some (required_vars (formula_engine w1) (config w))) w1)
      as (_ & _ & Hr & _).
    cbv zeta in Hr. cbn [emit set_log _should_reset_view_after_refresh]. rewrite Hr.
    reflexivity.
Qed.

(** The effects of [_on_plot_rendered], and the flag after it. *)
Lemma on_plot_rendered_effects (is_playing : bool) (w : Window) :
  _should_reset_view_after_refresh (_on_plot_rendered is_playing w) = false /\
  log (_on_plot_rendered is_playing w)
  = log w
    ++ (if is_playing then [Call "playback_handler.play_timer.start"] else [])
    ++ (if _should_reset_view_after_refresh w then [Call "plot_widget.reset_view"] else [])
    ++ (match picker_mode (plot_widget w) with
        | Some PROFILE_END => [StatusMessage "剖面图模式: 点击定义剖面线终点 (右键取消)。" 0]
        | _ => []
        end).
Proof.
  unfold _on_plot_rendered, showMessage.
  destruct w as [dm fe cfg pd od idx flag wk dlg pdlg ed fcb dpb pw sl l1 l2 l3 l4 sp lg].
  destruct pw as [[[| | | |]|] ir lmc pdata pcfg]; destruct is_playing, flag; cbn;
    rewrite <- ?app_assoc, ?app_nil_r; split; reflexivity.
Qed.

(** X15. A refresh asked with [reset_view] resets the view exactly once:
    the first rendering after [_force_refresh_plot] calls [reset_view] if
    and only if the refresh asked for it, and clears the request, so that a
    later rendering does not reset the view again. *)
Theorem reset_view_once (reset_view is_playing is_playing' : bool) (w : Window) :
  let w1 := _force_refresh_plot reset_view w in
  let w2 := _on_plot_rendered is_playing w1 in
  let w3 := _on_plot_rendered is_playing' w2 in
  _should_reset_view_after_refresh w1 = reset_view /\
  _should_reset_view_after_refresh w2 = false /\
  (In (Call "plot_widget.reset_view") (drop (length (log w1)) (log w2))
   <-> reset_view = true) /\
  ~ In (Call "plot_widget.reset_view") (drop (length (log w2)) (log w3)).
Proof.
  intros w1 w2 w3.
  assert (_should_reset_view_after_refresh w1 = reset_view) as H1.
  { unfold w1, _force_refresh_plot. rewrite refresh_keeps_reset_flag. reflexivity. }
  destruct (on_plot_rendered_effects is_playing w1) as [H2 Hl2]. fold w2 in H2, Hl2.
  destruct (on_plot_rendered_effects is_playing' w2) as [_ Hl3]. fold w3 in Hl3.
  split; [exact H1|]. split; [exact H2|]. split.
  - rewrite Hl2, drop_app_length, H1.
    destruct is_playing, reset_view, (picker_mode (plot_widget w1)) as [[| | | |]|];
      simpl; intuition discriminate.
  - rewrite Hl3, drop_app_length, H2.
    destruct is_playing', (picker_mode (plot_widget w2)) as [[| | | |]|];
      simpl; intuition discriminate.
Qed.

(** Unchecking either button touches nothing but that button, the picker
    mode and the status bar. *)
Lemma toggled_draw_button (checked : bool) (s : Session) :
  draw_profile_btn (window (_on_draw_profile_toggled checked s))
  = draw_profile_btn (window s) /\
  (checked = true ->
   pick_timeseries_btn (_on_draw_profile_toggled checked s) = false /\
   picker_mode (plot_widget (window (_on_draw_profile_toggled checked s)))
   = Some PROFILE_START) /\
  (checked = false ->
   pick_timeseries_btn (_on_draw_profile_toggled checked s) = pick_timeseries_btn s).
Proof.
  unfold _on_draw_profile_toggled, uncheck_pick_timeseries_btn,
    _on_pick_timeseries_untoggled, _on_draw_profile_untoggled.
  destruct checked.
  - destruct (pick_timeseries_btn s) eqn:Hp; cbn; rewrite ?Hp;
      [destruct (picker_mode (plot_widget (window s))) as [[| | | |]|]|];
      cbn; repeat split; auto; discriminate.
  - cbn. destruct (picker_mode (plot_widget (window s))) as [[| | | |]|];
      cbn; repeat split; auto; discriminate.
Qed.

Lemma toggled_pick_button (checked : bool) (s : Session) :
  pick_timeseries_btn (_on_pick_timeseries_toggled checked s) = pick_timeseries_btn s /\
  (checked = true ->
   draw_profile_btn (window (_on_pick_timeseries_toggled checked s)) = false /\
   picker_mode (plot_widget (window (_on_pick_timeseries_toggled checked s)))
   = Some TIMESERIES) /\
  (checked = false ->
   draw_profile_btn (window (_on_pick_timeseries_toggled checked s))
   = draw_profile_btn (window s)).
Proof.
  unfold _on_pick_timeseries_toggled, uncheck_draw_profile_btn,
    _on_pick_timeseries_untoggled, _on_draw_profile_untoggled.
  destruct checked.
  - cbn. destruct (draw_profile_btn (window s)) eqn:Hd;
      [cbn; destruct (picker_mode (plot_widget (window s))) as [[| | | |]|]|];
      cbn; rewrite ?Hd; repeat split; auto; discriminate.
  - cbn. destruct (picker_mode (plot_widget (window s))) as [[| | | |]|];
      cbn; repeat split; auto; discriminate.
Qed.

(** X16. The two picking tools exclude each other: however the user clicks
    the pick-time-series and draw-profile buttons, they are never both
    checked; the click that checks one of them unchecks the other and puts
    the picker in the mode of the tool that was checked. *)
Theorem picking_tools_exclusive (s : Session) (clicks : list click) :
  ~ (pick_timeseries_btn s = true /\ draw_profile_btn (window s) = true) ->
  let s' := fold_left press clicks s in
  ~ (pick_timeseries_btn s' = true /\ draw_profile_btn (window s') = true) /\
  (pick_timeseries_btn s' = false ->
   pick_timeseries_btn (press s' ClickPickTimeseries) = true /\
   draw_profile_btn (window (press s' ClickPickTimeseries)) = false /\
   picker_mode (plot_widget (window (press s' ClickPickTimeseries))) = Some TIMESERIES) /\
  (draw_profile_btn (window s') = false ->
   draw_profile_btn (window (press s' ClickDrawProfile)) = true /\
   pick_timeseries_btn (press s' ClickDrawProfile) = false /\
   picker_mode (plot_widget (window (press s' ClickDrawProfile))) = Some PROFILE_START).
Proof.
  intros Hex s'.
  assert (forall (s0 : Session) (c : click),
            ~ (pick_timeseries_btn s0 = true /\ draw_profile_btn (window s0) = true) ->
            ~ (pick_timeseries_btn (press s0 c) = true /\
               draw_profile_btn (window (press s0 c)) = true)) as Hstep.
  { intros s0 c H0. destruct c; cbn [press].
    - set (s1 := set_pick_timeseries_btn (negb (pick_timeseries_btn s0)) s0).
      destruct (toggled_pick_button (negb (pick_timeseries_btn s0)) s1) as (Hp & Hon & Hoff).
      destruct (pick_timeseries_btn s0) eqn:E; cbn [negb] in *.
      + rewrite Hp. cbn. intros [H _]. discriminate.
      + destruct (Hon eq_refl) as [Hd _]. rewrite Hd. intros [_ H]. discriminate.
    - set (s1 := on_window (set_draw_profile_btn (negb (draw_profile_btn (window s0)))) s0).
      destruct (toggled_draw_button (negb (draw_profile_btn (window s0))) s1)
        as (Hd & Hon & Hoff).
      destruct (draw_profile_btn (window s0)) eqn:E; cbn [negb] in *.
      + rewrite Hd. cbn. intros [_ H]. discriminate.
      + destruct (Hon eq_refl) as [Hp _]. rewrite Hp. intros [H _]. discriminate. }
  assert (~ (pick_timeseries_btn s' = true /\ draw_profile_btn (window s') = true)) as Hex'.
  { unfold s'. clear s'. revert s Hex.
    induction clicks as [|c clicks IH]; intros s Hex; [exact Hex|].
    cbn [fold_left]. apply IH, Hstep, Hex. }
  split; [exact Hex'|]. split.
  - intros Hoff. cbn [press]. rewrite Hoff. cbn [negb].
    destruct (toggled_pick_button true (set_pick_timeseries_btn true s')) as (Hp & Hon & _).
    destruct (Hon eq_refl) as [Hd Hm]. rewrite Hp. auto.
  - intros Hoff. cbn [press]. rewrite Hoff. cbn [negb].
    destruct (toggled_draw_button true (on_window (set_draw_profile_btn true) s'))
      as (Hd & Hon & _).
    destruct (Hon eq_refl) as [Hp Hm]. rewrite Hd. auto.
Qed.

(** Two clicks on a session with no tool checked and no dialog. *)
Lemma picking_tools_exclusive_witness :
  pick_timeseries_btn
    (fold_left press [ClickPickTimeseries; ClickDrawProfile]
       (mkSession (window_over (empty_dm true true)) false None)) = false /\
  ~ (pick_timeseries_btn
       (fold_left press [ClickPickTimeseries; ClickDrawProfile]
          (mkSession (window_over (empty_dm true true)) false None)) = true /\
     draw_profile_btn
       (window (fold_left press [ClickPickTimeseries; ClickDrawProfile]
                  (mkSession (window_over (empty_dm true true)) false None))) = true).
Proof.
  split; [reflexivity|].
  apply (picking_tools_exclusive (mkSession (window_over (empty_dm true true)) false None)
           [ClickPickTimeseries; ClickDrawProfile]).
  intros [H _]. discriminate H.
Defined.

Lemma uncheck_pick_frame (s : Session) :
  let s' := uncheck_pick_timeseries_btn s in
  pick_timeseries_btn s' = false /\
  timeseries_dialog s' = timeseries_dialog s /\
  output_dir (window s') = output_dir (window s) /\
  draw_profile_btn (window s') = draw_profile_btn (window s) /\
  profile_dialog (window s') = profile_dialog (window s) /\
  (pick_timeseries_btn s = true ->
   picker_mode (plot_widget (window s')) <> Some TIMESERIES) /\
  exists pre : list effect,
    log (window s') = log (window s) ++ pre /\ (pre = [] \/ pre = [StatusClear]).
Proof.
  cbv zeta. unfold uncheck_pick_timeseries_btn, _on_pick_timeseries_untoggled.
  destruct s as [w b d]. cbn [pick_timeseries_btn timeseries_dialog window].
  destruct b.
  - unfold on_window, set_pick_timeseries_btn.
    cbn [pick_timeseries_btn timeseries_dialog window].
    destruct (picker_mode (plot_widget w)) as [[| | | |]|] eqn:Hm;
      (split; [reflexivity|]); (split; [reflexivity|]); (split; [reflexivity|]);
      (split; [reflexivity|]); (split; [reflexivity|]);
      (split; [intros _; cbn; rewrite ?Hm; discriminate|]);
      first [ exists [StatusClear]; split; [reflexivity | auto]
            | exists []; rewrite app_nil_r; auto ].
  - repeat (split; [reflexivity|]). split; [discriminate|].
    exists []. rewrite app_nil_r. auto.
Qed.

(** The dialog a picked point leaves in the session. *)
Lemma point_picked_replaces_dialog_aux (np_bool : numpy_bool_argument) (coords : Q * Q)
    (dm : TimeSeriesDialog.DataManager) (s : Session) :
  timeseries_dialog (_on_timeseries_point_picked np_bool coords dm s)
  = Some (TimeSeriesDialog.init np_bool coords dm (output_dir (window s)), true).
Proof.
  unfold _on_timeseries_point_picked.
  destruct (uncheck_pick_frame s) as (_ & Hd & Ho & _).
  cbv zeta in Hd, Ho. set (s1 := uncheck_pick_timeseries_btn s) in *. rewrite Hd.
  destruct (timeseries_dialog s) as [[d [|]]|]; cbn; rewrite ?Ho; reflexivity.
Qed.

(** X17. Picking a point for a time series ends the picking mode and
    replaces the dialog: afterwards the pick button is unchecked, the
    picker is not in the time-series mode if the button was checked, the
    session holds a new visible dialog built for the picked point over the
    current output directory, and the dialog shown before is closed exactly
    when it was still visible. The draw-profile tool is not touched. *)
Theorem point_picked_replaces_dialog (np_bool : numpy_bool_argument) (coords : Q * Q)
    (dm : TimeSeriesDialog.DataManager) (s : Session) :
  let s' := _on_timeseries_point_picked np_bool coords dm s in
  pick_timeseries_btn s' = false /\
  (pick_timeseries_btn s = true ->
   picker_mode (plot_widget (window s')) <> Some TIMESERIES) /\
  timeseries_dialog s'
  = Some (TimeSeriesDialog.init np_bool coords dm (output_dir (window s)), true) /\
  draw_profile_btn (window s') = draw_profile_btn (window s) /\
  profile_dialog (window s') = profile_dialog (window s) /\
  exists effects : list effect,
    log (window s') = log (window s) ++ effects /\
    last effects = Some (Call "timeseries_dialog.show") /\
    (In (Call "timeseries_dialog.close") effects <->
     exists d, timeseries_dialog s = Some (d, true)).
Proof.
  cbv zeta. unfold _on_timeseries_point_picked.
  destruct (uncheck_pick_frame s) as (Hp & Hd & Ho & Hb & Hpd & Hm & pre & Hl & Hpre).
  cbv zeta in Hp, Hd, Ho, Hb, Hpd, Hm, Hl.
  set (s1 := uncheck_pick_timeseries_btn s) in *.
  rewrite Hd.
  destruct (timeseries_dialog s) as [[d [|]]|]; cbn; rewrite ?Hp, ?Ho, ?Hb, ?Hpd, ?Hl;
    (split; [reflexivity|]); (split; [exact Hm|]); (split; [reflexivity|]);
    (split; [reflexivity|]); (split; [reflexivity|]).
  - exists (pre ++ [Call "timeseries_dialog.close"; Call "timeseries_dialog.show"]).
    split; [rewrite <- !app_assoc; reflexivity|].
    split; [destruct Hpre as [-> | ->]; reflexivity|].
    split; [eauto|]. intros _. apply in_or_app. right. left. reflexivity.
  - exists (pre ++ [Call "timeseries_dialog.show"]).
    split; [rewrite <- !app_assoc; reflexivity|].
    split; [destruct Hpre as [-> | ->]; reflexivity|].
    split; [|intros [d' H]; discriminate].
    intros Hin. apply in_app_or in Hin as [Hin | [Hin | []]]; [|discriminate].
    destruct Hpre as [-> | ->]; [destruct Hin|]. destruct Hin as [Hin|[]]. discriminate.
  - exists (pre ++ [Call "timeseries_dialog.show"]).
    split; [rewrite <- !app_assoc; reflexivity|].
    split; [destruct Hpre as [-> | ->]; reflexivity|].
    split; [|intros [d' H]; discriminate].
    intros Hin. apply in_app_or in Hin as [Hin | [Hin | []]]; [|discriminate].
    destruct Hpre as [-> | ->]; [destruct Hin|]. destruct Hin as [Hin|[]]. discriminate.
Qed.

Lemma log_emit (e : effect) (w : Window) : log (emit e w) = log w ++ [e].
Proof. reflexivity. Qed.

(** The effects of [_on_profile_line_defined]. *)
Lemma profile_line_log (p1 p2 : Q * Q) (w : Window) :
  let w' := _on_profile_line_defined p1 p2 w in
  exists pre : list effect,
    (pre = [] \/ pre = [StatusClear]) /\
    ((no_results (interpolated_results (plot_widget w)) = true /\
      profile_dialog w' = profile_dialog w /\
      log w' = log w ++ pre ++ [MessageBox Warning "无数据" "无可用于剖面的插值数据。"]) \/
     (exists (results : gmap string (option Grid)) (mid : list effect),
        interpolated_results (plot_widget w) = Some results /\
        no_results (interpolated_results (plot_widget w)) = false /\
        (mid = [] \/ mid = [CloseProfileDialog]) /\
        let dlg := mkProfileDialog p1 p2 results (collect_available results (config w))
                     (output_dir w) true in
        profile_dialog w' = Some dlg /\
        log w' = log w ++ pre ++ mid ++ [OpenProfileDialog dlg])).
Proof.
  cbv zeta. unfold _on_profile_line_defined.
  destruct (uncheck_draw_profile_btn_frame w) as (Hlog & Hdlg & Hcfg & Hout & Hres).
  cbv zeta in Hlog, Hdlg, Hcfg, Hout, Hres.
  set (w1 := uncheck_draw_profile_btn w) in *. rewrite Hres.
  assert (exists pre, log w1 = log w ++ pre /\ (pre = [] \/ pre = [StatusClear]))
    as (pre & Hpre & Hcases).
  { destruct Hlog as [H|H]; [exists [] | exists [StatusClear]]; rewrite H.
    - rewrite app_nil_r. auto.
    - auto. }
  exists pre. split; [exact Hcases|].
  destruct (interpolated_results (plot_widget w)) as [results|] eqn:Hr.
  - destruct (bool_decide (results = ∅)) eqn:Hempty.
    + left. cbn. rewrite Hempty, Hpre, <- app_assoc. auto.
    + right. exists results.
      exists (match profile_dialog w1 with
              | Some old => if profile_visible old then [CloseProfileDialog] else []
              | None => []
              end).
      split; [reflexivity|]. split; [cbn; exact Hempty|].
      split; [destruct (profile_dialog w1) as [old|]; [destruct (profile_visible old)|]; auto|].
      rewrite <- Hcfg, <- Hout.
      destruct (profile_dialog w1) as [old|]; [destruct (profile_visible old)|];
        cbn; rewrite Hpre, <- ?app_assoc; split; reflexivity.
  - left. cbn. rewrite Hpre, <- app_assoc. auto.
Qed.

Section CoordinateFacts.
Variable py_float : string -> option Q.

Lemma parse_pair_Some (text : string) (x y : Q) :
  parse_pair py_float text = Some (x, y) <->
  exists a b : string,
    Py.split "," text = [a; b] /\ py_float a = Some x /\ py_float b = Some y.
Proof.
  unfold parse_pair. destruct (Py.split "," text) as [|a [|b [|c rest]]].
  - split; [discriminate | intros (a & b & H & _); discriminate].
  - split; [discriminate | intros (a' & b & H & _); discriminate].
  - destruct (py_float a) as [x'|] eqn:Ha; destruct (py_float b) as [y'|] eqn:Hb.
    + split.
      * intros [= <- <-]. exists a, b. auto.
      * intros (a' & b' & [= <- <-] & Hx & Hy). congruence.
    + split; [discriminate | intros (a' & b' & [= <- <-] & Hx & Hy); congruence].
    + split; [discriminate | intros (a' & b' & [= <- <-] & Hx & Hy); congruence].
    + split; [discriminate | intros (a' & b' & [= <- <-] & Hx & Hy); congruence].
  - split; [discriminate | intros (a' & b' & H & _); discriminate].
Qed.

(** X18. Entering a profile line by coordinates opens a profile dialog
    only when both prompts were confirmed with a text of exactly two
    comma-separated numbers, and then on the two points typed. A cancelled
    or empty start point ends the handler before the end point is asked
    for; a start point that is not two numbers is reported only after the
    end point has been asked for, by the one warning box, and nothing else
    happens. *)
Theorem profile_by_coords (start_answer end_answer : string * bool) (w : Window) :
  let w' := _draw_profile_by_coords py_float start_answer end_answer w in
  let prompt := Call "QInputDialog.getText" in
  (confirmed start_answer = false -> w' = emit prompt w) /\
  (confirmed start_answer = true -> confirmed end_answer = false ->
   w' = emit prompt (emit prompt w)) /\
  (confirmed start_answer = true -> confirmed end_answer = true ->
   parse_pair py_float (fst start_answer) = None \/
   parse_pair py_float (fst end_answer) = None ->
   w' = emit invalid_input (emit prompt (emit prompt w))) /\
  (forall dlg : ProfilePlotDialog,
     In (OpenProfileDialog dlg) (drop (length (log w)) (log w')) ->
     confirmed start_answer = true /\ confirmed end_answer = true /\
     parse_pair py_float (fst start_answer) = Some (start_point dlg) /\
     parse_pair py_float (fst end_answer) = Some (end_point dlg)).
Proof.
  cbv zeta. unfold _draw_profile_by_coords.
  destruct (confirmed start_answer) eqn:H1; cbn [negb].
  2: { split; [reflexivity|]. split; [discriminate|]. split; [discriminate|].
       intros dlg Hin. rewrite log_emit, drop_app_length in Hin. in_cases Hin. }
  destruct (confirmed end_answer) eqn:H2; cbn [negb].
  2: { split; [discriminate|]. split; [reflexivity|]. split; [discriminate|].
       intros dlg Hin. rewrite !log_emit, <- app_assoc, drop_app_length in Hin.
       in_cases Hin. }
  split; [discriminate|]. split; [discriminate|].
  destruct (parse_pair py_float (fst start_answer)) as [q1|] eqn:Hp1;
    destruct (parse_pair py_float (fst end_answer)) as [q2|] eqn:Hp2.
  2-4: split; [reflexivity|]; intros dlg Hin;
       rewrite !log_emit, <- !app_assoc, drop_app_length in Hin; in_cases Hin.
  split; [intros _ _ [H|H]; discriminate|].
  intros dlg Hin.
  set (w0 := emit (Call "QInputDialog.getText") (emit (Call "QInputDialog.getText") w)) in *.
  assert (Hw0 : log w0 = log w ++ [Call "QInputDialog.getText"; Call "QInputDialog.getText"]).
  { unfold w0. rewrite !log_emit, <- app_assoc. reflexivity. }
  destruct (profile_line_log q1 q2 w0) as (pre & Hpre & [(_ & _ & Hl) | Hopen]).
  - rewrite Hl, Hw0, <- !app_assoc, drop_app_length in Hin.
    exfalso. destruct Hpre as [-> | ->]; in_cases Hin.
  - destruct Hopen as (results & mid & _ & _ & Hmid & Hopen). cbv zeta in Hopen.
    destruct Hopen as [_ Hl]. rewrite Hl, Hw0, <- !app_assoc, drop_app_length in Hin.
    destruct Hpre as [-> | ->]; destruct Hmid as [-> | ->]; in_cases Hin;
      injection Hin as <-; cbn; auto.
Qed.

(** X19. Entering a time-series point by coordinates creates a dialog
    only for a confirmed text of exactly two comma-separated numbers, and
    then for the point typed; a cancelled or empty prompt changes nothing
    but the log, and any other text leads to the warning box only, the
    dialog shown before staying as it is. *)
Theorem pick_by_coords (np_bool : numpy_bool_argument) (answer : string * bool)
    (dm : TimeSeriesDialog.DataManager) (s : Session) :
  let s' := _pick_timeseries_by_coords py_float np_bool answer dm s in
  let prompt := Call "QInputDialog.getText" in
  (confirmed answer = false -> s' = on_window (emit prompt) s) /\
  (confirmed answer = true -> parse_pair py_float (fst answer) = None ->
   s' = on_window (emit invalid_input) (on_window (emit prompt) s)) /\
  (forall coords : Q * Q,
     confirmed answer = true -> parse_pair py_float (fst answer) = Some coords ->
     timeseries_dialog s'
     = Some (TimeSeriesDialog.init np_bool coords dm (output_dir (window s)), true)) /\
  (timeseries_dialog s' <> timeseries_dialog s ->
   confirmed answer = true /\
   exists a b x y, Py.split "," (fst answer) = [a; b] /\
                   py_float a = Some x /\ py_float b = Some y).
Proof.
  cbv zeta. unfold _pick_timeseries_by_coords.
  destruct (confirmed answer) eqn:Hc.
  2: { split; [reflexivity|]. split; [discriminate|]. split; [discriminate|].
       intros Hne. exfalso. apply Hne. reflexivity. }
  split; [discriminate|].
  destruct (parse_pair py_float (fst answer)) as [[x y]|] eqn:Hp.
  - split; [discriminate|]. split.
    + intros coords _ [= <-].
      exact (point_picked_replaces_dialog_aux np_bool (x, y) dm
               (on_window (emit (Call "QInputDialog.getText")) s)).
    + intros _. split; [reflexivity|]. apply parse_pair_Some in Hp.
      destruct Hp as (a & b & H). exists a, b, x, y. exact H.
  - split; [reflexivity|]. split; [discriminate|].
    intros Hne. exfalso. apply Hne. reflexivity.
Qed.

End CoordinateFacts.

End ToolFacts.

Section SettingsFacts.
Import Qt MainWindow WindowTerms MainWindowMore MoreWindowTerms.

Lemma settings_kept_refl (w : Window) : settings_kept w w.
Proof. repeat split. Qed.

Lemma settings_kept_trans (w1 w2 w3 : Window) :
  settings_kept w1 w2 -> settings_kept w2 w3 -> settings_kept w1 w3.
Proof.
  unfold settings_kept.
  intros (A1 & A2 & A3 & A4 & A5 & A6 & A7 & A8 & A9 & A10 & A11)
         (B1 & B2 & B3 & B4 & B5 & B6 & B7 & B8 & B9 & B10 & B11).
  repeat split; congruence.
Qed.

Lemma settings_kept_emit (e : effect) (w : Window) : settings_kept w (emit e w).
Proof. repeat split. Qed.

Lemma settings_kept_emit_all (es : list effect) (w : Window) :
  settings_kept w (emit_all es w).
Proof.
  revert w. induction es as [|e es IH]; intros w; [apply settings_kept_refl|].
  unfold emit_all. cbn [fold_left].
  eapply settings_kept_trans; [apply (settings_kept_emit e)|]. apply IH.
Qed.

Lemma log_emit_all (es : list effect) (w : Window) : log (emit_all es w) = log w ++ es.
Proof.
  revert w. induction es as [|e es IH]; intros w; [rewrite app_nil_r; reflexivity|].
  unfold emit_all. cbn [fold_left]. fold (emit_all es (emit e w)).
  rewrite IH, log_emit, <- app_assoc. reflexivity.
Qed.

Lemma settings_kept_update_frame_info (is_time_avg : bool) (start end_ : Z) (w : Window) :
  settings_kept w (_update_frame_info is_time_avg start end_ w).
Proof.
  unfold settings_kept, _update_frame_info. destruct is_time_avg; [simpl; tauto|].
  cbn [set_frame_info_label current_frame_index].
  destruct (get_frame_info (data_manager w) (current_frame_index w)) as [info|];
    [destruct (info !! "timestamp")|]; simpl; tauto.
Qed.

Lemma settings_kept_load_frame (i : Z) (cols : option (gset string)) (w : Window) :
  settings_kept w (_load_frame i cols w).
Proof.
  unfold _load_frame. destruct (negb _); [apply settings_kept_refl|].
  destruct (get_frame_data _ _ _) as [data|]; [|apply settings_kept_refl].
  set (w1 := set_plot_widget _ _).
  assert (settings_kept w w1) as H1 by (repeat split).
  assert (settings_kept w (_update_frame_info false 0 0 w1)) as H2
    by (eapply settings_kept_trans; [exact H1 | apply settings_kept_update_frame_info]).
  destruct (last_mouse_coords _); [|exact H2].
  eapply settings_kept_trans; [exact H2 | apply settings_kept_emit].
Qed.

Lemma settings_kept_apply_visualization_settings (w : Window) :
  settings_kept w (_apply_visualization_settings w).
Proof.
  unfold _apply_visualization_settings, showMessage.
  destruct (_ =? 0)%Z; [apply settings_kept_refl|].
  set (w1 := set_plot_widget _ w).
  assert (settings_kept w w1) as H1 by (repeat split).
  destruct (cfg_time_average_enabled (config w)).
  - destruct (_ <=? _)%Z.
    + eapply settings_kept_trans; [exact H1 | apply settings_kept_emit].
    + set (w2 := set_plot_widget _ w1).
      assert (settings_kept w1 w2) as H2 by (repeat split).
      eapply settings_kept_trans; [exact H1|]. eapply settings_kept_trans; [exact H2|].
      eapply settings_kept_trans;
        [apply settings_kept_update_frame_info | apply settings_kept_emit].
  - eapply settings_kept_trans; [exact H1|].
    eapply settings_kept_trans; [apply settings_kept_load_frame | apply settings_kept_emit].
Qed.

Lemma settings_kept_force_refresh_plot (reset_view : bool) (w : Window) :
  settings_kept w (_force_refresh_plot reset_view w).
Proof.
  unfold _force_refresh_plot.
  eapply settings_kept_trans; [|apply settings_kept_apply_visualization_settings].
  repeat split.
Qed.

(** Peels the outermost operation off the window on the right. *)
Ltac kept_step :=
  lazymatch goal with
  | |- settings_kept ?a (emit ?e ?x) =>
      apply (settings_kept_trans a x); [| apply settings_kept_emit]
  | |- settings_kept ?a (emit_all ?es ?x) =>
      apply (settings_kept_trans a x); [| apply settings_kept_emit_all]
  | |- settings_kept ?a (set_time_slider ?s ?x) =>
      apply (settings_kept_trans a x);
      [| generalize s; generalize x; intros; repeat split]
  | |- settings_kept ?a (_update_db_info ?x) =>
      apply (settings_kept_trans a x); [| generalize x; intros; repeat split]
  | |- settings_kept ?a (_force_refresh_plot ?b ?x) =>
      apply (settings_kept_trans a x); [| apply settings_kept_force_refresh_plot]
  | |- settings_kept ?a ?b => constr_eq a b; apply settings_kept_refl
  end.

Lemma settings_kept_load_project_data (w : Window) :
  settings_kept w (_load_project_data w).
Proof.
  unfold _load_project_data. cbv zeta.
  set (w0 := emit (Call "data_manager.post_import_setup") w).
  apply (settings_kept_trans w w0); [apply settings_kept_emit|].
  destruct (0 <? get_frame_count (data_manager (_update_db_info w0)))%Z;
    unfold showMessage; repeat kept_step.
Qed.

Lemma settings_kept_start_database_import (w : Window) :
  settings_kept w (_start_database_import w).
Proof.
  unfold settings_kept. destruct w. cbn. tauto.
Qed.

Lemma settings_kept_initialize_project (reply : StandardButton) (w : Window) :
  settings_kept w (_initialize_project reply w).
Proof.
  unfold _initialize_project.
  destruct (negb _); [apply settings_kept_refl|].
  destruct (is_database_ready _); [apply settings_kept_load_project_data|].
  destruct reply.
  - eapply settings_kept_trans; [apply settings_kept_emit|].
    apply settings_kept_start_database_import.
  - unfold showMessage. repeat kept_step.
  - unfold showMessage. repeat kept_step.
Qed.

Lemma settings_kept_on_error (message : string) (w : Window) :
  settings_kept w (_on_error message w).
Proof.
  unfold settings_kept. destruct w as [? ? ? ? ? ? ? ? ipd ? ? ? ? ? ? ? ? ? ? ? ?].
  unfold _on_error. cbn [import_progress_dialog].
  destruct ipd as [[m [|]]|]; cbn; tauto.
Qed.

End SettingsFacts.

Section ProjectFacts.
Import Qt MainWindow WindowTerms MainWindowMore MoreWindowTerms.


Lemma initialize_project_log (reply : StandardButton) (w : Window) :
  exists rest : list effect,
    log (_initialize_project reply w) = log w ++ rest /\
    (setup_project_directory (data_manager w) (project_dir w) = false -> rest = []).
Proof.
  unfold _initialize_project.
  destruct (setup_project_directory (data_manager w) (project_dir w)) eqn:Hs; cbn [negb].
  2: { exists []. rewrite app_nil_r. auto. }
  destruct (is_database_ready (data_manager w)).
  - destruct (load_project_data_effects w) as (_ & _ & rest & Hl & _).
    exists (Call "data_manager.post_import_setup" :: rest). split; [exact Hl | discriminate].
  - destruct reply.
    + destruct (start_database_import_state (emit (import_question (project_dir w)) w))
        as (Hl & _). cbv zeta in Hl. rewrite Hl, log_emit, <- app_assoc.
      eexists. split; [reflexivity | discriminate].
    + unfold showMessage. rewrite !log_emit, <- app_assoc.
      eexists. split; [reflexivity | discriminate].
    + unfold showMessage. rewrite !log_emit, <- app_assoc.
      eexists. split; [reflexivity | discriminate].
Qed.


Lemma emit_all_data_manager (es : list effect) (w : Window) :
  data_manager (emit_all es w) = data_manager w.
Proof.
  revert w. induction es as [|x es IH]; intros w; [reflexivity|].
  unfold emit_all. cbn [fold_left]. apply (IH (emit x w)).
Qed.

Lemma emit_all_import_worker (es : list effect) (w : Window) :
  import_worker (emit_all es w) = import_worker w.
Proof.
  revert w. induction es as [|x es IH]; intros w; [reflexivity|].
  unfold emit_all. cbn [fold_left]. apply (IH (emit x w)).
Qed.

(** What [delete_if] deletes. *)
Lemma delete_if_raised (path : option string) (test : string -> bool)
    (delete : string -> Py.outcome unit) (callee e : string) :
  fst (delete_if path test delete callee) = Py.Raised e ->
  exists p : string,
    path = Some p /\ p <> "" /\ test p = true /\ delete p = Py.Raised e /\
    snd (delete_if path test delete callee) = [Call (callee +:+ "('" +:+ p +:+ "')")].
Proof.
  unfold delete_if. destruct path as [p|]; [|discriminate].
  destruct (Py.truthy p) eqn:Ht; [|discriminate].
  destruct (test p) eqn:Hp; [|discriminate]. cbn.
  intros H. exists p. apply truthy_iff in Ht. auto.
Qed.

Lemma delete_if_calls (path : option string) (test : string -> bool)
    (delete : string -> Py.outcome unit) (callee : string) :
  (path = None \/ path = Some "" \/ exists p, path = Some p /\ test p = false) ->
  delete_if path test delete callee = (Py.Returned tt, []).
Proof.
  unfold delete_if. intros [-> | [-> | (p & -> & Hp)]]; [reflexivity | reflexivity |].
  rewrite Hp, andb_false_r. reflexivity.
Qed.

(** X22. Re-importing the data. Without a Yes to the first question the
    question is all that happens. After a Yes, a path that is None or
    empty, or that fails its test (the metadata file does not exist, the
    data path is no directory) is not deleted. When a deletion raises, the
    error is reported through [_on_error] and the project is not
    initialised again: the import worker is the one from before, the
    settings are kept, the effects end in the critical box, and a failure
    on the metadata file leaves the data directory alone. *)
Theorem force_reload_guarded (fs : FileSystem) (confirm reply : StandardButton)
    (w : Window) :
  let w' := _force_reload_data fs confirm reply w in
  let dm := data_manager w in
  let question :=
    MessageBox Question "确认重新导入"
      ("这将删除现有数据存储和元数据并从CSV文件重新导入所有数据。此操作不可撤销。"
       +:+ NL +:+ NL +:+ "是否继续？") in
  let stopping := [question; Call "playback_handler.stop_playback";
                   Call "stats_handler.reset_global_stats"] in
  let db := delete_if (db_path dm) (path_exists fs) (os_remove fs) "os.remove" in
  let zarr := delete_if (zarr_path dm) (path_isdir fs) (shutil_rmtree fs) "shutil.rmtree" in
  (confirm <> Yes -> w' = emit question w) /\
  (db_path dm = None \/ db_path dm = Some "" \/
   (exists p, db_path dm = Some p /\ path_exists fs p = false) ->
   db = (Py.Returned tt, [])) /\
  (zarr_path dm = None \/ zarr_path dm = Some "" \/
   (exists p, zarr_path dm = Some p /\ path_isdir fs p = false) ->
   zarr = (Py.Returned tt, [])) /\
  (confirm = Yes ->
   exists rest : list effect, log w' = log w ++ stopping ++ snd db ++ rest) /\
  (confirm = Yes ->
   forall e : string,
     fst db = Py.Raised e \/ (fst db = Py.Returned tt /\ fst zarr = Py.Raised e) ->
     let message := "删除旧数据存储失败: " +:+ e in
     import_worker w' = import_worker w /\
     exists closing : list effect,
       (closing = [] \/ closing = [DialogAccept]) /\
       log w' = log w ++ stopping ++ snd db
                ++ (match fst db with Py.Raised _ => [] | Py.Returned _ => snd zarr end)
                ++ closing
                ++ [StatusMessage ("错误: " +:+ message) 5000;
                    MessageBox Critical "发生错误" message]) /\
  settings_kept w w'.
Proof.
  cbv zeta.
  assert (forall A B C D : Prop, A -> B -> C /\ D -> C /\ A /\ B /\ D) as Hshape by tauto.
  apply Hshape; [apply delete_if_calls | apply delete_if_calls |]. clear Hshape.
  unfold _force_reload_data.
  set (question := MessageBox Question _ _).
  destruct confirm.
  2,3: split; [reflexivity|]; split; [discriminate|]; split;
       [discriminate | apply settings_kept_emit].
  split; [intros H; congruence|].
  set (w1 := emit_all _ (emit question w)).
  assert (Hw1 : data_manager w1 = data_manager w /\ import_worker w1 = import_worker w /\
                log w1 = log w ++ [question; Call "playback_handler.stop_playback";
                                   Call "stats_handler.reset_global_stats"] /\
                settings_kept w w1).
  { unfold w1. split; [reflexivity|]. split; [reflexivity|]. split.
    - rewrite log_emit_all, log_emit, <- app_assoc. reflexivity.
    - eapply settings_kept_trans; [apply settings_kept_emit | apply settings_kept_emit_all]. }
  destruct Hw1 as (Hdm & Hiw & Hl & Hk). rewrite Hdm.
  assert (Hdm2 : forall es, data_manager (emit_all es w1) = data_manager w)
    by (intros es; rewrite emit_all_data_manager; exact Hdm).
  assert (Hiw2 : forall es, import_worker (emit_all es w1) = import_worker w)
    by (intros es; rewrite emit_all_import_worker; exact Hiw).
  assert (Herr : forall m w0,
            import_worker (_on_error m w0) = import_worker w0 /\
            exists closing, (closing = [] \/ closing = [DialogAccept]) /\
              log (_on_error m w0)
              = log w0 ++ closing ++ [StatusMessage ("错误: " +:+ m) 5000;
                                       MessageBox Critical "发生错误" m]).
  { intros m w0. split.
    - destruct w0 as [? ? ? ? ? ? ? ? ipd ? ? ? ? ? ? ? ? ? ? ? ?]. unfold _on_error.
      cbn [import_progress_dialog]. destruct ipd as [[? [|]]|]; reflexivity.
    - destruct (on_error_effects m w0) as [(dlg & _ & _ & _ & H) | (_ & _ & H)].
      + exists [DialogAccept]. split; [auto|]. exact H.
      + exists []. split; [auto|]. exact H. }
  destruct (delete_if (db_path (data_manager w)) (path_exists fs) (os_remove fs) "os.remove")
    as [r1 c1] eqn:Hdb.
  cbn [fst snd].
  destruct r1 as [[]|e1].
  - rewrite Hdm2.
    destruct (delete_if (zarr_path (data_manager w)) (path_isdir fs) (shutil_rmtree fs)
                "shutil.rmtree") as [r2 c2] eqn:Hz.
    cbn [fst snd].
    destruct r2 as [[]|e2].
    + split.
      * intros _.
        destruct (initialize_project_log reply (emit_all c2 (emit_all c1 w1))) as (rest & Hr & _).
        exists (c2 ++ rest). rewrite Hr, !log_emit_all, Hl, <- !app_assoc. reflexivity.
      * split; [intros _ e [H | [_ H]]; discriminate|].
        eapply settings_kept_trans; [|apply settings_kept_initialize_project].
        eapply settings_kept_trans; [|apply settings_kept_emit_all].
        eapply settings_kept_trans; [exact Hk | apply settings_kept_emit_all].
    + destruct (Herr ("删除旧数据存储失败: " +:+ e2) (emit_all c2 (emit_all c1 w1)))
        as (Hw & closing & Hc & Hlog).
      split.
      * intros _. eexists. rewrite Hlog, !log_emit_all, Hl, <- !app_assoc. reflexivity.
      * split.
        -- intros _ e [H | [_ H]]; [discriminate|]. injection H as <-.
           split.
           ++ rewrite Hw, emit_all_import_worker. apply Hiw2.
           ++ exists closing. split; [exact Hc|].
              rewrite Hlog, !log_emit_all, Hl, <- !app_assoc. reflexivity.
        -- eapply settings_kept_trans; [|apply settings_kept_on_error].
           eapply settings_kept_trans; [|apply settings_kept_emit_all].
           eapply settings_kept_trans; [exact Hk | apply settings_kept_emit_all].
  - destruct (Herr ("删除旧数据存储失败: " +:+ e1) (emit_all c1 w1))
      as (Hw & closing & Hc & Hlog).
    split.
    + intros _. eexists. rewrite Hlog, !log_emit_all, Hl, <- !app_assoc. reflexivity.
    + split.
      * intros _ e [H | [H _]]; [|discriminate]. injection H as <-.
        split; [rewrite Hw; apply Hiw2|].
        exists closing. split; [exact Hc|].
        rewrite Hlog, !log_emit_all, Hl, <- !app_assoc. reflexivity.
      * eapply settings_kept_trans; [|apply settings_kept_on_error].
        eapply settings_kept_trans; [exact Hk | apply settings_kept_emit_all].
Qed.

End ProjectFacts.

Section VariableFacts.
Import Qt MainWindow WindowTerms MainWindowMore MoreWindowTerms.

Lemma log_set_data_manager (dm : DataManager) (w : Window) :
  log (set_data_manager dm w) = log w.
Proof. reflexivity. Qed.

Section RenamingFacts.
Variable isidentifier : string -> bool.

(** X23. Renaming a variable. The data manager is asked to rename only
    when a row is selected, the input dialog was confirmed with a text
    that is not empty and differs from the old name, the text stripped of
    blanks is an identifier and not the name of a variable, and the
    confirmation is answered with Yes; the name passed on is the stripped
    one. Then a successful rename is followed by the reload of the project
    data from the data manager as it is after the call, and a failed one by
    the critical box only, the data manager staying as before. In every
    other case nothing changes but for the dialogs shown, two at most. *)
Theorem rename_variable_guarded (names : list string) (current_row : Z)
    (answer : string * bool) (reply : StandardButton) (renamed : Py.outcome DataManager)
    (w : Window) :
  let w' := _rename_variable isidentifier names current_row answer reply renamed w in
  let old_name := row_name names current_row in
  let new_name := Py.strip (fst answer) in
  let wanted :=
    (0 <= current_row)%Z /\ snd answer = true /\ fst answer <> "" /\
    fst answer <> old_name /\ isidentifier new_name = true /\
    (new_name ∉ get_variables (data_manager w)) /\ reply = Yes in
  (wanted ->
   exists (question : string) (rest : list effect),
     log w' = log w ++ [Call "QInputDialog.getText";
                        MessageBox Question "确认重命名" question;
                        Call "wait_box.show"; rename_call old_name new_name;
                        Call "wait_box.accept"] ++ rest /\
     match renamed with
     | Py.Returned dm =>
         data_manager w' = dm /\
         exists rest' : list effect,
           rest = MessageBox Information "成功"
                    ("变量已成功重命名为 '" +:+ new_name +:+ "'。正在刷新应用...")
                  :: Call "data_manager.post_import_setup" :: rest'
     | Py.Raised e =>
         data_manager w' = data_manager w /\
         rest = [MessageBox Critical "重命名失败" ("重命名变量时发生错误:" +:+ NL +:+ e)]
     end) /\
  (~ wanted ->
   exists dialogs : list effect,
     w' = emit_all dialogs w /\ Forall is_dialog dialogs /\ (length dialogs <= 2)%nat).
Proof.
  cbv zeta. unfold _rename_variable.
  destruct (Z.ltb_spec current_row 0) as [Hrow|Hrow].
  { split; [intros (H & _); lia|]. intros _. eexists [_]. split; [reflexivity|].
    split; [repeat constructor | cbn; lia]. }
  unfold confirmed.
  destruct (snd answer) eqn:Hok; cbn [andb].
  2: { split; [intros (_ & H & _); discriminate|]. intros _. eexists [_].
       split; [reflexivity|]. split; [repeat constructor | cbn; lia]. }
  destruct (Py.truthy (fst answer)) eqn:Ht; cbn [andb].
  2: { split; [intros (_ & _ & H & _); apply truthy_iff in H; congruence|].
       intros _. eexists [_]. split; [reflexivity|].
       split; [repeat constructor | cbn; lia]. }
  apply truthy_iff in Ht.
  destruct (String.eqb_spec (fst answer) (row_name names current_row)) as [Heq|Hne];
    cbn [negb].
  { split; [intros (_ & _ & _ & H & _); congruence|]. intros _. eexists [_].
    split; [reflexivity|]. split; [repeat constructor | cbn; lia]. }
  destruct (isidentifier (Py.strip (fst answer))) eqn:Hid; cbn [negb].
  2: { split; [intros (_ & _ & _ & _ & H & _); discriminate|]. intros _. eexists [_; _].
       split; [reflexivity|]. split; [repeat constructor | cbn; lia]. }
  cbn [emit set_log data_manager].
  destruct (bool_decide_reflect
              (Py.strip (fst answer) ∈ get_variables (data_manager w))) as [Hin|Hin].
  { split; [intros (_ & _ & _ & _ & _ & H & _); contradiction|]. intros _. eexists [_; _].
    split; [reflexivity|]. split; [repeat constructor | cbn; lia]. }
  destruct reply.
  - split; [|intros H; exfalso; apply H; repeat split; assumption].
    intros _.
    exists ("您确定要将变量 <b>'" +:+ row_name names current_row +:+ "'</b> 重命名为 <b>'"
            +:+ Py.strip (fst answer)
            +:+ "'</b> 吗？<br><br>任何依赖此变量的公式、模板或设置文件都需要手动更新，否则将失效。").
    destruct renamed as [dm|e].
    + set (w5 := emit (MessageBox Information _ _) _).
      destruct (load_project_data_keeps w5) as (_ & _ & Hdm & _).
      destruct (load_project_data_effects w5) as (_ & _ & rest & Hl & _).
      exists (MessageBox Information "成功"
                ("变量已成功重命名为 '" +:+ Py.strip (fst answer) +:+ "'。正在刷新应用...")
              :: Call "data_manager.post_import_setup" :: rest).
      split.
      * rewrite Hl. unfold w5. rewrite log_emit, log_set_data_manager, !log_emit, <- !app_assoc.
        reflexivity.
      * split; [rewrite Hdm; reflexivity|]. exists rest. reflexivity.
    + eexists. split.
      * rewrite !log_emit, <- !app_assoc. reflexivity.
      * split; reflexivity.
  - split; [intros (_ & _ & _ & _ & _ & _ & H); discriminate|]. intros _. eexists [_; _].
    split; [reflexivity|]. split; [repeat constructor | cbn; lia].
  - split; [intros (_ & _ & _ & _ & _ & _ & H); discriminate|]. intros _. eexists [_; _].
    split; [reflexivity|]. split; [repeat constructor | cbn; lia].
Qed.

End RenamingFacts.

(** X24. Deleting a variable. Without a selected row only the warning is
    shown; with one, the variable of the row is deleted only after a Yes
    to the question, and any other answer leaves the question as the only
    effect. A successful deletion is followed by the reload of the project
    data from the data manager as it is after the call; a failed one by
    the critical box only, the data manager staying as before. *)
Theorem delete_variable_guarded (names : list string) (current_row : Z)
    (reply : StandardButton) (deleted : Py.outcome DataManager) (w : Window) :
  let w' := _delete_variable names current_row reply deleted w in
  let name := row_name names current_row in
  ((current_row < 0)%Z ->
   w' = emit (MessageBox Warning "未选择" "请在表格中选择一个要删除的变量。") w) /\
  ((0 <= current_row)%Z -> reply <> Yes ->
   exists question : string, w' = emit (MessageBox Question "确认删除" question) w) /\
  ((0 <= current_row)%Z -> reply = Yes ->
   exists (question : string) (rest : list effect),
     log w' = log w ++ [MessageBox Question "确认删除" question; Call "wait_box.show";
                        delete_call name; Call "wait_box.accept"] ++ rest /\
     match deleted with
     | Py.Returned dm =>
         data_manager w' = dm /\
         exists rest' : list effect,
           rest = MessageBox Information "成功"
                    ("变量 '" +:+ name +:+ "' 已成功删除。正在刷新应用...")
                  :: Call "data_manager.post_import_setup" :: rest'
     | Py.Raised e =>
         data_manager w' = data_manager w /\
         rest = [MessageBox Critical "删除失败"
                   ("删除变量 '" +:+ name +:+ "' 时发生错误:" +:+ NL +:+ e)]
     end).
Proof.
  cbv zeta. unfold _delete_variable.
  destruct (Z.ltb_spec current_row 0) as [Hrow|Hrow].
  { split; [reflexivity|]. split; intros; lia. }
  split; [intros; lia|].
  destruct reply.
  - split; [intros _ H; congruence|]. intros _ _.
    exists ("您确定要永久删除变量 <b>'" +:+ row_name names current_row
            +:+ "'</b> 吗？<br><br>此操作将从数据存储中移除该列及其所有关联的统计数据和定义，且<b>无法撤销</b>。<br>任何依赖此变量的公式、模板或设置文件都将失效。").
    destruct deleted as [dm|e].
    + set (w5 := emit (MessageBox Information _ _) _).
      destruct (load_project_data_keeps w5) as (_ & _ & Hdm & _).
      destruct (load_project_data_effects w5) as (_ & _ & rest & Hl & _).
      exists (MessageBox Information "成功"
                ("变量 '" +:+ row_name names current_row +:+ "' 已成功删除。正在刷新应用...")
              :: Call "data_manager.post_import_setup" :: rest).
      split.
      * rewrite Hl. unfold w5. rewrite log_emit, log_set_data_manager, !log_emit, <- !app_assoc.
        reflexivity.
      * split; [rewrite Hdm; reflexivity|]. exists rest. reflexivity.
    + eexists. split.
      * rewrite !log_emit, <- !app_assoc. reflexivity.
      * split; reflexivity.
  - split; [|intros _ H; discriminate]. intros _ _. eexists. reflexivity.
  - split; [|intros _ H; discriminate]. intros _ _. eexists. reflexivity.
Qed.

End VariableFacts.

Section ClosingFacts.
Import Qt MainWindow WindowTerms MainWindowMore MoreWindowTerms.

Lemma log_on_window_emit_all (es : list effect) (s : Session) :
  log (window (on_window (emit_all es) s)) = log (window s) ++ es.
Proof. apply log_emit_all. Qed.

Lemma profile_dialog_emit (e : effect) (w : Window) :
  profile_dialog (emit e w) = profile_dialog w.
Proof. reflexivity. Qed.

Lemma profile_dialog_emit_all (es : list effect) (w : Window) :
  profile_dialog (emit_all es w) = profile_dialog w.
Proof.
  destruct (settings_kept_emit_all es w) as (_ & _ & _ & _ & _ & _ & _ & H & _). exact H.
Qed.

(** The effects of the part of [closeEvent] that closes. *)
Lemma finish_close_effects (ctx : CloseContext) (s : Session) :
  let s' := finish_close ctx s in
  log (window s')
  = log (window s) ++ _save_settings ctx ++ [Call "playback_handler.stop_playback"]
    ++ (if has_thread_pool ctx
        then [Call "thread_pool.clear"; Call "thread_pool.waitForDone"] else [])
    ++ (match timeseries_dialog s with
        | Some _ => [Call "timeseries_dialog.close"] | None => [] end)
    ++ (match profile_dialog (window s) with
        | Some _ => [CloseProfileDialog] | None => [] end) /\
  timeseries_dialog s' = option_map (fun d => (fst d, false)) (timeseries_dialog s) /\
  pick_timeseries_btn s' = pick_timeseries_btn s /\
  profile_dialog (window s') = profile_dialog (window s).
Proof.
  cbv zeta. unfold finish_close, on_window.
  destruct s as [w b d]. cbn [window timeseries_dialog pick_timeseries_btn].
  set (w1 := emit (Call "playback_handler.stop_playback") (emit_all (_save_settings ctx) w)).
  assert (H1 : log w1 = log w ++ _save_settings ctx ++ [Call "playback_handler.stop_playback"]
               /\ profile_dialog w1 = profile_dialog w).
  { unfold w1. rewrite log_emit, log_emit_all, <- app_assoc. split; [reflexivity|].
    destruct (settings_kept_emit_all (_save_settings ctx) w)
      as (_ & _ & _ & _ & _ & _ & _ & H & _). exact H. }
  destruct H1 as [Hl Hp]. clearbody w1.
  destruct (has_thread_pool ctx); destruct d as [[d v]|];
    cbn [window timeseries_dialog pick_timeseries_btn on_window option_map fst].
  all: rewrite ?log_emit, ?profile_dialog_emit, ?profile_dialog_emit_all.
  all: rewrite Hp; destruct (profile_dialog w) as [pd|];
    cbn [window timeseries_dialog pick_timeseries_btn on_window option_map fst];
    rewrite ?log_emit, ?profile_dialog_emit, ?profile_dialog_emit_all, ?log_emit_all, ?Hl,
      ?Hp, <- ?app_assoc, ?app_nil_r; cbn [app]; auto.
Qed.

(** X25. Closing the window. The close event is accepted exactly when the
    export handler allows it and, with unsaved changes, the question is not
    answered with Cancel. A refused event saves no settings, stops nothing
    and leaves both dialogs as they are. An accepted one writes the
    settings (the last configuration file only when there is one), stops
    the playback, closes the time-series dialog whether visible or not and
    asks the profile dialog to close if there is one; the configuration is
    saved exactly when it is dirty and the answer is Save. *)
Theorem close_event_accepts (ctx : CloseContext) (reply : CloseReply) (s : Session) :
  let accepted := fst (closeEvent ctx reply s) in
  let s' := snd (closeEvent ctx reply s) in
  let effects := drop (length (log (window s))) (log (window s')) in
  let question := MessageBox Question "未保存的修改" "退出前是否保存当前修改？" in
  (accepted = true <->
   on_main_window_close ctx = true /\
   (config_is_dirty ctx = true -> reply <> CancelClose)) /\
  (accepted = false ->
   timeseries_dialog s' = timeseries_dialog s /\
   profile_dialog (window s') = profile_dialog (window s) /\
   (effects = [] \/ effects = [question])) /\
  (accepted = true ->
   timeseries_dialog s' = option_map (fun d => (fst d, false)) (timeseries_dialog s) /\
   (In (Call "config_handler.save_current_config") effects <->
    config_is_dirty ctx = true /\ reply = Save) /\
   (In question effects <-> config_is_dirty ctx = true) /\
   (In (Call "settings.setValue('last_config_file')") effects <->
    exists f, current_config_file ctx = Some f /\ f <> "") /\
   In (Call "settings.setValue('project_directory')") effects /\
   In (Call "playback_handler.stop_playback") effects /\
   (In (Call "timeseries_dialog.close") effects <-> timeseries_dialog s <> None) /\
   (In CloseProfileDialog effects <-> profile_dialog (window s) <> None)).
Proof.
  cbv zeta. unfold closeEvent.
  destruct (on_main_window_close ctx); cbn [negb fst snd].
  2: { split; [split; [discriminate | intros [H _]; discriminate]|].
       split; [|discriminate]. intros _. rewrite drop_all. auto. }
  assert (Hfin : forall (pre : list effect) (s0 : Session),
            timeseries_dialog s0 = timeseries_dialog s ->
            profile_dialog (window s0) = profile_dialog (window s) ->
            log (window s0) = log (window s) ++ pre ->
            let s' := finish_close ctx s0 in
            let effects := drop (length (log (window s))) (log (window s')) in
            timeseries_dialog s'
            = option_map (fun d => (fst d, false)) (timeseries_dialog s) /\
            (forall e, In e pre -> In e effects) /\
            (forall c, In (Call c) effects ->
               In (Call c) pre \/
               In c ["settings.setValue('geometry')"; "settings.setValue('windowState')";
                     "settings.setValue('project_directory')";
                     "settings.setValue('output_directory')";
                     "settings.setValue('panel_visible')";
                     "settings.setValue('last_time_variable')";
                     "playback_handler.stop_playback";
                     "thread_pool.clear"; "thread_pool.waitForDone"] \/
               (c = "settings.setValue('last_config_file')" /\
                exists f, current_config_file ctx = Some f /\ f <> "") \/
               (c = "timeseries_dialog.close" /\ timeseries_dialog s <> None)) /\
            (forall k t x, In (MessageBox k t x) effects -> In (MessageBox k t x) pre) /\
            ((exists f, current_config_file ctx = Some f /\ f <> "") ->
             In (Call "settings.setValue('last_config_file')") effects) /\
            In (Call "settings.setValue('project_directory')") effects /\
            In (Call "playback_handler.stop_playback") effects /\
            (timeseries_dialog s <> None -> In (Call "timeseries_dialog.close") effects) /\
            (In CloseProfileDialog effects <->
             In CloseProfileDialog pre \/ profile_dialog (window s) <> None)).
  { intros pre s0 Ht Hp Hl. cbv zeta.
    destruct (finish_close_effects ctx s0) as (Hlog & Htd & _ & _). cbv zeta in Hlog, Htd.
    rewrite Hlog, Htd, Ht, Hp, Hl, <- !app_assoc, drop_app_length.
    split; [reflexivity|].
    unfold _save_settings.
    destruct (current_config_file ctx) as [f|] eqn:Hf;
      [destruct (Py.truthy f) eqn:Htr; [apply truthy_iff in Htr|]|];
      destruct (has_thread_pool ctx);
      destruct (timeseries_dialog s) as [td|];
      destruct (profile_dialog (window s)) as [pd|];
      (split; [intros e He; apply in_or_app; left; exact He|]);
      (split; [intros c Hc; apply in_app_or in Hc as [Hc|Hc]; [left; exact Hc|];
               right; cbn in Hc; cbn;
               repeat (destruct Hc as [Hc|Hc];
                       [try discriminate Hc; injection Hc as <-;
                        first [ left; tauto
                              | right; left; split; [reflexivity|]; exists f; split;
                                [reflexivity | assumption]
                              | right; right; split; [reflexivity | discriminate] ]|]);
               destruct Hc|]);
      (split; [intros k t x Hc; apply in_app_or in Hc as [Hc|Hc]; [exact Hc|];
               exfalso; cbn in Hc; in_cases Hc|]);
      (split; [first [ intros _; apply in_or_app; right; cbn; tauto
                     | intros (f' & Hf' & Hne); exfalso;
                       first [ discriminate Hf'
                             | injection Hf' as <-; destruct f; [congruence | discriminate] ] ]|]);
      (split; [apply in_or_app; right; cbn; tauto|]);
      (split; [apply in_or_app; right; cbn; tauto|]);
      (split; [first [ intros _; apply in_or_app; right; cbn; tauto
                     | intros H; exfalso; apply H; reflexivity ]|]);
      (split;
       [intros Hc; apply in_app_or in Hc as [Hc|Hc]; [left; exact Hc|];
        first [ right; discriminate | exfalso; cbn in Hc; in_cases Hc ]
       |intros [Hc|Hc];
        [apply in_or_app; left; exact Hc
        |first [ apply in_or_app; right; cbn; tauto | exfalso; apply Hc; reflexivity ]]]). }
  destruct (config_is_dirty ctx) eqn:Hdirty.
  - set (question := MessageBox Question _ _).
    destruct reply; cbn [fst snd].
    + (* Save *)
      split; [split; [intros _; split; [reflexivity | intros _; discriminate] | reflexivity]|].
      split; [discriminate|]. intros _.
      destruct (Hfin [question; Call "config_handler.save_current_config"]
                  (on_window (emit (Call "config_handler.save_current_config"))
                     (on_window (emit question) s)))
        as (Htd & Hpre & Hcall & Hbox & Hlast & Hproj & Hstop & Hts & Hprof);
        [reflexivity | reflexivity | cbn; rewrite <- app_assoc; reflexivity |].
      cbv zeta in Htd, Hpre, Hcall, Hbox, Hlast, Hproj, Hstop, Hts, Hprof.
      split; [exact Htd|].
      split; [split; [auto | intros _; apply Hpre; cbn; tauto]|].
      split; [split; [auto | intros _; apply Hpre; cbn; tauto]|].
      split.
      { split; [|exact Hlast]. intros Hc. apply Hcall in Hc.
        destruct Hc as [Hc | [Hc | [[_ Hc] | [Hc _]]]];
          [exfalso; in_cases Hc | exfalso; cbn in Hc; in_cases Hc | exact Hc | discriminate]. }
      split; [exact Hproj|]. split; [exact Hstop|].
      split.
      { split; [|exact Hts]. intros Hc. apply Hcall in Hc.
        destruct Hc as [Hc | [Hc | [[Hc _] | [_ Hc]]]];
          [exfalso; in_cases Hc | exfalso; cbn in Hc; in_cases Hc | discriminate | exact Hc]. }
      rewrite Hprof. split; [intros [Hc|Hc]; [exfalso; in_cases Hc | exact Hc] | auto].
    + (* Discard *)
      split; [split; [intros _; split; [reflexivity | intros _; discriminate] | reflexivity]|].
      split; [discriminate|]. intros _.
      destruct (Hfin [question] (on_window (emit question) s))
        as (Htd & Hpre & Hcall & Hbox & Hlast & Hproj & Hstop & Hts & Hprof);
        [reflexivity | reflexivity | reflexivity |].
      cbv zeta in Htd, Hpre, Hcall, Hbox, Hlast, Hproj, Hstop, Hts, Hprof.
      split; [exact Htd|].
      split.
      { split; [|intros [_ H]; discriminate]. intros Hc. apply Hcall in Hc.
        exfalso. destruct Hc as [Hc | [Hc | [[Hc _] | [Hc _]]]];
          [in_cases Hc | cbn in Hc; in_cases Hc | discriminate | discriminate]. }
      split; [split; [auto | intros _; apply Hpre; cbn; tauto]|].
      split.
      { split; [|exact Hlast]. intros Hc. apply Hcall in Hc.
        destruct Hc as [Hc | [Hc | [[_ Hc] | [Hc _]]]];
          [exfalso; in_cases Hc | exfalso; cbn in Hc; in_cases Hc | exact Hc | discriminate]. }
      split; [exact Hproj|]. split; [exact Hstop|].
      split.
      { split; [|exact Hts]. intros Hc. apply Hcall in Hc.
        destruct Hc as [Hc | [Hc | [[Hc _] | [_ Hc]]]];
          [exfalso; in_cases Hc | exfalso; cbn in Hc; in_cases Hc | discriminate | exact Hc]. }
      rewrite Hprof. split; [intros [Hc|Hc]; [exfalso; in_cases Hc | exact Hc] | auto].
    + (* Cancel *)
      split; [split; [discriminate | intros [_ H]; exfalso; apply H; reflexivity]|].
      split; [|discriminate]. intros _.
      split; [reflexivity|]. split; [reflexivity|].
      right. cbn [on_window window]. rewrite log_emit, drop_app_length. reflexivity.
  - cbn [fst snd].
    split; [split; [intros _; split; [reflexivity | discriminate] | reflexivity]|].
    split; [discriminate|]. intros _.
    destruct (Hfin [] s)
      as (Htd & Hpre & Hcall & Hbox & Hlast & Hproj & Hstop & Hts & Hprof);
      [reflexivity | reflexivity | rewrite app_nil_r; reflexivity |].
    cbv zeta in Htd, Hpre, Hcall, Hbox, Hlast, Hproj, Hstop, Hts, Hprof.
    split; [exact Htd|].
    split.
    { split; [|intros [H _]; discriminate]. intros Hc. apply Hcall in Hc.
      exfalso. destruct Hc as [Hc | [Hc | [[Hc _] | [Hc _]]]];
        [in_cases Hc | cbn in Hc; in_cases Hc | discriminate | discriminate]. }
    split; [split; [|discriminate]; intros Hc; apply Hbox in Hc; destruct Hc|].
    split.
    { split; [|exact Hlast]. intros Hc. apply Hcall in Hc.
      destruct Hc as [Hc | [Hc | [[_ Hc] | [Hc _]]]];
        [exfalso; in_cases Hc | exfalso; cbn in Hc; in_cases Hc | exact Hc | discriminate]. }
    split; [exact Hproj|]. split; [exact Hstop|].
    split.
    { split; [|exact Hts]. intros Hc. apply Hcall in Hc.
      destruct Hc as [Hc | [Hc | [[Hc _] | [_ Hc]]]];
        [exfalso; in_cases Hc | exfalso; cbn in Hc; in_cases Hc | discriminate | exact Hc]. }
    rewrite Hprof. split; [intros [Hc|Hc]; [exfalso; in_cases Hc | exact Hc] | auto].
Qed.

End ClosingFacts.

Section TableFacts.
Import Qt MainWindow WindowTerms MainWindowMore MoreWindowTerms.

Lemma is_managed_iff (v : string) :
  is_managed v = true <-> v <> "id" /\ v <> "frame_index" /\ v <> "source_file".
Proof.
  unfold is_managed.
  destruct (String.eqb_spec v "id"); [subst; cbn; split; [discriminate | tauto]|].
  destruct (String.eqb_spec v "frame_index"); [subst; cbn; split; [discriminate | tauto]|].
  destruct (String.eqb_spec v "source_file"); [subst; cbn; split; [discriminate | tauto]|].
  cbn. tauto.
Qed.

Lemma names_column_rows (all_vars : list string)
    (definitions : gmap string (string * string)) :
  names_column (variables_table_rows all_vars definitions)
  = sorted (List.filter is_managed all_vars).
Proof.
  unfold names_column, variables_table_rows. rewrite map_map.
  rewrite <- (map_id (sorted (List.filter is_managed all_vars))) at 2.
  apply map_ext. intros v. destruct (definitions !! v); reflexivity.
Qed.

(** X26. The variables table lists the variables of the data manager
    other than id, frame_index and source_file, each as often as the data
    manager names it, in ascending order of the names. A variable with a
    stored definition shows the type of the definition, translated for
    per-frame and time-aggregated and verbatim otherwise, and its formula;
    a variable without one is shown as raw data from the source file. *)
Theorem variables_table_sorted (all_vars : list string)
    (definitions : gmap string (string * string)) :
  let rows := variables_table_rows all_vars definitions in
  Sorted (fun a b => String.leb a b = true) (names_column rows) /\
  Permutation (List.filter is_managed all_vars) (names_column rows) /\
  (forall v : string,
     In v (names_column rows) <->
     In v all_vars /\ v <> "id" /\ v <> "frame_index" /\ v <> "source_file") /\
  (forall r : table_row,
     In r rows ->
     match definitions !! fst (fst r) with
     | Some (type, formula) =>
         snd r = formula /\
         snd (fst r) = (if String.eqb type "per-frame" then "逐帧计算"
                        else if String.eqb type "time-aggregated" then "时间聚合"
                        else type)
     | None => snd (fst r) = "原始数据" /\ snd r = "来自源文件"
     end).
Proof.
  cbv zeta. rewrite names_column_rows. unfold sorted.
  split; [apply StringSort.Sorted_sort|].
  split; [apply StringSort.Permuted_sort|].
  split.
  - intros v. rewrite <- is_managed_iff, <- filter_In. split; intros H.
    + eapply Permutation_in; [symmetry; apply StringSort.Permuted_sort | exact H].
    + eapply Permutation_in; [apply StringSort.Permuted_sort | exact H].
  - intros r Hr. unfold variables_table_rows in Hr. apply in_map_iff in Hr.
    destruct Hr as (v & <- & _).
    destruct (definitions !! v) as [[type formula]|] eqn:Hd; cbn [fst snd]; rewrite Hd;
      split; reflexivity.
Qed.

End TableFacts.

Section SliderFacts.
Import Qt MainWindow WindowTerms MainWindowMore MoreWindowTerms.

(** The slider after a refresh: untouched, or set to the current frame. *)
Lemma refresh_slider (w : Window) :
  time_slider (_apply_visualization_settings w) = time_slider w \/
  time_slider (_apply_visualization_settings w)
  = setValue (current_frame_index w) (time_slider w).
Proof.
  unfold _apply_visualization_settings, showMessage.
  destruct (_ =? 0)%Z; [auto|].
  set (w1 := set_plot_widget _ w).
  destruct (cfg_time_average_enabled (config w)).
  - destruct (_ <=? _)%Z; [auto|].
    set (w2 := set_plot_widget _ w1).
    destruct (update_frame_info_frame true (cfg_start_frame (config w))
                (cfg_end_frame (config w)) w2) as (_ & _ & Hs & _).
    cbv zeta in Hs. left. cbn [emit set_log time_slider]. rewrite Hs. reflexivity.
  - destruct (load_frame_frame (current_frame_index w1)
                (Some (required_vars (formula_engine w1) (config w))) w1) as ([H | [_ H]] & _);
      cbv zeta in H; cbn [emit set_log time_slider].
    + left. rewrite H. reflexivity.
    + right. rewrite H. reflexivity.
Qed.

Lemma setValue_range (i : Z) (s : Slider) :
  (minimum s <= maximum s)%Z ->
  minimum (setValue i s) = minimum s /\ maximum (setValue i s) = maximum s /\
  (minimum s <= value (setValue i s) <= maximum s)%Z.
Proof. unfold setValue, bound. cbn. lia. Qed.

Lemma setMaximum_range (m : Z) (s : Slider) :
  minimum (setMaximum m s) = Z.min (minimum s) m /\ maximum (setMaximum m s) = m /\
  (minimum (setMaximum m s) <= value (setMaximum m s) <= maximum (setMaximum m s))%Z.
Proof. unfold setMaximum, bound. cbn. lia. Qed.

Lemma time_slider_emit (e : effect) (w : Window) : time_slider (emit e w) = time_slider w.
Proof. reflexivity. Qed.

Lemma time_slider_emit_all (es : list effect) (w : Window) :
  time_slider (emit_all es w) = time_slider w.
Proof.
  revert w. induction es as [|x es IH]; intros w; [reflexivity|].
  unfold emit_all. cbn [fold_left]. apply (IH (emit x w)).
Qed.

Lemma time_slider_set (s : Slider) (w : Window) : time_slider (set_time_slider s w) = s.
Proof. reflexivity. Qed.

Lemma time_slider_reset_flag (b : bool) (w : Window) :
  time_slider (set_should_reset_view_after_refresh b w) = time_slider w.
Proof. reflexivity. Qed.

Lemma update_db_info_frame (w : Window) :
  data_manager (_update_db_info w) = data_manager w /\
  time_slider (_update_db_info w) = time_slider w.
Proof. split; reflexivity. Qed.

(** A slider in range stays in range through a refresh. *)
Lemma refresh_slider_range (w : Window) (lo hi : Z) :
  minimum (time_slider w) = lo -> maximum (time_slider w) = hi ->
  (lo <= value (time_slider w) <= hi)%Z ->
  let s := time_slider (_apply_visualization_settings w) in
  minimum s = lo /\ maximum s = hi /\ (lo <= value s <= hi)%Z.
Proof.
  intros Hlo Hhi Hv. cbv zeta.
  destruct (refresh_slider w) as [-> | ->]; [auto|].
  destruct (setValue_range (current_frame_index w) (time_slider w)) as (H1 & H2 & H3);
    [lia|].
  rewrite H1, H2, Hlo, Hhi. rewrite Hlo, Hhi in H3. auto.
Qed.

(** X27. The time slider after the project data are loaded. With frames in
    the store the maximum of the slider is the last frame index, its
    minimum is lowered to that index if it was above it, and its value lies
    between the two, whatever it was before; with an empty store the slider
    is not touched. *)
Theorem loaded_slider_in_range (w : Window) :
  let w' := _load_project_data w in
  let n := get_frame_count (data_manager w) in
  ((0 < n)%Z ->
   maximum (time_slider w') = (n - 1)%Z /\
   minimum (time_slider w') = Z.min (minimum (time_slider w)) (n - 1) /\
   (minimum (time_slider w') <= value (time_slider w') <= maximum (time_slider w'))%Z) /\
  ((n <= 0)%Z -> time_slider w' = time_slider w).
Proof.
  cbv zeta. unfold _load_project_data. cbv zeta.
  destruct (update_db_info_frame (emit (Call "data_manager.post_import_setup") w))
    as [Hdm Hts].
  rewrite Hdm.
  change (data_manager (emit (Call "data_manager.post_import_setup") w))
    with (data_manager w).
  rewrite time_slider_emit in Hts.
  generalize dependent (_update_db_info (emit (Call "data_manager.post_import_setup") w)).
  intros w0 _ Hts.
  destruct (Z.ltb_spec 0 (get_frame_count (data_manager w))) as [Hn|Hn].
  - split; [intros _ | intros; lia].
    unfold showMessage, _force_refresh_plot. rewrite time_slider_emit.
    destruct (setMaximum_range (get_frame_count (data_manager w) - 1) (time_slider w))
      as (Hmin & Hmax & Hval).
    match goal with
    | |- context [_apply_visualization_settings ?x] =>
        destruct (refresh_slider_range x
                    (Z.min (minimum (time_slider w)) (get_frame_count (data_manager w) - 1))
                    (get_frame_count (data_manager w) - 1)) as (R1 & R2 & R3)
    end.
    + rewrite time_slider_reset_flag, !time_slider_emit_all, time_slider_set,
        ?time_slider_emit_all, Hts. exact Hmin.
    + rewrite time_slider_reset_flag, !time_slider_emit_all, time_slider_set,
        ?time_slider_emit_all, Hts. exact Hmax.
    + rewrite time_slider_reset_flag, !time_slider_emit_all, time_slider_set,
        ?time_slider_emit_all, Hts. rewrite Hmin, Hmax in Hval. exact Hval.
    + rewrite R1, R2. split; [reflexivity|]. split; [reflexivity|]. exact R3.
  - split; [intros; lia | intros _].
    unfold showMessage. rewrite time_slider_emit_all, !time_slider_emit. exact Hts.
Qed.

End SliderFacts.

Section FilterFacts.
Import Qt MainWindow WindowTerms MainWindowMore MoreWindowTerms.

Lemma update_editor_same (id : editor_id) (e : Editor) (f : editor_id -> Editor) :
  update_editor id e f id = e.
Proof. unfold update_editor. rewrite decide_True by reflexivity. reflexivity. Qed.

Lemma update_editor_other (id j : editor_id) (e : Editor) (f : editor_id -> Editor) :
  j <> id -> update_editor id e f j = f j.
Proof. intros H. unfold update_editor. rewrite decide_False by exact H. reflexivity. Qed.

(** The ways [_apply_global_filter] can end. *)
Lemma apply_global_filter_cases (w : Window) :
  let given := if filter_enabled_checkbox w then text (editor w filter_text_edit) else "" in
  editor (_apply_global_filter w) = editor w /\
  (forall e, set_global_filter (data_manager w) given = Py.Raised e ->
     log (_apply_global_filter w)
     = log w ++ [MessageBox Critical "过滤器错误" ("过滤器语法无效: " +:+ e)]) /\
  (set_global_filter (data_manager w) given = Py.Returned tt ->
   exists refresh : list effect,
     Forall quiet refresh /\
     log (_apply_global_filter w)
     = log w ++ [Call "data_manager.set_global_filter"]
       ++ (if Py.truthy given
           then [MessageBox Information "过滤器提示"
                   ("全局过滤器已设置。" +:+ NL +:+ NL
                    +:+ "请注意：在当前版本中，此过滤器主要用于数据导出，尚不会影响实时可视化和计算。")]
           else [])
       ++ refresh ++ [StatusMessage "全局过滤器已应用。" 3000]).
Proof.
  cbv zeta. unfold _apply_global_filter.
  generalize (if filter_enabled_checkbox w then text (editor w filter_text_edit) else "").
  intros given.
  destruct (set_global_filter (data_manager w) given) as [[]|e].
  - assert (forall w2 : Window,
              editor w2 = editor w ->
              forall es, log w2 = log w ++ es ->
              editor (showMessage "全局过滤器已应用。" 3000 (_force_refresh_plot false w2))
              = editor w /\
              exists refresh, Forall quiet refresh /\
                log (showMessage "全局过滤器已应用。" 3000 (_force_refresh_plot false w2))
                = log w ++ es ++ refresh ++ [StatusMessage "全局过滤器已应用。" 3000])
      as Hrest.
    { intros w2 He es Hl.
      destruct (settings_kept_force_refresh_plot false w2) as (_ & _ & _ & _ & He3 & _).
      destruct (keeps_force_refresh_plot false w2) as (_ & _ & _ & refresh & Hl3 & Hq).
      unfold showMessage. rewrite log_emit, Hl3, Hl.
      split; [rewrite <- He, <- He3; reflexivity|].
      exists refresh. split; [exact Hq|]. rewrite <- !app_assoc. reflexivity. }
    destruct (Py.truthy given).
    + match goal with
      | |- context [_force_refresh_plot false ?x] =>
          destruct (Hrest x eq_refl
                      [Call "data_manager.set_global_filter";
                       MessageBox Information "过滤器提示"
                         ("全局过滤器已设置。" +:+ NL +:+ NL
                          +:+ "请注意：在当前版本中，此过滤器主要用于数据导出，尚不会影响实时可视化和计算。")])
            as (He & refresh & Hq & Hl)
      end.
      { rewrite !log_emit, <- app_assoc. reflexivity. }
      split; [exact He|]. split; [discriminate|]. intros _. exists refresh.
      split; [exact Hq|]. rewrite Hl. reflexivity.
    + match goal with
      | |- context [_force_refresh_plot false ?x] =>
          destruct (Hrest x eq_refl [Call "data_manager.set_global_filter"])
            as (He & refresh & Hq & Hl)
      end.
      { rewrite !log_emit. reflexivity. }
      split; [exact He|]. split; [discriminate|]. intros _. exists refresh.
      split; [exact Hq|]. rewrite Hl. reflexivity.
  - split; [reflexivity|]. split; [|discriminate].
    intros e' [= <-]. apply log_emit.
Qed.

(** X28. The filter builder. With no frames only the warning is shown,
    and a builder that is cancelled leaves nothing but its own call. An
    accepted filter is written into the filter editor, the other editors
    staying as they are, whether or not the filter is then applied: the
    data manager is given the built filter only when the filter checkbox is
    checked and the empty filter otherwise, and when it rejects what it is
    given the critical box is the only further effect. *)
Theorem built_filter_reaches_editor (built : option string) (w : Window) :
  let w' := _open_filter_builder built w in
  let dm := data_manager w in
  let opened := Call "FilterBuilderDialog.exec" in
  (get_frame_count dm = 0%Z ->
   w' = emit (MessageBox Warning "无数据" "请先加载数据再构建过滤器。") w) /\
  (get_frame_count dm <> 0%Z -> built = None -> w' = emit opened w) /\
  (forall f : string,
     get_frame_count dm <> 0%Z -> built = Some f ->
     let given := if filter_enabled_checkbox w then f else "" in
     text (editor w' filter_text_edit) = f /\
     (forall id, id <> filter_text_edit -> editor w' id = editor w id) /\
     (forall e, set_global_filter dm given = Py.Raised e ->
        log w' = log w ++ [opened; MessageBox Critical "过滤器错误"
                                     ("过滤器语法无效: " +:+ e)]) /\
     (set_global_filter dm given = Py.Returned tt ->
      exists refresh : list effect,
        Forall quiet refresh /\
        log w' = log w ++ [opened; Call "data_manager.set_global_filter"]
                 ++ (if Py.truthy given
                     then [MessageBox Information "过滤器提示"
                             ("全局过滤器已设置。" +:+ NL +:+ NL
                              +:+ "请注意：在当前版本中，此过滤器主要用于数据导出，尚不会影响实时可视化和计算。")]
                     else [])
                 ++ refresh ++ [StatusMessage "全局过滤器已应用。" 3000])).
Proof.
  cbv zeta. unfold _open_filter_builder.
  destruct (Z.eqb_spec (get_frame_count (data_manager w)) 0) as [H0|H0].
  { split; [reflexivity|]. split; [congruence|]. intros; congruence. }
  split; [congruence|].
  destruct built as [f|]; [|split; [reflexivity | intros; discriminate]].
  split; [discriminate|].
  intros f' _ [= <-].
  set (E := update_editor filter_text_edit
              (set_text f (editor (emit (Call "FilterBuilderDialog.exec") w) filter_text_edit))
              (editor (emit (Call "FilterBuilderDialog.exec") w))).
  set (w1 := set_editor E (emit (Call "FilterBuilderDialog.exec") w)).
  assert (editor w1 = E) as HE by reflexivity.
  assert (filter_enabled_checkbox w1 = filter_enabled_checkbox w) as Hchk by reflexivity.
  assert (data_manager w1 = data_manager w) as Hdm by reflexivity.
  assert (log w1 = log w ++ [Call "FilterBuilderDialog.exec"]) as Hlog by reflexivity.
  assert (text (E filter_text_edit) = f) as Htext
    by (unfold E; rewrite update_editor_same; reflexivity).
  assert (forall id, id <> filter_text_edit -> E id = editor w id) as Hothers
    by (intros id Hid; unfold E; rewrite update_editor_other by exact Hid; reflexivity).
  destruct (apply_global_filter_cases w1) as (He & Hraise & Hok).
  cbv zeta in Hraise, Hok. rewrite Hchk, Hdm, HE, Htext in Hraise, Hok.
  clearbody w1. clearbody E.
  rewrite He, HE.
  split; [exact Htext|]. split; [exact Hothers|].
  split.
  - intros e Hset. rewrite (Hraise e Hset), Hlog, <- app_assoc. reflexivity.
  - intros Hset. destruct (Hok Hset) as (refresh & Hq & Hl).
    exists refresh. split; [exact Hq|]. rewrite Hl, Hlog, <- !app_assoc. reflexivity.
Qed.

End FilterFacts.

Section RefusedBooleanFacts.
Import Qt Np TimeSeriesDialog DialogTerms MoreDialogTerms.

Lemma refused_button_stays_off (message : string) (dm : DataManager) (d : Dialog) :
  fft_button d = false -> fft_button (plot_data (TypeError message) dm d) = false.
Proof.
  intros Hoff.
  destruct (string_dec (currentText (variable_combo d)) "") as [Hnone|Hsel].
  - unfold plot_data. rewrite Hnone. exact Hoff.
  - rewrite (plot_data_button _ dm d Hsel).
    destruct (get_timeseries_at_point dm _ _ _) as [[df|]|e]; [|reflexivity ..].
    apply andb_false_r.
Qed.

(** X29. Where PyQt6 refuses the NumPy boolean, the FFT button of a dialog
    is never enabled, whatever the data manager returns and whatever the
    user does. A call of [plot_data] that retrieves more than one row
    stores and plots the dataframe like any other, then ends in the
    handler of the [try] block: the failure text is written over the plot
    and both buttons are disabled. *)
Theorem refused_boolean_disables_fft (message : string) (coords : Q * Q)
    (dm : DataManager) (out_dir : string) (events : list event) :
  fft_button (run (TypeError message) (init (TypeError message) coords dm out_dir) events)
  = false /\
  forall (dm' : DataManager) (d : Dialog) (rows : DataFrame),
    currentText (variable_combo d) <> "" ->
    get_timeseries_at_point dm' (currentText (variable_combo d)) (point_coords d)
      (tolerance dm') = Py.Returned (Some rows) ->
    (1 < length rows)%nat ->
    let d' := plot_data (TypeError message) dm' d in
    fft_button d' = false /\ export_fft_button d' = false /\
    current_df d' = Some rows /\
    lines (ax_time d') = [(times rows, values rows)] /\
    texts (ax_time d') = ["绘图失败:" +:+ NL +:+ message].
Proof.
  split.
  - assert (fft_button (init (TypeError message) coords dm out_dir) = false) as Hinit
      by (unfold init; apply refused_button_stays_off; reflexivity).
    unfold run. revert Hinit. generalize (init (TypeError message) coords dm out_dir).
    induction events as [|e events IH]; intros d0 H0; [exact H0|].
    cbn [fold_left]. apply IH. destruct e as [i dm'| |]; cbn [step].
    + destruct (_ && _); [|exact H0]. apply refused_button_stays_off. exact H0.
    + destruct (plot_fft_combo d0) as [_ ->]. exact H0.
    + exact H0.
  - intros dm' d rows Hsel Hget Hlen. cbv zeta.
    destruct (plot_data_cases (TypeError message) dm' d)
      as [[Hno _] | (_ & [(e & He & _) | [(df & Hdf & Hnone & _) |
                          [(rows' & e & Hr & _ & Hnp & ->) | (rows' & Hr & _ & Hnp & _)]]])].
    + contradiction.
    + congruence.
    + rewrite Hget in Hdf. injection Hdf as <-.
      destruct Hnone as [H|H]; [discriminate|]. injection H as ->. simpl in Hlen. lia.
    + rewrite Hget in Hr. injection Hr as <-. injection Hnp as <-.
      repeat split.
    + rewrite Hget in Hr. injection Hr as <-.
      destruct Hnp as [H|H]; [lia | discriminate].
Qed.

End RefusedBooleanFacts.
